(** * Mood inference and validation pipeline of the AI journal app

    A shallow embedding of [utils/emotion_validator.py] and of the parts of
    [utils/mood_analyzer.py] that feed it.

    Modelling conventions.
    - Python floats are modelled by exact rationals ([Q]); equality of
      numeric fields is [Qeq] ([==]).  [round(x, n)] is round-half-even to
      [n] decimals.  Non-finite floats are outside the model.  A float
      operation can miss the exact result by its last bit (0.55 + 0.08 * 2
      is 0.7100000000000001).  The statements are therefore made of the
      values that the code rounds ([round(., 2)], [round(., 4)]), and
      where a mean or a difference is compared with a constant they keep
      a margin to that constant.  Where the last bit itself is the
      matter, the statement is made in binary64 ([Float64]).
    - Python [str] is modelled by [string]; the character classes used by
      [lower], [split], [strip], [isalpha] and the regular expression
      classes [\w] and [\s] are those of the code points below 128.
    - An insertion-ordered [dict] is an association list in insertion order.
    - A raising operation ([d[k]] on a missing key, [max] of an empty
      iterable) returns [Raise]. *)

From Stdlib Require Import QArith Qround Qabs ZArith Lia Lqa.
From Stdlib Require Import List String Ascii Bool Arith FinFun.
From Stdlib Require Floats.
Import ListNotations.

Open Scope string_scope.
Open Scope Q_scope.

(* ------------------------------------------------------------------ *)
(** ** Python numerics *)

Module PyNum.

Definition Qltb (x y : Q) : bool := negb (Qle_bool y x).

(** [min(a, b)]: the first argument unless the second is strictly smaller. *)
Definition py_min (a b : Q) : Q := if Qltb b a then b else a.

(** [max(a, b)]: the first argument unless the second is strictly greater. *)
Definition py_max (a b : Q) : Q := if Qltb a b then b else a.

Definition round_half_even (q : Q) : Z :=
  let f := Qfloor q in
  let d := q - inject_Z f in
  if Qltb d (1 # 2) then f
  else if Qltb (1 # 2) d then (f + 1)%Z
  else if Z.even f then f else (f + 1)%Z.

Definition pow10 (ndigits : nat) : positive := Pos.pow 10 (Pos.of_nat ndigits).

(** [round(x, ndigits)] for [ndigits >= 1]. *)
Definition py_round (x : Q) (ndigits : nat) : Q :=
  Qmake (round_half_even (x * inject_Z (Zpos (pow10 ndigits)))) (pow10 ndigits).

End PyNum.
Import PyNum.

(* ------------------------------------------------------------------ *)
(** ** Python strings *)

Module PyStr.

Definition code (c : ascii) : nat := nat_of_ascii c.

Definition between (lo hi : nat) (c : ascii) : bool :=
  (lo <=? code c)%nat && (code c <=? hi)%nat.

Definition is_upper (c : ascii) : bool := between 65 90 c.
Definition is_lower (c : ascii) : bool := between 97 122 c.
Definition is_digit (c : ascii) : bool := between 48 57 c.
Definition is_alpha (c : ascii) : bool := is_upper c || is_lower c.

(** [str.isspace] on one character: TAB, LF, VT, FF, CR, FS, GS, RS, US, SPACE. *)
Definition is_space (c : ascii) : bool :=
  between 9 13 c || between 28 32 c.

(** The class [\w]: letters, digits and the underscore. *)
Definition is_word (c : ascii) : bool :=
  is_alpha c || is_digit c || (code c =? 95)%nat.

Definition lower_char (c : ascii) : ascii :=
  if is_upper c then ascii_of_nat (code c + 32) else c.

Fixpoint map_chars (f : ascii -> ascii) (s : string) : string :=
  match s with
  | EmptyString => EmptyString
  | String c s' => String (f c) (map_chars f s')
  end.

Fixpoint forall_chars (p : ascii -> bool) (s : string) : bool :=
  match s with
  | EmptyString => true
  | String c s' => p c && forall_chars p s'
  end.

(** [s.lower()] *)
Definition lower (s : string) : string := map_chars lower_char s.

(** [s.isalpha()]: non-empty and every character alphabetic. *)
Definition isalpha (s : string) : bool :=
  match s with
  | EmptyString => false
  | _ => forall_chars is_alpha s
  end.

Definition is_empty (s : string) : bool :=
  match s with EmptyString => true | _ => false end.

(** [s.split()]: maximal runs of non-whitespace characters.  [cur] is
    the run being read. *)
Fixpoint split_from (cur : string) (s : string) : list string :=
  match s with
  | EmptyString => if is_empty cur then [] else [cur]
  | String c s' =>
      if is_space c
      then (if is_empty cur then split_from "" s' else cur :: split_from "" s')
      else split_from (cur ++ String c "") s'
  end.

Definition split (s : string) : list string := split_from "" s.

Fixpoint mem_char (c : ascii) (chars : list ascii) : bool :=
  match chars with
  | [] => false
  | d :: chars' => Ascii.eqb c d || mem_char c chars'
  end.

(** [s.lstrip(chars)] *)
Fixpoint lstrip (p : ascii -> bool) (s : string) : string :=
  match s with
  | EmptyString => EmptyString
  | String c s' => if p c then lstrip p s' else s
  end.

(** [s.rstrip(chars)] *)
Fixpoint rstrip (p : ascii -> bool) (s : string) : string :=
  match s with
  | EmptyString => EmptyString
  | String c s' =>
      let r := rstrip p s' in
      if is_empty r && p c then EmptyString else String c r
  end.

(** [s.strip(chars)] and, with [is_space], [s.strip()]. *)
Definition strip (p : ascii -> bool) (s : string) : string :=
  rstrip p (lstrip p s).

(** [x in xs] for a list or a set of strings. *)
Definition mem (x : string) (xs : list string) : bool :=
  existsb (String.eqb x) xs.

End PyStr.
Import PyStr.

(* ------------------------------------------------------------------ *)
(** ** Errors and dictionaries *)

Inductive exn : Type := KeyError | ValueError | AttributeError.

Inductive res (A : Type) : Type :=
| Ok (a : A)
| Raise (e : exn).
Arguments Ok {A} a.
Arguments Raise {A} e.

Definition bind {A B : Type} (m : res A) (k : A -> res B) : res B :=
  match m with
  | Ok a => k a
  | Raise e => Raise e
  end.

Notation "x <- m ;; k" := (bind m (fun x => k))
  (at level 61, m at next level, right associativity).
Notation "' p <- m ;; k" := (bind m (fun x => let p := x in k))
  (at level 61, p pattern, m at next level, right associativity).

Section Dict.
Context {V : Type}.

(** [d.get(k)] *)
Fixpoint dict_get (d : list (string * V)) (k : string) : option V :=
  match d with
  | [] => None
  | (k', v) :: d' => if String.eqb k k' then Some v else dict_get d' k
  end.

(** [d.get(k, default)] *)
Definition dict_get_default (d : list (string * V)) (k : string) (default : V) : V :=
  match dict_get d k with Some v => v | None => default end.

(** [d[k]] *)
Definition dict_index (d : list (string * V)) (k : string) : res V :=
  match dict_get d k with Some v => Ok v | None => Raise KeyError end.
End Dict.

(* ------------------------------------------------------------------ *)
(** ** Result records *)

(** The dataclass [MoodResult]; also the dictionary that [validate_and_fix]
    returns, which always holds the four keys. *)
Record MoodResult : Type := mkMoodResult {
  mood_score : Q;
  dominant_emotion : string;
  confidence : Q;
  keywords : list string
}.

(** The dictionary handed to [validate_and_fix]: each of the four keys may
    be missing or hold [None]. *)
Record mood_dict : Type := mkMoodDict {
  get_mood_score : option Q;
  get_dominant_emotion : option string;
  get_confidence : option Q;
  get_keywords : option (list string)
}.

(** [MoodResult.to_dict] *)
Definition to_dict (r : MoodResult) : mood_dict :=
  mkMoodDict (Some (mood_score r)) (Some (dominant_emotion r))
             (Some (confidence r)) (Some (keywords r)).

(** Equality of results: [==] on the numeric fields. *)
Definition MoodResult_eq (r1 r2 : MoodResult) : Prop :=
  mood_score r1 == mood_score r2 /\
  dominant_emotion r1 = dominant_emotion r2 /\
  confidence r1 == confidence r2 /\
  keywords r1 = keywords r2.

(** The closed set of emotions. *)
Definition valid_emotions : list string :=
  ["happy"; "sad"; "anxious"; "calm"; "angry"; "neutral"].

(* ------------------------------------------------------------------ *)
(** ** utils/emotion_validator.py *)

Module EmotionValidator.

Definition EMOTION_KEYWORDS : list (string * list string) :=
  [ ("happy",
     ["happy"; "joy"; "joyful"; "excited"; "excitement"; "proud"; "pride";
      "wonderful"; "amazing"; "fantastic"; "great"; "excellent"; "awesome";
      "brilliant"; "delighted"; "delight"; "grateful"; "gratitude";
      "blessed"; "thrilled"; "elated"; "cheerful"; "content"; "pleased";
      "glad"; "celebrating"; "celebrate"; "achievement"; "accomplished";
      "success"; "love"; "loved"; "loving"; "beautiful"; "incredible";
      "euphoric"]);
    ("sad",
     ["sad"; "sadness"; "unhappy"; "down"; "depressed"; "depression";
      "disappointed"; "disappointment"; "miserable"; "misery"; "grief";
      "grieving"; "heartbroken"; "devastated"; "devastation"; "hopeless";
      "hopelessness"; "crying"; "cried"; "tears"; "lonely"; "loneliness";
      "loss"; "lost"; "empty"; "emptiness"; "heavy"; "hurt"; "pain";
      "rejected"; "rejection"; "failure"; "failed"; "worthless";
      "helpless"; "gloomy"; "melancholy"; "sorrow"; "sorrowful";
      "suffering"; "suffer"; "ache"; "aching"; "miss"; "missing"; "missed"]);
    ("anxious",
     ["anxious"; "anxiety"; "worried"; "worry"; "worrying"; "stress";
      "stressed"; "stressful"; "nervous"; "nervousness"; "overwhelmed";
      "overwhelming"; "panic"; "panicking"; "scared"; "fear"; "fearful";
      "afraid"; "dread"; "dreading"; "tense"; "tension"; "uneasy";
      "unease"; "restless"; "restlessness"; "uncertain"; "uncertainty";
      "overthinking"; "racing"; "overthink"]);
    ("calm",
     ["calm"; "peaceful"; "peace"; "relaxed"; "relaxing"; "relax";
      "serene"; "serenity"; "tranquil"; "tranquility"; "content";
      "contentment"; "comfortable"; "patient"; "patience"; "grounded";
      "present"; "mindful"; "mindfulness"; "gentle"; "stillness"; "still";
      "quiet"; "steady"; "slow"; "breathe"; "breathing"; "meditate";
      "meditation"; "balanced"; "harmony"; "ease"]);
    ("angry",
     ["angry"; "anger"; "furious"; "fury"; "rage"; "raging"; "mad";
      "frustrated"; "frustration"; "irritated"; "irritation"; "annoyed";
      "annoyance"; "outraged"; "outrage"; "infuriated"; "livid"; "fuming";
      "resentful"; "resentment"; "bitter"; "bitterness"; "hostile";
      "hatred"; "hate"; "disgusted"; "disgust"]);
    ("neutral",
     ["okay"; "fine"; "alright"; "regular"; "normal"; "usual"; "average";
      "ordinary"; "standard"; "typical"; "moderate"; "so-so"]) ].

Definition EMOTION_SCORE_RANGES : list (string * (Q * Q)) :=
  [ ("happy",   (2 # 10, 1));
    ("calm",    (1 # 10, 6 # 10));
    ("neutral", (- (15 # 100), 15 # 100));
    ("anxious", (- (8 # 10), - (1 # 10)));
    ("sad",     (- (9 # 10), - (2 # 10)));
    ("angry",   (- (9 # 10), - (3 # 10))) ].

(** [re.sub(r"[^\w\s]", " ", text)] *)
Definition sub_punctuation (text : string) : string :=
  map_chars (fun c => if is_word c || is_space c then c else " "%char) text.

Definition _tokenize (text : string) : list string :=
  let text := lower text in
  let text := sub_punctuation text in
  split text.

(** [sum(1 for kw in keywords if kw in token_set)] *)
Definition count_matches (keywords tokens : list string) : nat :=
  List.length (filter (fun kw => mem kw tokens) keywords).

Definition _count_emotion_matches (tokens : list string) : list (string * nat) :=
  map (fun ek => (fst ek, count_matches (snd ek) tokens)) EMOTION_KEYWORDS.

(** [max(d, key=d.get)] over the keys of a dictionary with distinct keys:
    the candidate is replaced only by a strictly greater count. *)
Fixpoint max_from (cur : string * nat) (d : list (string * nat)) : string * nat :=
  match d with
  | [] => cur
  | x :: d' => if (snd cur <? snd x)%nat then max_from x d' else max_from cur d'
  end.

Definition max_key (d : list (string * nat)) : option string :=
  match d with
  | [] => None
  | x :: d' => Some (fst (max_from x d'))
  end.

(** [{e: c for e, c in counts.items() if e != "neutral"}] *)
Definition primary_of (counts : list (string * nat)) : list (string * nat) :=
  filter (fun ec => negb (String.eqb (fst ec) "neutral")) counts.

(** The score is rounded to two decimals by the code itself.  The
    confidence is not: as a float, 0.55 + 0.08 * n ends one bit above the
    decimal for n = 2 and n = 4, which the [round(confidence, 4)] of
    [validate_and_fix] takes away again. *)
Definition _detect_emotion_from_text (text : string) : res (string * Q * Q) :=
  let tokens := _tokenize text in
  let counts := _count_emotion_matches tokens in
  let primary_counts := primary_of counts in
  let total := list_sum (map snd primary_counts) in
  if (total =? 0)%nat then Ok ("neutral", 0, 1 # 2)
  else
    dominant <- match max_key primary_counts with
                | Some e => Ok e
                | None => Raise ValueError
                end ;;
    match_count <- dict_index primary_counts dominant ;;
    range <- dict_index EMOTION_SCORE_RANGES dominant ;;
    let score_min := fst range in
    let score_max := snd range in
    let score_range := score_max - score_min in
    let mc := inject_Z (Z.of_nat match_count) in
    let intensity := py_min 1 (mc / 5) in
    let base_score := score_min + score_range * intensity in
    let base_score := py_round (py_max score_min (py_min score_max base_score)) 2 in
    let confidence := py_min (90 # 100) ((55 # 100) + mc * (8 # 100)) in
    Ok (dominant, base_score, confidence).

Definition stop_words : list string :=
  [ "the"; "and"; "for"; "are"; "but"; "not"; "you"; "all"; "can"; "had";
    "her"; "was"; "one"; "our"; "out"; "day"; "get"; "has"; "him"; "his";
    "how"; "its"; "may"; "now"; "off"; "old"; "own"; "say"; "she"; "too";
    "use"; "way"; "who"; "with"; "this"; "that"; "have"; "from"; "they";
    "will"; "been"; "were"; "said"; "each"; "which"; "their"; "there";
    "what"; "when"; "where"; "would"; "make"; "like"; "into"; "just";
    "know"; "take"; "than"; "them"; "well"; "also"; "back"; "after";
    "even"; "most"; "such"; "through"; "those"; "then"; "about";
    "should"; "since"; "could"; "still"; "really"; "today"; "because";
    "right"; "always"; "never"; "every"; "feel"; "feels"; "felt"; "seem";
    "seems"; "seemed"; "think"; "thought"; "trying"; "tried"; "want";
    "wanted"; "went"; "made"; "came"; "went"; "woke"; "spent"; "couldn";
    "didn"; "doesn"; "isn"; "wasn"; "hasn"; "haven"; "hadn"; "myself";
    "yourself"; "himself"; "herself"; "itself"; "sometimes"; "something";
    "anything"; "nothing"; "everything"; "though"; "although"; "while";
    "since"; "until"; "unless"; "pass"; "must"; "much"; "many"; "more";
    "some"; "same" ].

(** The deduplicating loop of [_extract_quality_keywords]; [seen] holds
    exactly the words of [final_keywords]. *)
Fixpoint dedup_loop (kws final_keywords : list string) : list string :=
  match kws with
  | [] => final_keywords
  | kw :: kws' =>
      let final_keywords :=
        if mem kw final_keywords then final_keywords else (final_keywords ++ [kw])%list in
      if (5 <=? List.length final_keywords)%nat then final_keywords
      else dedup_loop kws' final_keywords
  end.

Definition emotion_kwds_of (emotion : string) (tokens : list string) : list string :=
  filter (fun kw => mem kw tokens) (dict_get_default EMOTION_KEYWORDS emotion []).

Definition content_words_of (emotion_kwds tokens : list string) : list string :=
  filter (fun t => (4 <? String.length t)%nat
                   && isalpha t
                   && negb (mem t stop_words)
                   && negb (mem t emotion_kwds)) tokens.

Definition _extract_quality_keywords (text emotion : string) : list string :=
  let tokens := _tokenize text in
  let emotion_kwds := emotion_kwds_of emotion tokens in
  let content_words := content_words_of emotion_kwds tokens in
  let final_keywords := dedup_loop (emotion_kwds ++ content_words)%list [] in
  match final_keywords with
  | [] => ["journal"; "entry"]
  | _ => final_keywords
  end.

(** The three values that the checks of [validate_and_fix] rewrite. *)
Definition triple : Type := (string * Q * Q)%type.

Definition positive_emotions : list string := ["happy"; "calm"].
Definition negative_emotions : list string := ["sad"; "anxious"; "angry"].

(** [x or default] on the values read from the dictionary. *)
Definition str_or (v : option string) (default : string) : string :=
  match v with
  | Some s => if is_empty s then default else s
  | None => default
  end.

Definition num_or (v : option Q) (default : Q) : Q :=
  match v with
  | Some q => if Qeq_bool q 0 then default else q
  | None => default
  end.

(** The emotion and the confidence that [validate_and_fix] reads. *)
Definition candidate_emotion (mood_result : mood_dict) : string :=
  lower (str_or (get_dominant_emotion mood_result) "neutral").

Definition candidate_confidence (mood_result : mood_dict) : Q :=
  num_or (get_confidence mood_result) 0.

(** Reading and clamping the candidate. *)
Definition read_candidate (mood_result : mood_dict) : triple :=
  let emotion := lower (str_or (get_dominant_emotion mood_result) "neutral") in
  let score := num_or (get_mood_score mood_result) 0 in
  let confidence := num_or (get_confidence mood_result) 0 in
  let score := py_max (-1) (py_min 1 score) in
  (emotion, score, confidence).

(** CHECK 1: low confidence. *)
Definition check_confidence (original_text : string) (s : triple) : res triple :=
  let '(emotion, score, confidence) := s in
  if Qltb confidence (1 # 2) then _detect_emotion_from_text original_text
  else Ok s.

(** CHECK 2 and CHECK 3: one [if]/[elif] chain. *)
Definition check_sign (original_text : string) (s : triple) : res triple :=
  let '(emotion, score, confidence) := s in
  if mem emotion positive_emotions && Qltb score 0 then
    Ok (emotion, Qabs score, confidence)
  else if mem emotion negative_emotions && Qltb 0 score then
    Ok (emotion, - Qabs score, confidence)
  else if String.eqb emotion "neutral" && Qltb (25 # 100) (Qabs score) then
    _detect_emotion_from_text original_text
  else Ok s.

(** CHECK 4: clamp into the range of the emotion. *)
Definition check_range (s : triple) : triple :=
  let '(emotion, score, confidence) := s in
  match dict_get EMOTION_SCORE_RANGES emotion with
  | Some (score_min, score_max) =>
      let clamped := py_max score_min (py_min score_max score) in
      if negb (Qeq_bool clamped score) then (emotion, clamped, confidence)
      else s
  | None => s
  end.

(** CHECK 5: text evidence. *)
Definition check_evidence (original_text : string) (s : triple) : res triple :=
  let '(emotion, score, confidence) := s in
  let tokens := _tokenize original_text in
  let counts := _count_emotion_matches tokens in
  if (dict_get_default counts emotion 0 =? 0)%nat then
    match max_key (primary_of counts) with
    | None => Ok s
    | Some best_emotion =>
        if negb (is_empty best_emotion) then
          n <- dict_index counts best_emotion ;;
          if (0 <? n)%nat then _detect_emotion_from_text original_text
          else Ok s
        else Ok s
    end
  else Ok s.

(** The checks in their order. *)
Definition run_checks (mood_result : mood_dict) (original_text : string) : res triple :=
  let s := read_candidate mood_result in
  s <- check_confidence original_text s ;;
  s <- check_sign original_text s ;;
  let s := check_range s in
  check_evidence original_text s.

(** CHECK 6 and the final dictionary. *)
Definition fixed_result (original_text : string) (s : triple) : MoodResult :=
  let '(emotion, score, confidence) := s in
  let quality_keywords := _extract_quality_keywords original_text emotion in
  mkMoodResult (py_round score 4) emotion (py_round confidence 4) quality_keywords.

Definition validate_and_fix (mood_result : mood_dict) (original_text : string)
  : res MoodResult :=
  s <- run_checks mood_result original_text ;;
  Ok (fixed_result original_text s).

(** *** Notions used by the statements *)

(** The number of keywords of [emotion] that are tokens of [text]. *)
Definition evidence (text emotion : string) : nat :=
  dict_get_default (_count_emotion_matches (_tokenize text)) emotion 0%nat.

(** The matches of the five emotions other than neutral, added up. *)
Definition primary_total (text : string) : nat :=
  list_sum (map snd (primary_of (_count_emotion_matches (_tokenize text)))).

(** The condition under which CHECK 5 re-detects. *)
Definition override_guard (text emotion : string) : bool :=
  (evidence text emotion =? 0)%nat && negb (primary_total text =? 0)%nat.

(** [_detect_emotion_from_text] from the primary counts on. *)
Definition detect_of_counts (primary_counts : list (string * nat)) : res triple :=
  let total := list_sum (map snd primary_counts) in
  if (total =? 0)%nat then Ok ("neutral", 0, 1 # 2)
  else
    dominant <- match max_key primary_counts with
                | Some e => Ok e
                | None => Raise ValueError
                end ;;
    match_count <- dict_index primary_counts dominant ;;
    range <- dict_index EMOTION_SCORE_RANGES dominant ;;
    let score_min := fst range in
    let score_max := snd range in
    let score_range := score_max - score_min in
    let mc := inject_Z (Z.of_nat match_count) in
    let intensity := py_min 1 (mc / 5) in
    let base_score := score_min + score_range * intensity in
    let base_score := py_round (py_max score_min (py_min score_max base_score)) 2 in
    let confidence := py_min (90 # 100) ((55 # 100) + mc * (8 # 100)) in
    Ok (dominant, base_score, confidence).

(** The score lies in the range that the table gives for the emotion. *)
Definition in_table_range (emotion : string) (score : Q) : Prop :=
  exists lo hi : Q,
    dict_get EMOTION_SCORE_RANGES emotion = Some (lo, hi) /\
    lo <= score /\ score <= hi.

(** The sign of the score agrees with the polarity class of the emotion. *)
Definition polarity_ok (emotion : string) (score : Q) : Prop :=
  (In emotion positive_emotions -> 0 <= score) /\
  (In emotion negative_emotions -> score <= 0) /\
  (emotion = "neutral" -> Qabs score <= 15 # 100).

(** As [in_table_range], and nothing for an emotion outside the table. *)
Definition range_ok (emotion : string) (score : Q) : Prop :=
  match dict_get EMOTION_SCORE_RANGES emotion with
  | Some (lo, hi) => lo <= score /\ score <= hi
  | None => True
  end.

(** A state that the checks leave as it is. *)
Definition settled (text : string) (s : triple) : Prop :=
  let '(emotion, score, confidence) := s in
  1 # 2 <= confidence /\
  lower emotion = emotion /\ emotion <> "" /\
  (-1 <= score /\ score <= 1) /\
  range_ok emotion score /\
  override_guard text emotion = false.

(** The conditions under which one of the checks replaces the candidate
    by the output of the re-detector: CHECK 1 on a confidence below 0.5,
    CHECK 3 on a neutral candidate whose clamped score is beyond 0.25,
    CHECK 5 on an emotion without evidence where another has some. *)
Definition redetects (mood_result : mood_dict) (text : string) : bool :=
  let '(emotion, score, confidence) := read_candidate mood_result in
  Qltb confidence (1 # 2)
  || (String.eqb emotion "neutral" && Qltb (25 # 100) (Qabs score))
  || override_guard text emotion.

(** The emotion of a result has keyword evidence in the text or is what
    the re-detector returns for the text. *)
Definition evidence_or_redetected (text : string) (r : MoodResult) : Prop :=
  (0 < evidence text (dominant_emotion r))%nat \/
  exists s c, _detect_emotion_from_text text = Ok (dominant_emotion r, s, c).

(** How a final state came about: the candidate's emotion and confidence
    were kept, or the state is what the re-detector returns. *)
Definition provenance (mood_result : mood_dict) (text : string) (s : triple) : Prop :=
  let '(e, sc, c) := s in
  (e = candidate_emotion mood_result /\ c = candidate_confidence mood_result /\
   1 # 2 <= c /\ override_guard text e = false) \/
  (exists sd, _detect_emotion_from_text text = Ok (e, sd, c) /\ sc == sd).

End EmotionValidator.

(* ------------------------------------------------------------------ *)
(** ** utils/emotion_validator.py in binary64

    The numbers of [_detect_emotion_from_text] and of [validate_and_fix]
    once more, as the floats that Python computes with: [float] is the
    binary64 type of the kernel, whose operations round to nearest, ties
    to even.  The tokens, the counts and the keywords are those of
    [EmotionValidator]. *)

Module Float64.
Import Floats.
Import EmotionValidator.
Local Open Scope float_scope.
#[local] Set Warnings "-inexact-float".

(** [float(n)] for a count (below 2^63). *)
Definition of_nat (n : nat) : float := PrimFloat.of_uint63 (Uint63.of_Z (Z.of_nat n)).

(** The exact value of a finite float. *)
Definition to_Q (x : float) : Q :=
  match Prim2SF x with
  | S754_finite s m e =>
      let v := (inject_Z (Zpos m) * Qpower 2 e)%Q in
      if s then (- v)%Q else v
  | _ => 0%Q
  end.

(** An integer as an unrounded operand of [SFdiv]. *)
Definition of_Z (z : Z) : spec_float :=
  match z with
  | Z0 => S754_zero false
  | Zpos p => S754_finite false p 0
  | Zneg p => S754_finite true p 0
  end.

(** The float nearest to a rational, ties to even, which is what a
    decimal literal denotes: the quotient of the numerator by the
    denominator, rounded once. *)
Definition of_Q (q : Q) : float :=
  SF2Prim (SFdiv prec emax (of_Z (Qnum q)) (of_Z (Zpos (Qden q)))).

Definition py_min (a b : float) : float := if b <? a then b else a.
Definition py_max (a b : float) : float := if a <? b then b else a.

(** [round(x, ndigits)] for [ndigits >= 1]: the exact value of [x] is
    rounded half-even to [ndigits] decimals, and the float nearest to
    that decimal is returned; a zero keeps the sign of [x], and an
    infinity or a NaN is returned as it is. *)
Definition py_round (x : float) (ndigits : nat) : float :=
  if is_finite x then
    let k := round_half_even (to_Q x * inject_Z (Zpos (pow10 ndigits))) in
    if (k =? 0)%Z then x * 0 else of_Q (k # pow10 ndigits)
  else x.


(** The dataclass [MoodResult] and the dictionary handed to
    [validate_and_fix], with float fields. *)
Record MoodResult : Type := mkMoodResult {
  mood_score : float;
  dominant_emotion : string;
  confidence : float;
  keywords : list string
}.

Record mood_dict : Type := mkMoodDict {
  get_mood_score : option float;
  get_dominant_emotion : option string;
  get_confidence : option float;
  get_keywords : option (list string)
}.

Definition EMOTION_SCORE_RANGES : list (string * (float * float)) :=
  [ ("happy",   (0.2, 1.0));
    ("calm",    (0.1, 0.6));
    ("neutral", (-0.15, 0.15));
    ("anxious", (-0.8, -0.1));
    ("sad",     (-0.9, -0.2));
    ("angry",   (-0.9, -0.3)) ].

(** Lines 118 to 128: the score and the confidence for the dominant
    emotion and its match count. *)
Definition detect_numbers (dominant : string) (match_count : nat) : res (float * float) :=
  range <- dict_index EMOTION_SCORE_RANGES dominant ;;
  let score_min := fst range in
  let score_max := snd range in
  let score_range := score_max - score_min in
  let intensity := py_min 1.0 (of_nat match_count / 5.0) in
  let base_score := score_min + (score_range * intensity) in
  let base_score := py_round (py_max score_min (py_min score_max base_score)) 2 in
  let confidence := py_min 0.90 (0.55 + (of_nat match_count * 0.08)) in
  Ok (base_score, confidence).

Definition _detect_emotion_from_text (text : string) : res (string * float * float) :=
  let tokens := _tokenize text in
  let counts := _count_emotion_matches tokens in
  let primary_counts := primary_of counts in
  let total := list_sum (map snd primary_counts) in
  if (total =? 0)%nat then Ok ("neutral", 0.0, 0.5)
  else
    dominant <- match max_key primary_counts with
                | Some e => Ok e
                | None => Raise ValueError
                end ;;
    match_count <- dict_index primary_counts dominant ;;
    numbers <- detect_numbers dominant match_count ;;
    Ok (dominant, fst numbers, snd numbers).

Definition triple : Type := (string * float * float)%type.

(** [x or 0.0]: zero of either sign is false, any other float is true. *)
Definition num_or (v : option float) (default : float) : float :=
  match v with
  | Some x => if x =? 0 then default else x
  | None => default
  end.

Definition candidate_confidence (mood_result : mood_dict) : float :=
  num_or (get_confidence mood_result) 0.0.

Definition read_candidate (mood_result : mood_dict) : triple :=
  let emotion := lower (str_or (get_dominant_emotion mood_result) "neutral") in
  let score := num_or (get_mood_score mood_result) 0.0 in
  let confidence := num_or (get_confidence mood_result) 0.0 in
  let score := py_max (-1.0) (py_min 1.0 score) in
  (emotion, score, confidence).

(** CHECK 1 *)
Definition check_confidence (original_text : string) (s : triple) : res triple :=
  let '(emotion, score, confidence) := s in
  if confidence <? 0.5 then _detect_emotion_from_text original_text
  else Ok s.

(** CHECK 2 and CHECK 3 *)
Definition check_sign (original_text : string) (s : triple) : res triple :=
  let '(emotion, score, confidence) := s in
  if mem emotion positive_emotions && (score <? 0) then
    Ok (emotion, abs score, confidence)
  else if mem emotion negative_emotions && (0 <? score) then
    Ok (emotion, - abs score, confidence)
  else if String.eqb emotion "neutral" && (0.25 <? abs score) then
    _detect_emotion_from_text original_text
  else Ok s.

(** CHECK 4 *)
Definition check_range (s : triple) : triple :=
  let '(emotion, score, confidence) := s in
  match dict_get EMOTION_SCORE_RANGES emotion with
  | Some (score_min, score_max) =>
      let clamped := py_max score_min (py_min score_max score) in
      if negb (clamped =? score) then (emotion, clamped, confidence)
      else s
  | None => s
  end.

(** CHECK 5 *)
Definition check_evidence (original_text : string) (s : triple) : res triple :=
  let '(emotion, score, confidence) := s in
  let tokens := _tokenize original_text in
  let counts := _count_emotion_matches tokens in
  if (dict_get_default counts emotion 0 =? 0)%nat then
    match max_key (primary_of counts) with
    | None => Ok s
    | Some best_emotion =>
        if negb (is_empty best_emotion) then
          n <- dict_index counts best_emotion ;;
          if (0 <? n)%nat then _detect_emotion_from_text original_text
          else Ok s
        else Ok s
    end
  else Ok s.

Definition run_checks (mood_result : mood_dict) (original_text : string) : res triple :=
  let s := read_candidate mood_result in
  s <- check_confidence original_text s ;;
  s <- check_sign original_text s ;;
  let s := check_range s in
  check_evidence original_text s.

(** CHECK 6 and the final dictionary. *)
Definition fixed_result (original_text : string) (s : triple) : MoodResult :=
  let '(emotion, score, confidence) := s in
  let quality_keywords := _extract_quality_keywords original_text emotion in
  mkMoodResult (py_round score 4) emotion (py_round confidence 4) quality_keywords.

Definition validate_and_fix (mood_result : mood_dict) (original_text : string)
  : res MoodResult :=
  s <- run_checks mood_result original_text ;;
  Ok (fixed_result original_text s).

(** The emotion that [validate_and_fix] reads. *)
Definition candidate_emotion (mood_result : mood_dict) : string :=
  lower (str_or (get_dominant_emotion mood_result) "neutral").

(** *** Notions used by the statements *)

(** The numbers that the re-detector computes for [e] with [n] matches
    pass the sign check and the range check as they are, rounding to
    four decimals leaves the score as it is, and it changes the
    confidence exactly for two and for four matches. *)
Definition settled_numbers (e : string) (n : nat) : bool :=
  match detect_numbers e n, dict_get EMOTION_SCORE_RANGES e with
  | Ok (sf, cf), Some (lo, hi) =>
      negb (mem e positive_emotions && (sf <? 0))
      && negb (mem e negative_emotions && (0 <? sf))
      && (py_max lo (py_min hi sf) =? sf)
      && (py_round sf 4 =? sf)
      && Bool.eqb (py_round cf 4 =? cf) (negb ((n =? 2)%nat || (n =? 4)%nat))
  | _, _ => false
  end.

(** The numbers of the exact model are those of binary64: the float
    score is the float nearest to the exact score, and the float
    confidence, once rounded to four decimals, is the float nearest to
    the exact confidence. *)
Definition agrees_with_exact (e : string) (n : nat) : bool :=
  match detect_numbers e n, dict_get EmotionValidator.EMOTION_SCORE_RANGES e with
  | Ok (sf, cf), Some (lo, hi) =>
      let mc := inject_Z (Z.of_nat n) in
      let s := (PyNum.py_round
                  (PyNum.py_max lo
                     (PyNum.py_min hi (lo + (hi - lo) * PyNum.py_min 1 (mc / 5)))) 2)%Q in
      let c := (PyNum.py_min (90 # 100) ((55 # 100) + mc * (8 # 100)))%Q in
      (sf =? of_Q s)
      && (py_round cf 4 =? of_Q c)
      && Qle_bool (Qabs (to_Q cf - c)) (1 # 1000000000000000)
  | _, _ => false
  end.

End Float64.

(* ------------------------------------------------------------------ *)
(** ** utils/mood_analyzer.py *)

Module MoodAnalyzer.

(** The dictionary [emotions] of [_fallback_analysis]. *)
Definition emotions : list (string * list string) :=
  [ ("happy",
     ["amazing"; "excited"; "proud"; "wonderful"; "great"; "fantastic";
      "love"; "joy"; "thrilled"; "excellent"; "awesome"; "brilliant";
      "delighted"; "happy"; "grateful"; "blessed"; "favorite"]);
    ("sad",
     ["sad"; "depressed"; "unhappy"; "disappointed"; "miserable"; "awful";
      "terrible"; "heartbroken"; "devastated"]);
    ("anxious",
     ["anxious"; "worried"; "stressed"; "nervous"; "overwhelmed"; "scared";
      "fearful"; "panic"; "tense"]);
    ("calm",
     ["calm"; "peaceful"; "relaxed"; "serene"; "tranquil"; "content";
      "comfortable"; "patient"; "grounded"; "present"; "mindfulness";
      "mindful"; "simple"; "gentle"; "stillness"; "quiet"; "steady"; "slow"]);
    ("angry",
     ["angry"; "furious"; "irritated"; "annoyed"; "rage"]) ].

Definition stop_words : list string :=
  [ "the"; "a"; "an"; "and"; "or"; "but"; "in"; "on"; "at"; "to"; "for";
    "of"; "with"; "by"; "from"; "up"; "about"; "into"; "during"; "have";
    "has"; "had"; "been"; "was"; "were"; "is"; "am"; "are"; "this";
    "that"; "these"; "those"; "i"; "you"; "he"; "she"; "it"; "we";
    "they"; "my"; "your"; "his"; "her"; "its"; "our"; "their"; "because";
    "really"; "today"; "just"; "even"; "when"; "not"; "too"; "very";
    "so"; "how"; "what"; "when"; "where"; "who"; "which"; "than"; "then";
    "now"; "here"; "there"; "been"; "myself"; "sometimes"; "went";
    "made"; "woke"; "found"; "came"; "went" ].

(** The characters of the [strip] argument: full stop, comma, exclamation
    mark, question mark, semicolon, colon, apostrophe, quotation mark. *)
Definition strip_chars : list ascii :=
  [ "."%char; ","%char; "!"%char; "?"%char; ";"%char; ":"%char; "'"%char;
    ascii_of_nat 34 ].

Definition strip_punct (w : string) : string :=
  strip (fun c => mem_char c strip_chars) w.

(** [[w.strip(...) for w in text_lower.split()]] *)
Definition word_list_of (text : string) : list string :=
  map strip_punct (split (lower text)).

Definition match_counts_of (words : list string) : list (string * nat) :=
  map (fun ek => (fst ek, EmotionValidator.count_matches (snd ek) words)) emotions.

(** The two nested loops that collect [found_keywords]. *)
Fixpoint collect_found (kws words found_keywords : list string) : list string :=
  match kws with
  | [] => found_keywords
  | kw :: kws' =>
      if mem kw words && negb (mem kw found_keywords)
      then collect_found kws' words (found_keywords ++ [kw])%list
      else collect_found kws' words found_keywords
  end.

Definition found_keywords_of (words : list string) : list string :=
  fold_left (fun found ek => collect_found (snd ek) words found) emotions [].

(** The score and confidence of the branch [total_matches != 0]. *)
Definition score_of (dominant : string) (match_count : nat) : Q * Q :=
  let mc := inject_Z (Z.of_nat match_count) in
  if String.eqb dominant "happy" then
    (py_min (85 # 100) (mc * (25 # 100)), py_min (85 # 100) ((65 # 100) + mc * (1 # 10)))
  else if String.eqb dominant "calm" then
    (py_min (55 # 100) (mc * (18 # 100)), py_min (85 # 100) ((65 # 100) + mc * (1 # 10)))
  else if mem dominant ["sad"; "anxious"; "angry"] then
    (py_max (- (85 # 100)) (- (mc * (25 # 100))), py_min (85 # 100) ((65 # 100) + mc * (1 # 10)))
  else (0, 6 # 10).

Definition _fallback_analysis (text : string) : res MoodResult :=
  let word_list := word_list_of text in
  let words := word_list in
  let match_counts := match_counts_of words in
  let total_matches := list_sum (map snd match_counts) in
  r <- (if (total_matches =? 0)%nat then Ok ("neutral", 0, 1 # 2)
        else
          dominant <- match EmotionValidator.max_key match_counts with
                      | Some e => Ok e
                      | None => Raise ValueError
                      end ;;
          match_count <- dict_index match_counts dominant ;;
          let sc := score_of dominant match_count in
          Ok (dominant, fst sc, snd sc)) ;;
  let '(dominant, mood_score, confidence) := r in
  let found_keywords := found_keywords_of words in
  let other_words :=
    filter (fun w => (4 <? String.length w)%nat
                     && isalpha w
                     && negb (mem w stop_words)
                     && negb (mem w found_keywords)) word_list in
  let final_keywords := firstn 5 (found_keywords ++ other_words)%list in
  let final_keywords :=
    match final_keywords with [] => ["journal"; "entry"] | _ => final_keywords end in
  Ok (mkMoodResult mood_score dominant confidence final_keywords).

(** The matches of the five emotions of [_fallback_analysis], added up. *)
Definition fallback_total (text : string) : nat :=
  list_sum (map snd (match_counts_of (word_list_of text))).

Definition _neutral_result : MoodResult :=
  mkMoodResult 0 "neutral" (1 # 2) ["entry"].

Definition _fix_emotion_score_consistency (result : MoodResult) (original_text : string)
  : res MoodResult :=
  let emotion := dominant_emotion result in
  let score := mood_score result in
  let keep corrected_score :=
    Ok (mkMoodResult corrected_score emotion (confidence result) (keywords result)) in
  if mem emotion EmotionValidator.positive_emotions && Qltb score 0 then
    keep (Qabs score)
  else if mem emotion EmotionValidator.negative_emotions && Qltb 0 score then
    keep (- Qabs score)
  else if String.eqb emotion "neutral" && Qltb (3 # 10) (Qabs score) then
    fallback <- _fallback_analysis original_text ;;
    if negb (String.eqb (dominant_emotion fallback) "neutral") then Ok fallback
    else keep 0
  else keep score.

(** The value under the key [keywords] of the decoded object. *)
Inductive json_keywords : Type :=
| KwString (s : string)
| KwList (l : list string)
| KwOther.

(** The fields of the decoded JSON object that [_parse_model_json] reads;
    [None] is a missing key. *)
Record model_fields : Type := mkFields {
  raw_mood_score : option Q;
  raw_dominant_emotion : option string;
  raw_confidence : option Q;
  raw_keywords : option json_keywords
}.

(** [s.split(",")] *)
Fixpoint split_comma_from (cur : string) (s : string) : list string :=
  match s with
  | EmptyString => [cur]
  | String c s' =>
      if Ascii.eqb c ","%char then cur :: split_comma_from "" s'
      else split_comma_from (cur ++ String c "") s'
  end.

Definition strip_nonempty (l : list string) : list string :=
  map (strip is_space) (filter (fun k => negb (is_empty (strip is_space k))) l).

(** [_parse_model_json] from the decoded object on: defaults, clamping and
    the closed set of emotions. *)
Definition parse_fields (parsed : model_fields) : MoodResult :=
  let mood_score := match raw_mood_score parsed with Some q => q | None => 0 end in
  let dominant_emotion :=
    lower (match raw_dominant_emotion parsed with Some s => s | None => "neutral" end) in
  let confidence := match raw_confidence parsed with Some q => q | None => 0 end in
  let keywords :=
    match raw_keywords parsed with
    | Some (KwString s) => strip_nonempty (split_comma_from "" s)
    | Some (KwList l) => strip_nonempty l
    | Some KwOther => []
    | None => []
    end in
  let mood_score := py_max (-1) (py_min 1 mood_score) in
  let confidence := py_max 0 (py_min 1 confidence) in
  let dominant_emotion :=
    if negb (mem dominant_emotion valid_emotions) then "neutral" else dominant_emotion in
  mkMoodResult mood_score dominant_emotion confidence keywords.

(** What the call to the model service comes to: one of the two
    exceptions that [analyze_entry] catches around [post] and
    [raise_for_status]; a body that [response.json()] rejects; a body
    that is JSON but not an object, on which [data.get] does not exist;
    or an object, with what it holds under the key [response] ([None]
    when the key is missing or its value is not a string). *)
Inductive post_outcome : Type :=
| Timeout
| RequestException
| InvalidJson
| NotAnObject
| ResponseField (raw_output : option string).

Section Service.
(** [post] answers the request built from the stripped entry text: the
    transport, [raise_for_status], [response.json()] and the lookup of
    the key [response].  [decode] is the cleaning of the raw output and
    [json.loads], with [None] when they or the conversion of a field
    raise. *)
Variable post : string -> post_outcome.
Variable decode : string -> option model_fields.

Definition _parse_model_json (raw_text : string) : option MoodResult :=
  option_map parse_fields (decode raw_text).

(** The result of [_fallback_analysis(text).to_dict()] or the exception. *)
Definition fallback_dict (text : string) : res mood_dict :=
  r <- _fallback_analysis text ;; Ok (to_dict r).

(** Returns the dictionary, or the exception that leaves the function,
    and the requests sent to the service.  The lookup [data.get("response")]
    stands outside every [try]: on a body that is not an object its
    [AttributeError] is not caught. *)
Definition analyze_entry (text : string) : res mood_dict * list string :=
  if is_empty text || is_empty (strip is_space text) then
    (Ok (to_dict _neutral_result), [])
  else
    let request := strip is_space text in
    let out :=
      match post request with
      | Timeout => fallback_dict text
      | RequestException => fallback_dict text
      | InvalidJson => fallback_dict text
      | NotAnObject => Raise AttributeError
      | ResponseField None => fallback_dict text
      | ResponseField (Some raw_output) =>
          match _parse_model_json raw_output with
          | None => fallback_dict text
          | Some result =>
              match _fix_emotion_score_consistency result text with
              | Ok result => Ok (to_dict result)
              | Raise _ => fallback_dict text
              end
          end
      end in
    (out, [request]).

(** [JournalManager.create_entry] and [update_entry]: analysis, then
    validation; an exception of the analysis is not caught by either. *)
Definition analyze_and_validate (content : string) : res MoodResult :=
  raw_mood <- fst (analyze_entry content) ;;
  EmotionValidator.validate_and_fix raw_mood content.
End Service.

Definition color_map : list (string * string) :=
  [ ("happy", "#FFE5E5");
    ("sad", "#E5F3FF");
    ("anxious", "#FFF5E5");
    ("calm", "#E5FFE5");
    ("angry", "#FFE5F0");
    ("neutral", "#F5F5F5") ].

(** [get_emotion_color]; [None] is the Python [None]. *)
Definition get_emotion_color (emotion : option string) : string :=
  dict_get_default color_map
    (lower (strip is_space (EmotionValidator.str_or emotion ""))) "#F5F5F5".

(** [sum(xs)]: the additions run from the left, starting at 0.  The sum
    is the exact one; a float sum, and the mean taken from it, can differ
    from it in the last bits, and by how much depends on the interpreter
    (CPython adds floats with a compensation term since 3.12). *)
Definition py_sum (xs : list Q) : Q := fold_left Qplus xs 0.

Definition prompt_check_in : string :=
  "Take a moment to check in with yourself. How are you really feeling right now, and what do you need?".

Definition prompt_good_place : string :=
  "You've been in a good place lately! What's contributing to your positive energy, and how can you nurture it?".

Definition prompt_tough_time : string :=
  "I notice you've been going through a tough time. What's one small thing that brought you comfort or relief recently?".

Definition prompt_mixed : string :=
  "Your recent days seem a bit mixed. What patterns do you notice in your mood, and is there one small change you'd like to try this week?".

Definition generate_reflection_prompt (recent_moods : list Q) : string :=
  match recent_moods with
  | [] => prompt_check_in
  | _ =>
      let clamped := map (fun m => py_max (-1) (py_min 1 m)) recent_moods in
      let avg_mood := py_sum clamped / inject_Z (Z.of_nat (List.length clamped)) in
      if Qle_bool (2 # 10) avg_mood then prompt_good_place
      else if Qle_bool avg_mood (- (2 # 10)) then prompt_tough_time
      else prompt_mixed
  end.

End MoodAnalyzer.

(* ------------------------------------------------------------------ *)
(** ** assets/ui_components.py *)

Module UiComponents.

Definition _emotion_class (emotion : option string) : string :=
  let e := lower (strip is_space (EmotionValidator.str_or emotion "neutral")) in
  if negb (mem e valid_emotions) then "neutral" else e.

End UiComponents.

(* ------------------------------------------------------------------ *)
(** ** database/models.py and utils/journal_manager.py *)

Module JournalManager.

(** The columns of [MoodAnalysis] that the manager fills in. *)
Record mood_row : Type := mkMoodRow {
  row_mood_score : Q;
  row_dominant_emotion : string;
  row_confidence : Q;
  row_keywords : option string
}.

(** The three [CheckConstraint]s of the table [mood_analyses]. *)
Definition ck_mood_score_range (m : mood_row) : bool :=
  Qle_bool (-1) (row_mood_score m) && Qle_bool (row_mood_score m) 1.

Definition ck_confidence_range (m : mood_row) : bool :=
  Qle_bool 0 (row_confidence m) && Qle_bool (row_confidence m) 1.

Definition ck_dominant_emotion_values (m : mood_row) : bool :=
  mem (row_dominant_emotion m) valid_emotions.

(** [",".join(l)] *)
Fixpoint join_comma (l : list string) : string :=
  match l with
  | [] => ""
  | [k] => k
  | k :: l' => k ++ "," ++ join_comma l'
  end.

(** The row that [create_entry], and [update_entry] for an entry without
    one, build from the result of [validate_and_fix]. *)
Definition mood_row_of (mood_data : MoodResult) : mood_row :=
  let joined := join_comma (keywords mood_data) in
  mkMoodRow (mood_score mood_data) (dominant_emotion mood_data)
            (confidence mood_data)
            (if is_empty joined then None else Some joined).

(** The entry [keywords] of [_entry_with_mood_to_dict]; [None] is an
    entry without a mood row. *)
Definition keywords_of_row (mood : option mood_row) : list string :=
  match mood with
  | Some m =>
      match row_keywords m with
      | Some s => if is_empty s then [] else MoodAnalyzer.split_comma_from "" s
      | None => []
      end
  | None => []
  end.

(** The rows of the two queries of [get_mood_statistics], or the
    [SQLAlchemyError] that one of them raised.  A row holds the score and
    the emotion, in the order of [analyzed_at]. *)
Inductive query_result : Type :=
| QueryError
| QueryRows (total_entries : nat) (moods : list (Q * option string)).

Record statistics : Type := mkStatistics {
  average_mood_score : option Q;
  emotion_distribution : list (string * nat);
  mood_trend : string;
  total_entries : nat
}.

(** [distribution[key] = distribution.get(key, 0) + 1] *)
Fixpoint dict_incr (distribution : list (string * nat)) (key : string)
  : list (string * nat) :=
  match distribution with
  | [] => [(key, 1%nat)]
  | (k, v) :: d' =>
      if String.eqb key k then (k, (v + 1)%nat) :: d'
      else (k, v) :: dict_incr d' key
  end.

Definition distribution_of (moods : list (Q * option string)) : list (string * nat) :=
  fold_left
    (fun distribution m =>
       dict_incr distribution (lower (EmotionValidator.str_or (snd m) "neutral")))
    moods [].

Definition trend_of (delta : Q) : string :=
  if Qltb (1 # 10) delta then "improving"
  else if Qltb delta (- (1 # 10)) then "declining"
  else "stable".

(** The averages and their difference are the exact ones (see
    [MoodAnalyzer.py_sum]). *)
Definition get_mood_statistics (q : query_result) : statistics :=
  match q with
  | QueryError => mkStatistics None [] "stable" 0
  | QueryRows total_entries moods =>
      match moods with
      | [] => mkStatistics None [] "stable" total_entries
      | _ =>
          let scores := map fst moods in
          let n := List.length scores in
          let avg_score := MoodAnalyzer.py_sum scores / inject_Z (Z.of_nat n) in
          let distribution := distribution_of moods in
          let mid := (n / 2)%nat in
          let first_avg :=
            MoodAnalyzer.py_sum (firstn mid scores)
            / inject_Z (Z.of_nat (Nat.max 1 mid)) in
          let second_avg :=
            MoodAnalyzer.py_sum (skipn mid scores)
            / inject_Z (Z.of_nat (Nat.max 1 (n - mid))) in
          let delta := second_avg - first_avg in
          mkStatistics (Some avg_score) distribution (trend_of delta) total_entries
      end
  end.

End JournalManager.

(* ------------------------------------------------------------------ *)
(** ** app.py *)

Module App.

(** What [compute_streak] reads of an entry: the day of its [date], with
    [None] for a value that is no date and cannot be parsed as one, and
    its [mood_score]. *)
Definition streak_entry : Type := (option Z * option Q)%type.

Fixpoint day_get (by_date : list (Z * Q)) (key : Z) : option Q :=
  match by_date with
  | [] => None
  | (k, v) :: d' => if Z.eqb key k then Some v else day_get d' key
  end.

(** [by_date[key] = score] *)
Fixpoint day_set (by_date : list (Z * Q)) (key : Z) (score : Q) : list (Z * Q) :=
  match by_date with
  | [] => [(key, score)]
  | (k, v) :: d' =>
      if Z.eqb key k then (k, score) :: d' else (k, v) :: day_set d' key score
  end.

(** The body of the first loop. *)
Definition record_entry (by_date : list (Z * Q)) (e : streak_entry) : list (Z * Q) :=
  match fst e with
  | None => by_date
  | Some key =>
      let score := EmotionValidator.num_or (snd e) 0 in
      match day_get by_date key with
      | None => day_set by_date key score
      | Some best => if Qltb best score then day_set by_date key score else by_date
      end
  end.

Definition by_date_of (entries : list streak_entry) : list (Z * Q) :=
  fold_left record_entry entries [].

(** The [while True] loop; it leaves through [break] within
    [length by_date + 1] rounds, which is the fuel it is run with. *)
Fixpoint streak_loop (fuel : nat) (by_date : list (Z * Q)) (today : Z) (streak : nat)
  : nat :=
  match fuel with
  | O => streak
  | S fuel' =>
      match day_get by_date today with
      | None => streak
      | Some best =>
          if Qltb best 0 then streak
          else streak_loop fuel' by_date (today - 1) (streak + 1)
      end
  end.

(** [today] is the day of [datetime.utcnow()]. *)
Definition compute_streak (entries : list streak_entry) (today : Z) : nat :=
  match entries with
  | [] => 0%nat
  | _ =>
      let by_date := by_date_of entries in
      streak_loop (S (List.length by_date)) by_date today 0
  end.

(** A day with an entry whose mood score is not negative. *)
Definition good_day (entries : list streak_entry) (day : Z) : Prop :=
  exists e, In e entries /\ fst e = Some day /\ 0 <= EmotionValidator.num_or (snd e) 0.

End App.

(* ------------------------------------------------------------------ *)
(** ** Further notions used by the statements *)

(** The characters of a token: lower-case letters, digits, underscore. *)
Definition is_token_char (c : ascii) : bool :=
  is_lower c || is_digit c || (code c =? 95)%nat.

(** The position of the first [x] in [l]. *)
Fixpoint index_of (x : string) (l : list string) : nat :=
  match l with
  | [] => 0%nat
  | y :: l' => if String.eqb x y then 0%nat else S (index_of x l')
  end.

(** The emotions among which the re-detector chooses, in the order of
    [EMOTION_KEYWORDS]. *)
Definition primary_emotions : list string :=
  ["happy"; "sad"; "anxious"; "calm"; "angry"].

(** A keyword without a comma. *)
Definition no_comma (k : string) : bool :=
  forall_chars (fun c => negb (Ascii.eqb c ","%char)) k.

(** The key under which [get_mood_statistics] counts a row. *)
Definition emotion_key (m : Q * option string) : string :=
  lower (EmotionValidator.str_or (snd m) "neutral").

(** The score that [compute_streak] reads of an entry. *)
Definition score_of_entry (e : App.streak_entry) : Q :=
  EmotionValidator.num_or (snd e) 0.

(** What [by_date] holds after the entries [seen]: a day has a value
    exactly when an entry of that day was seen, and the value is the
    greatest score of the day's entries. *)
Definition tracks (seen : list App.streak_entry) (d : list (Z * Q)) : Prop :=
  NoDup (map fst d) /\
  forall day,
    match App.day_get d day with
    | None => forall e, In e seen -> fst e <> Some day
    | Some best =>
        (exists e, In e seen /\ fst e = Some day /\ score_of_entry e = best) /\
        (forall e, In e seen -> fst e = Some day -> score_of_entry e <= best)
    end.

(** A day counts for the streak when its best score is not negative. *)
Definition counts (d : list (Z * Q)) (day : Z) : Prop :=
  exists best, App.day_get d day = Some best /\ 0 <= best.

(* ------------------------------------------------------------------ *)
(** ** Facts about the numeric operations *)

Module PyNumFacts.

Lemma Qltb_true (x y : Q) : Qltb x y = true <-> x < y.
Proof.
  unfold Qltb. rewrite negb_true_iff. split; intro H.
  - apply Qnot_le_lt. intro Hle. apply Qle_bool_iff in Hle. congruence.
  - destruct (Qle_bool y x) eqn:E; [|reflexivity].
    apply Qle_bool_iff in E. apply Qle_not_lt in E. contradiction.
Qed.

Lemma Qltb_false (x y : Q) : Qltb x y = false <-> y <= x.
Proof.
  unfold Qltb. rewrite negb_false_iff. apply Qle_bool_iff.
Qed.

Lemma Qltb_spec (x y : Q) : (x < y /\ Qltb x y = true) \/ (y <= x /\ Qltb x y = false).
Proof.
  destruct (Qltb x y) eqn:E.
  - left. split; [now apply Qltb_true|reflexivity].
  - right. split; [now apply Qltb_false|reflexivity].
Qed.

#[global] Instance Qltb_comp : Proper (Qeq ==> Qeq ==> eq) Qltb.
Proof.
  intros x x' Hx y y' Hy.
  destruct (Qltb_spec x y) as [[H E]|[H E]]; rewrite E; symmetry.
  - apply Qltb_true. now rewrite <- Hx, <- Hy.
  - apply Qltb_false. now rewrite <- Hx, <- Hy.
Qed.

Lemma py_min_spec (a b : Q) :
  (b < a /\ py_min a b = b) \/ (a <= b /\ py_min a b = a).
Proof.
  unfold py_min. destruct (Qltb_spec b a) as [[H E]|[H E]]; rewrite E; auto.
Qed.

Lemma py_max_spec (a b : Q) :
  (a < b /\ py_max a b = b) \/ (b <= a /\ py_max a b = a).
Proof.
  unfold py_max. destruct (Qltb_spec a b) as [[H E]|[H E]]; rewrite E; auto.
Qed.

#[global] Instance py_min_comp : Proper (Qeq ==> Qeq ==> Qeq) py_min.
Proof.
  intros a a' Ha b b' Hb. unfold py_min.
  rewrite (Qltb_comp _ _ Hb _ _ Ha). now destruct (Qltb b' a').
Qed.

#[global] Instance py_max_comp : Proper (Qeq ==> Qeq ==> Qeq) py_max.
Proof.
  intros a a' Ha b b' Hb. unfold py_max.
  rewrite (Qltb_comp _ _ Ha _ _ Hb). now destruct (Qltb a' b').
Qed.

(** Clamping lands in the interval. *)
Lemma clamp_bounds (lo hi x : Q) :
  lo <= hi -> lo <= py_max lo (py_min hi x) /\ py_max lo (py_min hi x) <= hi.
Proof.
  intro Hlh.
  destruct (py_min_spec hi x) as [[H1 E1]|[H1 E1]]; rewrite E1;
    destruct (py_max_spec lo x) as [[H2 E2]|[H2 E2]];
    destruct (py_max_spec lo hi) as [[H3 E3]|[H3 E3]];
    try rewrite E2; try rewrite E3; split; lra.
Qed.

(** Clamping leaves a value of the interval as it is. *)
Lemma clamp_inside (lo hi x : Q) :
  lo <= x -> x <= hi -> py_max lo (py_min hi x) == x.
Proof.
  intros Hl Hh.
  destruct (py_min_spec hi x) as [[H1 E1]|[H1 E1]]; rewrite E1.
  - destruct (py_max_spec lo x) as [[H2 E2]|[H2 E2]]; rewrite E2; lra.
  - destruct (py_max_spec lo hi) as [[H2 E2]|[H2 E2]]; rewrite E2; lra.
Qed.

Lemma round_half_even_floor (q : Q) :
  (Qfloor q <= round_half_even q <= Qfloor q + 1)%Z.
Proof.
  unfold round_half_even.
  destruct (Qltb (q - inject_Z (Qfloor q)) (1 # 2)); [lia|].
  destruct (Qltb (1 # 2) (q - inject_Z (Qfloor q))); [lia|].
  destruct (Z.even (Qfloor q)); lia.
Qed.

Lemma round_half_even_ge (q : Q) (k : Z) :
  inject_Z k <= q -> (k <= round_half_even q)%Z.
Proof.
  intro H. apply Qfloor_resp_le in H. rewrite Qfloor_Z in H.
  pose proof (round_half_even_floor q). lia.
Qed.

Lemma round_half_even_le (q : Q) (k : Z) :
  q <= inject_Z k -> (round_half_even q <= k)%Z.
Proof.
  intro H. pose proof (Qfloor_resp_le _ _ H) as Hf. rewrite Qfloor_Z in Hf.
  pose proof (round_half_even_floor q) as Hr.
  destruct (Z.eq_dec (Qfloor q) k) as [E|E]; [|lia].
  unfold round_half_even.
  assert (Hd : q - inject_Z (Qfloor q) < 1 # 2).
  { rewrite E. lra. }
  apply Qltb_true in Hd. rewrite Hd. lia.
Qed.

Lemma round_half_even_int (q : Q) (k : Z) :
  q == inject_Z k -> round_half_even q = k.
Proof.
  intro H.
  assert (k <= round_half_even q)%Z by (apply round_half_even_ge; rewrite H; apply Qle_refl).
  assert (round_half_even q <= k)%Z by (apply round_half_even_le; rewrite H; apply Qle_refl).
  lia.
Qed.

#[global] Instance round_half_even_comp : Proper (Qeq ==> eq) round_half_even.
Proof.
  intros q q' H. unfold round_half_even.
  rewrite (Qfloor_comp _ _ H).
  assert (Hd : q - inject_Z (Qfloor q') == q' - inject_Z (Qfloor q')) by (rewrite H; reflexivity).
  rewrite (Qltb_comp _ _ Hd _ _ (Qeq_refl (1 # 2))).
  rewrite (Qltb_comp _ _ (Qeq_refl (1 # 2)) _ _ Hd).
  reflexivity.
Qed.

#[global] Instance py_round_comp : Proper (Qeq ==> eq ==> Qeq) py_round.
Proof.
  intros x x' H n n' <-. unfold py_round.
  assert (Hm : x * inject_Z (Zpos (pow10 n)) == x' * inject_Z (Zpos (pow10 n)))
    by (rewrite H; reflexivity).
  rewrite (round_half_even_comp _ _ Hm). reflexivity.
Qed.

Lemma Qmake_scaled (k : Z) (d : positive) :
  (k # d) * inject_Z (Zpos d) == inject_Z k.
Proof.
  unfold Qeq, Qmult, inject_Z. simpl. lia.
Qed.

Lemma scaled_Qmake (x : Q) (k : Z) (d : positive) :
  x * inject_Z (Zpos d) == inject_Z k -> x == k # d.
Proof.
  intro H. rewrite <- (Qmake_scaled k d) in H.
  apply Qmult_inj_r in H; [exact H|]. unfold Qeq, inject_Z. simpl. lia.
Qed.

(** A value on the decimal grid is a fixed point of [round]. *)
Lemma py_round_grid (x : Q) (n : nat) (k : Z) :
  x * inject_Z (Zpos (pow10 n)) == inject_Z k -> py_round x n == x.
Proof.
  intro H. unfold py_round. rewrite (round_half_even_int _ _ H).
  symmetry. now apply scaled_Qmake.
Qed.

Lemma py_round_idem (x : Q) (n : nat) :
  py_round (py_round x n) n == py_round x n.
Proof.
  apply py_round_grid with
    (k := round_half_even (x * inject_Z (Zpos (pow10 n)))).
  unfold py_round. apply Qmake_scaled.
Qed.

(** Rounding does not cross a grid point. *)
Lemma py_round_ge (lo x : Q) (n : nat) (k : Z) :
  lo * inject_Z (Zpos (pow10 n)) == inject_Z k -> lo <= x -> lo <= py_round x n.
Proof.
  intros Hk Hx. rewrite (scaled_Qmake _ _ _ Hk). unfold py_round.
  assert (Hz : (k <= round_half_even (x * inject_Z (Zpos (pow10 n))))%Z).
  { apply round_half_even_ge. rewrite <- Hk.
    apply Qmult_le_compat_r; [exact Hx|]. unfold Qle, inject_Z. simpl. lia. }
  unfold Qle. simpl. nia.
Qed.

Lemma py_round_le (hi x : Q) (n : nat) (k : Z) :
  hi * inject_Z (Zpos (pow10 n)) == inject_Z k -> x <= hi -> py_round x n <= hi.
Proof.
  intros Hk Hx. rewrite (scaled_Qmake _ _ _ Hk). unfold py_round.
  assert (Hz : (round_half_even (x * inject_Z (Zpos (pow10 n))) <= k)%Z).
  { apply round_half_even_le. rewrite <- Hk.
    apply Qmult_le_compat_r; [exact Hx|]. unfold Qle, inject_Z. simpl. lia. }
  unfold Qle. simpl. nia.
Qed.

End PyNumFacts.
Import PyNumFacts.

(* ------------------------------------------------------------------ *)
(** ** Facts about the validator *)

Module ValidatorFacts.
Import EmotionValidator.

Lemma lower_char_idem (c : ascii) : lower_char (lower_char c) = lower_char c.
Proof. destruct c as [[] [] [] [] [] [] [] []]; reflexivity. Qed.

Lemma lower_idem (s : string) : lower (lower s) = lower s.
Proof.
  unfold lower. induction s as [|c s IH]; simpl; [reflexivity|].
  now rewrite lower_char_idem, IH.
Qed.

Lemma lower_nonempty (s : string) : s <> "" -> lower s <> "".
Proof. destruct s; [congruence|discriminate]. Qed.

Lemma mem_In (x : string) (xs : list string) : mem x xs = true <-> In x xs.
Proof.
  unfold mem. rewrite existsb_exists. split.
  - intros (y & Hy & E). apply String.eqb_eq in E. now subst.
  - intro H. exists x. split; [exact H|apply String.eqb_refl].
Qed.

Lemma mem_false (x : string) (xs : list string) : mem x xs = false <-> ~ In x xs.
Proof.
  rewrite <- mem_In. destruct (mem x xs); split; congruence.
Qed.

Lemma valid_lower (e : string) : In e valid_emotions -> lower e = e /\ e <> "".
Proof.
  unfold valid_emotions. simpl.
  intros [<-|[<-|[<-|[<-|[<-|[<-|[]]]]]]]; split; (reflexivity || discriminate).
Qed.

(** *** The maximum of a dictionary of counts *)

Lemma max_from_spec (d : list (string * nat)) : forall cur,
  In (max_from cur d) (cur :: d) /\
  (snd cur <= snd (max_from cur d))%nat /\
  (forall x, In x d -> (snd x <= snd (max_from cur d))%nat).
Proof.
  induction d as [|x d IH]; intro cur; simpl.
  - repeat split; auto. intros ? [].
  - destruct (Nat.ltb_spec (snd cur) (snd x)) as [Hlt|Hge].
    + destruct (IH x) as (Hin & Hle & Hall). repeat split.
      * destruct Hin; auto.
      * lia.
      * intros y [<-|Hy]; auto.
    + destruct (IH cur) as (Hin & Hle & Hall). repeat split.
      * destruct Hin; auto.
      * exact Hle.
      * intros y [<-|Hy]; [lia|auto].
Qed.

Lemma max_key_spec (d : list (string * nat)) :
  d <> [] ->
  exists e n, max_key d = Some e /\ In (e, n) d /\
              (forall x, In x d -> (snd x <= n)%nat).
Proof.
  destruct d as [|x d]; [congruence|]. intros _.
  destruct (max_from_spec d x) as (Hin & Hle & Hall).
  exists (fst (max_from x d)), (snd (max_from x d)). repeat split.
  - now rewrite <- surjective_pairing.
  - intros y [<-|Hy]; auto.
Qed.

Lemma list_sum_pos (l : list nat) :
  list_sum l <> 0%nat -> exists n, In n l /\ (0 < n)%nat.
Proof.
  induction l as [|a l IH]; simpl; [congruence|]. intro H.
  destruct a as [|a].
  - destruct IH as (n & Hn & Hp); [exact H|]. exists n. auto.
  - exists (S a). split; [auto|lia].
Qed.

Lemma inject_nat_pos (n : nat) : (0 < n)%nat -> 1 <= inject_Z (Z.of_nat n).
Proof. intro H. unfold Qle, inject_Z. simpl. lia. Qed.

(** *** The re-detector *)

Lemma counts_shape (tokens : list string) :
  exists h s a c g n,
    _count_emotion_matches tokens =
    [("happy", h); ("sad", s); ("anxious", a); ("calm", c); ("angry", g);
     ("neutral", n)].
Proof.
  unfold _count_emotion_matches, EMOTION_KEYWORDS.
  do 6 eexists. cbn [map fst snd]. reflexivity.
Qed.

Lemma detect_unfold (text : string) :
  _detect_emotion_from_text text =
  detect_of_counts (primary_of (_count_emotion_matches (_tokenize text))).
Proof. unfold _detect_emotion_from_text, detect_of_counts. reflexivity. Qed.

(** The score and the confidence computed for [match_count] matches. *)
Lemma detect_score_ok (lo hi base : Q) (klo khi : Z) :
  lo <= hi ->
  lo * inject_Z 100 == inject_Z klo -> hi * inject_Z 100 == inject_Z khi ->
  let s := py_round (py_max lo (py_min hi base)) 2 in
  lo <= s /\ s <= hi /\ py_round s 4 == s.
Proof.
  intros Hlh Hlo Hhi s.
  destruct (clamp_bounds lo hi base Hlh) as [H1 H2].
  repeat split.
  - apply (py_round_ge lo _ 2 klo); assumption.
  - apply (py_round_le hi _ 2 khi); assumption.
  - unfold s, py_round at 2 3.
    set (k := round_half_even _).
    apply (py_round_grid _ 4 (100 * k)).
    change (pow10 4) with 10000%positive. change (pow10 2) with 100%positive.
    unfold Qeq. cbn [Qnum Qden Qmult inject_Z]. lia.
Qed.

Lemma detect_confidence_ok (n : nat) :
  (0 < n)%nat ->
  let c := py_min (90 # 100) ((55 # 100) + inject_Z (Z.of_nat n) * (8 # 100)) in
  55 # 100 <= c /\ c <= 90 # 100 /\ py_round c 4 == c.
Proof.
  intros Hn c. pose proof (inject_nat_pos n Hn) as Hp.
  unfold c. destruct (py_min_spec (90 # 100) ((55 # 100) + inject_Z (Z.of_nat n) * (8 # 100)))
    as [[H E]|[H E]]; rewrite E; (split; [lra|split; [lra|]]).
  - apply (py_round_grid _ 4 (5500 + 800 * Z.of_nat n)).
    change (pow10 4) with 10000%positive.
    unfold Qeq. cbn [Qnum Qden Qmult Qplus inject_Z]. lia.
  - apply (py_round_grid _ 4 9000). reflexivity.
Qed.


Ltac detect_case name lo hi klo khi n :=
  change (dict_index EMOTION_SCORE_RANGES name) with (@Ok (Q * Q) (lo, hi));
  cbn [bind fst snd];
  destruct (detect_score_ok lo hi
              (lo + (hi - lo) * py_min 1 (inject_Z (Z.of_nat n) / 5)) klo khi)
    as (Hlo & Hhi & Hrd); [lra | reflexivity | reflexivity |];
  eexists; exists lo, hi;
  split; [assumption|]; split; [reflexivity|]; split; [simpl; tauto|];
  split; [assumption|]; split; [reflexivity|];
  split; [exact Hlo|]; split; [exact Hhi|]; split; [exact Hrd|];
  split; [split; lra|];
  unfold range_ok; change (dict_get EMOTION_SCORE_RANGES name) with (Some (lo, hi));
  split; assumption.

Lemma detect_of_five (h s a c g : nat) :
  let d := [("happy", h); ("sad", s); ("anxious", a); ("calm", c); ("angry", g)] in
  (list_sum (map snd d) = 0%nat /\ detect_of_counts d = Ok ("neutral", 0, 1 # 2)) \/
  (exists e n sc lo hi,
      list_sum (map snd d) <> 0%nat /\
      detect_of_counts d =
        Ok (e, sc, py_min (90 # 100) ((55 # 100) + inject_Z (Z.of_nat n) * (8 # 100))) /\
      In (e, n) d /\ (0 < n)%nat /\
      dict_get EMOTION_SCORE_RANGES e = Some (lo, hi) /\
      lo <= sc /\ sc <= hi /\ py_round sc 4 == sc /\
      (-1 <= sc /\ sc <= 1) /\ range_ok e sc).
Proof.
  intro d. unfold detect_of_counts.
  destruct (Nat.eqb_spec (list_sum (map snd d)) 0) as [E|E]; [left; split; auto|right].
  destruct (max_key_spec d) as (e & n & Hk & Hin & Hall); [discriminate|].
  assert (Hn : (0 < n)%nat).
  { destruct (list_sum_pos _ E) as (m & Hm & Hp).
    apply in_map_iff in Hm. destruct Hm as (x & <- & Hx).
    specialize (Hall x Hx). lia. }
  rewrite Hk. cbn [bind]. exists e, n.
  assert (Hd : dict_index d e = Ok n).
  { unfold d in Hin |- *. simpl in Hin.
    destruct Hin as [H|[H|[H|[H|[H|[]]]]]]; inversion H; subst; reflexivity. }
  rewrite Hd. cbn [bind].
  unfold d in Hin |- *. simpl in Hin.
  destruct Hin as [H|[H|[H|[H|[H|[]]]]]]; inversion H; subst; clear H.
  - detect_case "happy" (2 # 10) 1 20%Z 100%Z n.
  - detect_case "sad" (- (9 # 10)) (- (2 # 10)) (-90)%Z (-20)%Z n.
  - detect_case "anxious" (- (8 # 10)) (- (1 # 10)) (-80)%Z (-10)%Z n.
  - detect_case "calm" (1 # 10) (6 # 10) 10%Z 60%Z n.
  - detect_case "angry" (- (9 # 10)) (- (3 # 10)) (-90)%Z (-30)%Z n.
Qed.

(** What [_detect_emotion_from_text] returns on any text. *)
Lemma detect_spec (text : string) :
  exists e s c,
    _detect_emotion_from_text text = Ok (e, s, c) /\
    settled text (e, s, c) /\
    In e valid_emotions /\
    in_table_range e s /\
    py_round s 4 == s /\ py_round c 4 == c /\
    ((primary_total text = 0%nat /\ e = "neutral" /\ s = 0 /\ c = 1 # 2) \/
     (primary_total text <> 0%nat /\ e <> "neutral" /\ (0 < evidence text e)%nat /\
      c = py_min (90 # 100) ((55 # 100) + inject_Z (Z.of_nat (evidence text e)) * (8 # 100)) /\
      55 # 100 <= c)).
Proof.
  rewrite detect_unfold. unfold settled, override_guard, evidence, primary_total.
  destruct (counts_shape (_tokenize text)) as (h & s & a & c & g & n & E). rewrite E.
  change (primary_of [("happy", h); ("sad", s); ("anxious", a); ("calm", c);
                      ("angry", g); ("neutral", n)])
    with [("happy", h); ("sad", s); ("anxious", a); ("calm", c); ("angry", g)].
  destruct (detect_of_five h s a c g)
    as [[Ht Hd]|(e & m & sc & lo & hi & Ht & Hd & Hin & Hm & Hr & Hlo & Hhi & Hrd & Hb & Hro)].
  - exists "neutral", 0, (1 # 2). rewrite Hd, Ht.
    split; [reflexivity|]. split.
    { split; [lra|]. split; [reflexivity|]. split; [discriminate|].
      split; [split; lra|]. split; [unfold range_ok; simpl; split; lra|].
      apply andb_false_r. }
    split; [simpl; tauto|].
    split; [exists (- (15 # 100)), (15 # 100); split; [reflexivity|split; lra]|].
    split; [reflexivity|]. split; [reflexivity|]. left. auto.
  - destruct (detect_confidence_ok m Hm) as (Hc1 & Hc2 & Hc3).
    exists e, sc, (py_min (90 # 100) ((55 # 100) + inject_Z (Z.of_nat m) * (8 # 100))).
    assert (He : In e valid_emotions /\ e <> "neutral" /\
                 dict_get_default
                   [("happy", h); ("sad", s); ("anxious", a); ("calm", c);
                    ("angry", g); ("neutral", n)] e 0%nat = m).
    { simpl in Hin.
      destruct Hin as [H|[H|[H|[H|[H|[]]]]]]; inversion H; subst;
        (split; [simpl; tauto|split; [discriminate|reflexivity]]). }
    destruct He as (Hv & Hne & Hev). rewrite Hev.
    split; [exact Hd|]. split.
    { split; [lra|]. destruct (valid_lower e Hv) as [Hl Hnn].
      split; [exact Hl|]. split; [exact Hnn|]. split; [exact Hb|].
      split; [exact Hro|].
      destruct m; [lia|]. reflexivity. }
    split; [exact Hv|]. split; [exists lo, hi; auto|].
    split; [exact Hrd|]. split; [exact Hc3|].
    right. repeat split; auto.
Qed.


(** *** The range table *)

Lemma dict_get_In {V : Type} (d : list (string * V)) (k : string) (v : V) :
  dict_get d k = Some v -> In (k, v) d.
Proof.
  induction d as [|[k' v'] d IH]; simpl; [discriminate|].
  destruct (String.eqb_spec k k') as [->|Hne]; intro H.
  - left. congruence.
  - right. auto.
Qed.

Lemma ranges_table (e : string) (lo hi : Q) :
  dict_get EMOTION_SCORE_RANGES e = Some (lo, hi) ->
  In e valid_emotions /\ lo <= hi /\ -1 <= lo /\ hi <= 1 /\
  (exists klo khi, lo * inject_Z (Zpos (pow10 4)) == inject_Z klo /\
                   hi * inject_Z (Zpos (pow10 4)) == inject_Z khi) /\
  (In e positive_emotions -> 0 < lo) /\
  (In e negative_emotions -> hi < 0) /\
  (e = "neutral" -> - (15 # 100) <= lo /\ hi <= 15 # 100).
Proof.
  intro H. apply dict_get_In in H. unfold EMOTION_SCORE_RANGES in H. simpl in H.
  destruct H as [H|[H|[H|[H|[H|[H|[]]]]]]]; inversion H; subst; clear H;
    (split; [simpl; tauto|]); (split; [lra|]); (split; [lra|]); (split; [lra|]);
    (split; [match goal with
             | |- exists klo khi, ?l * ?d == _ /\ ?h * _ == _ =>
                 exists (Qfloor (l * d)), (Qfloor (h * d)); split; vm_compute; reflexivity
             end|]);
    (split; [intro Hp|split; [intro Hp|intro Hp]]);
    try lra; try discriminate;
    try (simpl in Hp; exfalso;
         repeat (destruct Hp as [Hp|Hp]; [discriminate|]); exact Hp);
    try (split; lra).
Qed.

Lemma settled_comp (text e : string) (s s' c c' : Q) :
  s == s' -> c == c' -> settled text (e, s, c) -> settled text (e, s', c').
Proof.
  intros Hs Hc (H1 & H2 & H3 & H4 & H5 & H6). unfold settled, range_ok in *.
  split; [lra|]. split; [exact H2|]. split; [exact H3|]. split; [lra|].
  split; [|exact H6].
  destruct (dict_get EMOTION_SCORE_RANGES e) as [[lo hi]|]; [lra|exact I].
Qed.

(** *** The checks one by one *)

Lemma check_evidence_eq (text e : string) (s c : Q) :
  check_evidence text (e, s, c) =
  if override_guard text e then _detect_emotion_from_text text else Ok (e, s, c).
Proof.
  unfold check_evidence, override_guard, evidence, primary_total.
  destruct (counts_shape (_tokenize text)) as (h & sa & a & ca & g & n & E). rewrite E.
  change (primary_of [("happy", h); ("sad", sa); ("anxious", a); ("calm", ca);
                      ("angry", g); ("neutral", n)])
    with [("happy", h); ("sad", sa); ("anxious", a); ("calm", ca); ("angry", g)].
  set (six := [("happy", h); ("sad", sa); ("anxious", a); ("calm", ca);
               ("angry", g); ("neutral", n)]).
  set (five := [("happy", h); ("sad", sa); ("anxious", a); ("calm", ca); ("angry", g)]).
  destruct (dict_get_default six e 0 =? 0)%nat; [|reflexivity].
  cbn [andb].
  destruct (max_key_spec five) as (b & m & Hk & Hin & Hall); [discriminate|].
  rewrite Hk.
  assert (Hb : is_empty b = false /\ dict_index six b = Ok m).
  { unfold five in Hin. simpl in Hin.
    destruct Hin as [H|[H|[H|[H|[H|[]]]]]]; inversion H; subst; split; reflexivity. }
  destruct Hb as [Hb1 Hb2]. rewrite Hb1, Hb2. cbn [negb bind].
  destruct (Nat.eqb_spec (list_sum (map snd five)) 0) as [Ht|Ht]; cbn [negb].
  - assert (m = 0)%nat.
    { unfold five in Hin, Ht. simpl in Hin, Ht.
      destruct Hin as [H|[H|[H|[H|[H|[]]]]]]; inversion H; subst; lia. }
    subst m. reflexivity.
  - assert (0 < m)%nat.
    { destruct (list_sum_pos _ Ht) as (k & Hk' & Hp).
      apply in_map_iff in Hk'. destruct Hk' as (x & <- & Hx).
      specialize (Hall x Hx). lia. }
    destruct m; [lia|]. reflexivity.
Qed.

Lemma check_range_spec (e : string) (s c : Q) :
  exists s', check_range (e, s, c) = (e, s', c) /\ range_ok e s' /\
             (-1 <= s /\ s <= 1 -> -1 <= s' /\ s' <= 1) /\
             (range_ok e s -> s' == s).
Proof.
  unfold check_range, range_ok.
  destruct (dict_get EMOTION_SCORE_RANGES e) as [[lo hi]|] eqn:E.
  - destruct (ranges_table e lo hi E) as (_ & Hlh & Hl & Hh & _).
    destruct (clamp_bounds lo hi s Hlh) as [B1 B2].
    destruct (Qeq_bool (py_max lo (py_min hi s)) s) eqn:Q; cbn [negb].
    + apply Qeq_bool_iff in Q. exists s. split; [reflexivity|].
      split; [lra|]. split; [tauto|]. intros _. reflexivity.
    + exists (py_max lo (py_min hi s)). split; [reflexivity|].
      split; [lra|]. split; [intros _; lra|].
      intros [R1 R2]. now apply clamp_inside.
  - exists s. split; [reflexivity|]. split; [exact I|]. split; [tauto|].
    intros _. reflexivity.
Qed.

Lemma range_positive (e : string) (s : Q) :
  In e positive_emotions -> range_ok e s -> 0 < s.
Proof.
  intros Hp Hr. unfold range_ok in Hr.
  destruct (dict_get EMOTION_SCORE_RANGES e) as [[lo hi]|] eqn:E.
  - destruct (ranges_table e lo hi E) as (_ & _ & _ & _ & _ & H & _).
    specialize (H Hp). lra.
  - simpl in Hp. destruct Hp as [<-|[<-|[]]]; discriminate.
Qed.

Lemma range_negative (e : string) (s : Q) :
  In e negative_emotions -> range_ok e s -> s < 0.
Proof.
  intros Hp Hr. unfold range_ok in Hr.
  destruct (dict_get EMOTION_SCORE_RANGES e) as [[lo hi]|] eqn:E.
  - destruct (ranges_table e lo hi E) as (_ & _ & _ & _ & _ & _ & H & _).
    specialize (H Hp). lra.
  - simpl in Hp. destruct Hp as [<-|[<-|[<-|[]]]]; discriminate.
Qed.

Lemma range_neutral (s : Q) :
  range_ok "neutral" s -> Qabs s <= 15 # 100.
Proof.
  unfold range_ok. change (dict_get EMOTION_SCORE_RANGES "neutral")
    with (Some (- (15 # 100), 15 # 100)).
  intros [H1 H2]. apply Qabs_case; intro; lra.
Qed.

Lemma check_confidence_settled (text e : string) (s c : Q) :
  1 # 2 <= c -> check_confidence text (e, s, c) = Ok (e, s, c).
Proof.
  intro H. unfold check_confidence. cbv beta iota.
  apply Qltb_false in H. now rewrite H.
Qed.

Ltac absurd_in H :=
  exfalso; simpl in H; repeat (destruct H as [H|H]; [discriminate H|]); exact H.

Lemma check_sign_settled (text e : string) (s c : Q) :
  range_ok e s -> check_sign text (e, s, c) = Ok (e, s, c).
Proof.
  intro Hr. unfold check_sign. cbv beta iota.
  destruct (mem e positive_emotions) eqn:Ep.
  { apply mem_In in Ep. pose proof (range_positive e s Ep Hr) as Hs.
    assert (Q : Qltb s 0 = false) by (apply Qltb_false; lra).
    rewrite Q. cbn [andb].
    destruct (mem e negative_emotions) eqn:En.
    { apply mem_In in En. pose proof (range_negative e s En Hr). lra. }
    cbn [andb]. destruct (String.eqb_spec e "neutral") as [->|Hn]; [absurd_in Ep|].
    reflexivity. }
  cbn [andb].
  destruct (mem e negative_emotions) eqn:En.
  { apply mem_In in En. pose proof (range_negative e s En Hr) as Hs.
    assert (Q : Qltb 0 s = false) by (apply Qltb_false; lra).
    rewrite Q. cbn [andb].
    destruct (String.eqb_spec e "neutral") as [->|Hn]; [absurd_in En|].
    reflexivity. }
  cbn [andb].
  destruct (String.eqb_spec e "neutral") as [->|Hn]; [|reflexivity].
  pose proof (range_neutral s Hr) as Ha.
  assert (Q : Qltb (25 # 100) (Qabs s) = false) by (apply Qltb_false; lra).
  rewrite Q. reflexivity.
Qed.

(** A settled state passes through the four checks unchanged, up to [==]
    on the score. *)
Lemma settled_fixed (text e : string) (s c : Q) :
  settled text (e, s, c) ->
  exists s',
    (s1 <- check_confidence text (e, s, c) ;;
     s2 <- check_sign text s1 ;;
     check_evidence text (check_range s2)) = Ok (e, s', c) /\
    s' == s /\ settled text (e, s', c).
Proof.
  intro Hs. pose proof Hs as (H1 & H2 & H3 & H4 & H5 & H6).
  rewrite (check_confidence_settled text e s c H1). cbn [bind].
  rewrite (check_sign_settled text e s c H5). cbn [bind].
  destruct (check_range_spec e s c) as (s' & E & R1 & R2 & R3).
  rewrite E, check_evidence_eq, H6.
  exists s'. split; [reflexivity|]. specialize (R3 H5). split; [exact R3|].
  apply (settled_comp text e s s' c c); [now symmetry|reflexivity|exact Hs].
Qed.


Lemma range_evidence_settled (text e : string) (s c : Q) :
  settled text (e, s, c) ->
  exists s', check_evidence text (check_range (e, s, c)) = Ok (e, s', c) /\
             s' == s /\ settled text (e, s', c).
Proof.
  intro Hs. pose proof Hs as (H1 & H2 & H3 & H4 & H5 & H6).
  destruct (check_range_spec e s c) as (s' & E & R1 & R2 & R3).
  rewrite E, check_evidence_eq, H6.
  exists s'. split; [reflexivity|]. specialize (R3 H5). split; [exact R3|].
  apply (settled_comp text e s s' c c); [now symmetry|reflexivity|exact Hs].
Qed.

Lemma sign_range_evidence_settled (text e : string) (s c : Q) :
  settled text (e, s, c) ->
  exists s', (s2 <- check_sign text (e, s, c) ;;
              check_evidence text (check_range s2)) = Ok (e, s', c) /\
             s' == s /\ settled text (e, s', c).
Proof.
  intro Hs. pose proof Hs as (H1 & H2 & H3 & H4 & H5 & H6).
  rewrite (check_sign_settled text e s c H5). cbn [bind].
  now apply range_evidence_settled.
Qed.

Lemma read_candidate_spec (x : mood_dict) :
  exists s, read_candidate x = (candidate_emotion x, s, candidate_confidence x) /\
            lower (candidate_emotion x) = candidate_emotion x /\
            candidate_emotion x <> "" /\ -1 <= s /\ s <= 1.
Proof.
  unfold read_candidate, candidate_emotion, candidate_confidence.
  eexists. split; [reflexivity|]. split; [apply lower_idem|]. split.
  - apply lower_nonempty. unfold str_or.
    destruct (get_dominant_emotion x) as [e|]; [|discriminate].
    destruct e; simpl; discriminate.
  - apply clamp_bounds. lra.
Qed.

Lemma range_evidence_any (x : mood_dict) (text e : string) (s c : Q) :
  e = candidate_emotion x -> c = candidate_confidence x ->
  1 # 2 <= c -> -1 <= s -> s <= 1 ->
  exists e' s' c',
    check_evidence text (check_range (e, s, c)) = Ok (e', s', c') /\
    settled text (e', s', c') /\ provenance x text (e', s', c').
Proof.
  intros He Hc H1 Hl Hh.
  destruct (read_candidate_spec x) as (_ & _ & L1 & L2 & _). rewrite <- He in L1, L2.
  destruct (check_range_spec e s c) as (s' & E & R1 & R2 & _).
  rewrite E, check_evidence_eq.
  destruct (override_guard text e) eqn:G.
  - destruct (detect_spec text) as (ed & sd & cd & Hd & Hs & _).
    exists ed, sd, cd. split; [exact Hd|]. split; [exact Hs|].
    right. exists sd. split; [exact Hd|reflexivity].
  - exists e, s', c. split; [reflexivity|]. split.
    + repeat split; auto; apply R2; auto.
    + left. auto.
Qed.

Lemma Qabs_unit (s : Q) : -1 <= s -> s <= 1 -> 0 <= Qabs s /\ Qabs s <= 1.
Proof. intros. apply Qabs_case; intro; split; lra. Qed.

(** The state that the checks reach. *)
Lemma run_checks_spec (x : mood_dict) (text : string) :
  exists e s c,
    run_checks x text = Ok (e, s, c) /\ settled text (e, s, c) /\
    provenance x text (e, s, c).
Proof.
  unfold run_checks.
  destruct (read_candidate_spec x) as (s0 & R & L1 & L2 & B1 & B2). rewrite R.
  set (e0 := candidate_emotion x) in *. set (c0 := candidate_confidence x) in *.
  unfold check_confidence. cbv beta iota.
  destruct (Qltb_spec c0 (1 # 2)) as [[H E]|[H E]]; rewrite E.
  - destruct (detect_spec text) as (ed & sd & cd & Hd & Hs & _).
    rewrite Hd. cbn [bind].
    destruct (sign_range_evidence_settled text ed sd cd Hs) as (s' & Hr & Hq & Hs').
    exists ed, s', cd. split; [exact Hr|]. split; [exact Hs'|].
    right. exists sd. auto.
  - cbn [bind]. unfold check_sign. cbv beta iota.
    destruct (Qabs_unit s0 B1 B2) as [A1 A2].
    destruct (mem e0 positive_emotions && Qltb s0 0).
    { cbn [bind]. apply (range_evidence_any x); auto; lra. }
    destruct (mem e0 negative_emotions && Qltb 0 s0).
    { cbn [bind]. apply (range_evidence_any x); auto; lra. }
    destruct (String.eqb e0 "neutral" && Qltb (25 # 100) (Qabs s0)).
    + destruct (detect_spec text) as (ed & sd & cd & Hd & Hs & _).
      rewrite Hd. cbn [bind].
      destruct (range_evidence_settled text ed sd cd Hs) as (s' & Hr & Hq & Hs').
      exists ed, s', cd. split; [exact Hr|]. split; [exact Hs'|].
      right. exists sd. auto.
    + cbn [bind]. apply (range_evidence_any x); auto.
Qed.

(** *** When the checks re-detect *)

Lemma check_sign_cases (text e : string) (s c : Q) :
  (String.eqb e "neutral" && Qltb (25 # 100) (Qabs s) = true /\
   check_sign text (e, s, c) = _detect_emotion_from_text text) \/
  (String.eqb e "neutral" && Qltb (25 # 100) (Qabs s) = false /\
   exists s1, check_sign text (e, s, c) = Ok (e, s1, c) /\
              (-1 <= s /\ s <= 1 -> -1 <= s1 /\ s1 <= 1)).
Proof.
  unfold check_sign. cbv beta iota.
  destruct (String.eqb_spec e "neutral") as [->|Hn].
  - change (mem "neutral" positive_emotions) with false.
    change (mem "neutral" negative_emotions) with false. cbn [andb].
    destruct (Qltb (25 # 100) (Qabs s)).
    + left. auto.
    + right. split; [reflexivity|]. exists s. auto.
  - cbn [andb]. right. split; [reflexivity|].
    destruct (mem e positive_emotions && Qltb s 0).
    { exists (Qabs s). split; [reflexivity|]. intros [B1 B2].
      destruct (Qabs_unit s B1 B2). split; lra. }
    destruct (mem e negative_emotions && Qltb 0 s).
    { exists (- Qabs s). split; [reflexivity|]. intros [B1 B2].
      destruct (Qabs_unit s B1 B2). split; lra. }
    exists s. auto.
Qed.

Lemma range_evidence_cases (text e : string) (s c : Q) :
  exists e' s' c',
    check_evidence text (check_range (e, s, c)) = Ok (e', s', c') /\
    if override_guard text e
    then exists sd, _detect_emotion_from_text text = Ok (e', sd, c') /\ s' == sd
    else e' = e /\ c' = c.
Proof.
  destruct (check_range_spec e s c) as (s' & E & _).
  rewrite E, check_evidence_eq.
  destruct (override_guard text e).
  - destruct (detect_spec text) as (ed & sd & cd & Hd & _).
    exists ed, sd, cd. split; [exact Hd|]. exists sd. split; [exact Hd|reflexivity].
  - exists e, s', c. auto.
Qed.

(** The checks keep the emotion and the confidence of the candidate
    unless one of them re-detects; then the state is the output of the
    re-detector. *)
Lemma run_checks_cases (x : mood_dict) (text : string) :
  exists e s c,
    run_checks x text = Ok (e, s, c) /\
    if redetects x text
    then exists sd, _detect_emotion_from_text text = Ok (e, sd, c) /\ s == sd
    else e = candidate_emotion x /\ c = candidate_confidence x /\ 1 # 2 <= c.
Proof.
  unfold run_checks, redetects.
  destruct (read_candidate_spec x) as (s0 & R & L1 & L2 & B1 & B2). rewrite R.
  set (e0 := candidate_emotion x) in *. set (c0 := candidate_confidence x) in *.
  unfold check_confidence. cbv beta iota.
  destruct (Qltb_spec c0 (1 # 2)) as [[H E]|[H E]]; rewrite E; cbn [orb].
  - destruct (detect_spec text) as (ed & sd & cd & Hd & Hs & _).
    rewrite Hd. cbn [bind].
    destruct (sign_range_evidence_settled text ed sd cd Hs) as (s' & Hr & Hq & _).
    exists ed, s', cd. split; [exact Hr|]. exists sd. auto.
  - cbn [bind].
    destruct (check_sign_cases text e0 s0 c0) as [[Hz Hs]|[Hz (s1 & Hs & _)]];
      rewrite Hs, Hz; cbn [orb].
    + destruct (detect_spec text) as (ed & sd & cd & Hd & Hst & _).
      rewrite Hd. cbn [bind].
      destruct (range_evidence_settled text ed sd cd Hst) as (s' & Hr & Hq & _).
      exists ed, s', cd. split; [exact Hr|]. exists sd. auto.
    + cbn [bind].
      destruct (range_evidence_cases text e0 s1 c0) as (e' & s' & c' & Hr & Hc).
      exists e', s', c'. split; [exact Hr|].
      destruct (override_guard text e0); [exact Hc|].
      destruct Hc as [-> ->]. auto.
Qed.

(** *** Rounding the final state *)

Lemma num_or_some (q : Q) : num_or (Some q) 0 == q.
Proof.
  unfold num_or. destruct (Qeq_bool q 0) eqn:E; [|reflexivity].
  apply Qeq_bool_iff in E. now symmetry.
Qed.

Lemma round_unit (s : Q) :
  -1 <= s -> s <= 1 -> -1 <= py_round s 4 /\ py_round s 4 <= 1.
Proof.
  intros H1 H2. split.
  - apply (py_round_ge (-1) s 4 (-10000)); [reflexivity|exact H1].
  - apply (py_round_le 1 s 4 10000); [reflexivity|exact H2].
Qed.

Lemma round_half (c : Q) : 1 # 2 <= c -> 1 # 2 <= py_round c 4.
Proof. intro H. apply (py_round_ge (1 # 2) c 4 5000); [reflexivity|exact H]. Qed.

Lemma round_range_ok (e : string) (s : Q) :
  range_ok e s -> range_ok e (py_round s 4).
Proof.
  unfold range_ok. destruct (dict_get EMOTION_SCORE_RANGES e) as [[lo hi]|] eqn:E; [|auto].
  destruct (ranges_table e lo hi E) as (_ & _ & _ & _ & (klo & khi & Hlo & Hhi) & _).
  intros [H1 H2]. split.
  - apply (py_round_ge lo s 4 klo); assumption.
  - apply (py_round_le hi s 4 khi); assumption.
Qed.

Lemma settled_round (text e : string) (s c : Q) :
  settled text (e, s, c) -> settled text (e, py_round s 4, py_round c 4).
Proof.
  intros (H1 & H2 & H3 & [H4 H4'] & H5 & H6).
  split; [now apply round_half|]. split; [exact H2|]. split; [exact H3|].
  split; [now apply round_unit|]. split; [now apply round_range_ok|exact H6].
Qed.

Lemma valid_in_table (e : string) :
  In e valid_emotions -> exists lo hi, dict_get EMOTION_SCORE_RANGES e = Some (lo, hi).
Proof.
  simpl. intros [<-|[<-|[<-|[<-|[<-|[<-|[]]]]]]]; eexists; eexists; reflexivity.
Qed.

Lemma range_ok_polarity (e : string) (s : Q) :
  In e valid_emotions -> range_ok e s -> in_table_range e s /\ polarity_ok e s.
Proof.
  intros Hv Hr. destruct (valid_in_table e Hv) as (lo & hi & E).
  unfold range_ok in Hr. rewrite E in Hr. destruct Hr as [H1 H2].
  destruct (ranges_table e lo hi E) as (_ & _ & _ & _ & _ & Hp & Hn & Hz).
  split; [exists lo, hi; auto|].
  split; [intro H; specialize (Hp H); lra|].
  split; [intro H; specialize (Hn H); lra|].
  intro H. specialize (Hz H). apply Qabs_case; intro; lra.
Qed.

Lemma detect_functional (text e e' : string) (s s' c c' : Q) :
  _detect_emotion_from_text text = Ok (e, s, c) ->
  _detect_emotion_from_text text = Ok (e', s', c') ->
  e = e' /\ s = s' /\ c = c'.
Proof. intros H1 H2. rewrite H1 in H2. inversion H2. auto. Qed.

Lemma candidate_emotion_valid (x : mood_dict) (e0 : string) :
  get_dominant_emotion x = Some e0 -> In e0 valid_emotions -> candidate_emotion x = e0.
Proof.
  intros H Hv. unfold candidate_emotion, str_or. rewrite H.
  destruct (valid_lower e0 Hv) as [Hl Hn].
  destruct e0; [congruence|]. exact Hl.
Qed.

(** The final emotion is in the closed set when the candidate's is. *)
Lemma run_checks_valid (x : mood_dict) (text e : string) (s c : Q) :
  In (candidate_emotion x) valid_emotions ->
  run_checks x text = Ok (e, s, c) -> In e valid_emotions.
Proof.
  intros Hv Hr.
  destruct (run_checks_spec x text) as (e' & s' & c' & Hr' & _ & Hp).
  rewrite Hr in Hr'. inversion Hr'; subst e' s' c'.
  destruct Hp as [(He & _)|(sd & Hd & _)]; [now rewrite He|].
  destruct (detect_spec text) as (ed & sd' & cd & Hd' & _ & Hvd & _).
  destruct (detect_functional _ _ _ _ _ _ _ Hd Hd') as (-> & _). exact Hvd.
Qed.

End ValidatorFacts.
Import ValidatorFacts EmotionValidator.

(** C1.  For a candidate whose emotion is one of the six values of the
    closed set and any text, [validate_and_fix] returns a result whose
    score has the sign of the polarity class of its emotion (happy, calm:
    score >= 0; sad, anxious, angry: score <= 0; neutral: |score| <= 0.15)
    and lies within the range that [EMOTION_SCORE_RANGES] gives for that
    emotion. *)
Theorem validate_and_fix_sign_and_range
    (x : mood_dict) (text e0 : string) :
  get_dominant_emotion x = Some e0 -> In e0 valid_emotions ->
  exists r, validate_and_fix x text = Ok r /\
            In (dominant_emotion r) valid_emotions /\
            polarity_ok (dominant_emotion r) (mood_score r) /\
            in_table_range (dominant_emotion r) (mood_score r).
Proof.
  intros He0 Hv. unfold validate_and_fix.
  destruct (run_checks_spec x text) as (e & s & c & Hr & Hs & _).
  assert (Hve : In e valid_emotions).
  { apply (run_checks_valid x text e s c); [|exact Hr].
    now rewrite (candidate_emotion_valid x e0 He0 Hv). }
  rewrite Hr. cbn [bind]. eexists. split; [reflexivity|].
  cbn [fixed_result dominant_emotion mood_score].
  split; [exact Hve|].
  destruct Hs as (_ & _ & _ & _ & Hro & _).
  destruct (range_ok_polarity e (py_round s 4) Hve (round_range_ok e s Hro)); auto.
Qed.

Lemma validate_and_fix_sign_and_range_witness :
  exists r,
    validate_and_fix (mkMoodDict (Some (- (8 # 10))) (Some "calm") (Some (9 # 10)) (Some []))
                     "I am furious and enraged" = Ok r /\
    In (dominant_emotion r) valid_emotions /\
    polarity_ok (dominant_emotion r) (mood_score r) /\
    in_table_range (dominant_emotion r) (mood_score r).
Proof.
  apply (validate_and_fix_sign_and_range _ _ "calm"); [reflexivity|simpl; tauto].
Defined.

(** The state that the checks reach on a result of [validate_and_fix]. *)
Lemma run_checks_again (text e : string) (s c : Q) :
  settled text (e, s, c) ->
  exists s',
    run_checks (to_dict (fixed_result text (e, s, c))) text =
      Ok (e, s', candidate_confidence (to_dict (fixed_result text (e, s, c)))) /\
    s' == py_round s 4 /\
    candidate_confidence (to_dict (fixed_result text (e, s, c))) == py_round c 4.
Proof.
  intro Hs. pose proof (settled_round text e s c Hs) as Hr.
  pose proof Hs as (_ & Hl & Hn & _).
  unfold run_checks.
  destruct (read_candidate_spec (to_dict (fixed_result text (e, s, c))))
    as (s0 & R & _).
  rewrite R.
  assert (Ee : candidate_emotion (to_dict (fixed_result text (e, s, c))) = e).
  { unfold candidate_emotion, str_or.
    cbn [fixed_result to_dict get_dominant_emotion dominant_emotion].
    destruct e; [congruence|]. exact Hl. }
  assert (Ec : candidate_confidence (to_dict (fixed_result text (e, s, c))) == py_round c 4).
  { unfold candidate_confidence.
    cbn [fixed_result to_dict get_confidence confidence]. apply num_or_some. }
  assert (Es : s0 == py_round s 4).
  { unfold read_candidate in R.
    cbn [fixed_result to_dict get_mood_score mood_score] in R.
    inversion R as [[Hs0]]. clear R.
    destruct Hr as (_ & _ & _ & [B1 B2] & _).
    rewrite (py_max_comp _ _ (Qeq_refl (-1)) _ _
               (py_min_comp _ _ (Qeq_refl 1) _ _ (num_or_some (py_round s 4)))).
    now apply clamp_inside. }
  rewrite Ee.
  set (c0 := candidate_confidence (to_dict (fixed_result text (e, s, c)))) in *.
  assert (Hs0 : settled text (e, s0, c0)).
  { apply (settled_comp text e (py_round s 4) s0 (py_round c 4) c0);
      [now symmetry|now symmetry|exact Hr]. }
  destruct (settled_fixed text e s0 c0 Hs0) as (s' & Hrun & Hq & _).
  exists s'. split; [exact Hrun|]. split; [|exact Ec].
  now rewrite Hq.
Qed.

(** C2.  [validate_and_fix] is idempotent: validating its own result
    against the same text gives that result again, in all four fields
    (the numeric fields compared as numbers). *)
Theorem validate_and_fix_idempotent (x : mood_dict) (text : string) :
  exists r r',
    validate_and_fix x text = Ok r /\
    validate_and_fix (to_dict r) text = Ok r' /\
    MoodResult_eq r' r.
Proof.
  unfold validate_and_fix.
  destruct (run_checks_spec x text) as (e & s & c & Hr & Hs & _).
  rewrite Hr. cbn [bind].
  destruct (run_checks_again text e s c Hs) as (s' & Hr' & Hq & Hc).
  exists (fixed_result text (e, s, c)). eexists.
  split; [reflexivity|]. rewrite Hr'. cbn [bind]. split; [reflexivity|].
  unfold MoodResult_eq.
  cbn [fixed_result mood_score dominant_emotion confidence keywords].
  split; [|split; [reflexivity|split; [|reflexivity]]].
  - rewrite (py_round_comp _ _ Hq 4%nat 4%nat eq_refl). apply py_round_idem.
  - rewrite (py_round_comp _ _ Hc 4%nat 4%nat eq_refl). apply py_round_idem.
Qed.

(** C10, counterexample.  The candidate (happy, 0.5, 0.9) on the text
    "I am worried": "happy" has no keyword in the text and "anxious" has
    one, so CHECK 5 re-detects, and the confidence 0.9 of the candidate,
    which is above 0.5, is not preserved: the result holds 0.63. *)
Lemma validate_and_fix_confidence_counterexample :
  let x := mkMoodDict (Some (5 # 10)) (Some "happy") (Some (9 # 10)) (Some []) in
  exists r,
    validate_and_fix x "I am worried" = Ok r /\
    1 # 2 <= candidate_confidence x /\
    confidence r == 63 # 100 /\
    ~ confidence r == candidate_confidence x.
Proof.
  intro x.
  exists (mkMoodResult (py_round (- (66 # 100)) 4) "anxious"
            (py_round (py_min (90 # 100) ((55 # 100) + inject_Z 1 * (8 # 100))) 4)
            ["worried"]).
  split; [vm_compute; reflexivity|].
  split; [vm_compute; discriminate|].
  split; [vm_compute; reflexivity|].
  intro H. vm_compute in H. discriminate H.
Qed.

(** C10, amended.  The confidence of a result of [validate_and_fix] is at
    least 0.5.  A candidate's confidence below 0.5 is replaced by that of
    the re-detector, and so is one of at least 0.5 when a later check
    re-detects (a neutral candidate with a score beyond 0.25, or an
    emotion without a keyword in the text where another emotion has one);
    the confidence of the re-detector is 0.5 when no keyword matches and
    min(0.90, 0.55 + 0.08 * matches), at least 0.55, otherwise.  In every
    other case the candidate's confidence, itself at least 0.5, is kept.
    The result holds the confidence rounded to four decimals.  Hence the
    low-confidence check does not fire when a result is validated
    again. *)
Theorem validate_and_fix_confidence_floor (x : mood_dict) (text : string) :
  exists r,
    validate_and_fix x text = Ok r /\
    1 # 2 <= confidence r /\
    (candidate_confidence x < 1 # 2 -> redetects x text = true) /\
    ((redetects x text = false /\
      1 # 2 <= candidate_confidence x /\
      confidence r = py_round (candidate_confidence x) 4) \/
     (redetects x text = true /\
      exists e s c,
        _detect_emotion_from_text text = Ok (e, s, c) /\
        confidence r = py_round c 4 /\
        (c = 1 # 2 \/
         (c = py_min (90 # 100)
                ((55 # 100) + inject_Z (Z.of_nat (evidence text e)) * (8 # 100)) /\
          55 # 100 <= c)))) /\
    check_confidence text (read_candidate (to_dict r)) = Ok (read_candidate (to_dict r)).
Proof.
  unfold validate_and_fix.
  destruct (run_checks_spec x text) as (e & s & c & Hr & Hs & _).
  destruct (run_checks_cases x text) as (e' & s' & c' & Hr' & Hcase).
  rewrite Hr in Hr'. inversion Hr'. subst e' s' c'. clear Hr'.
  rewrite Hr. cbn [bind]. exists (fixed_result text (e, s, c)). split; [reflexivity|].
  pose proof (settled_round text e s c Hs) as (Hc & _).
  split; [exact Hc|]. split; [|split].
  - intro Hlow. unfold redetects.
    destruct (read_candidate_spec x) as (s0 & R & _). rewrite R.
    apply Qltb_true in Hlow. rewrite Hlow. reflexivity.
  - cbn [fixed_result confidence].
    destruct (redetects x text).
    + right. split; [reflexivity|]. destruct Hcase as (sd & Hd & _).
      destruct (detect_spec text)
        as (ed & sd' & cd & Hd' & _ & _ & _ & _ & _ & Hk).
      destruct (detect_functional _ _ _ _ _ _ _ Hd Hd') as (-> & -> & ->).
      exists ed, sd', cd. split; [exact Hd|]. split; [reflexivity|].
      destruct Hk as [(_ & _ & _ & ->)|(_ & _ & _ & Hcd & Hge)]; auto.
    + left. destruct Hcase as (_ & -> & Hge). auto.
  - destruct (read_candidate_spec (to_dict (fixed_result text (e, s, c))))
      as (s0 & R & _).
    rewrite R. apply check_confidence_settled.
    unfold candidate_confidence. cbn [fixed_result to_dict get_confidence confidence].
    rewrite (num_or_some (py_round c 4)). exact Hc.
Qed.

(** C3, counterexample.  The candidate (happy, 0.5, 0.9) on the text
    "the cat sat", which holds no keyword of any emotion: the result keeps
    "happy", which has no evidence, and the re-detector returns "neutral". *)
Lemma validate_and_fix_evidence_counterexample :
  exists r,
    validate_and_fix (mkMoodDict (Some (5 # 10)) (Some "happy") (Some (9 # 10)) (Some []))
                     "the cat sat" = Ok r /\
    dominant_emotion r = "happy" /\
    ~ evidence_or_redetected "the cat sat" r.
Proof.
  exists (mkMoodResult (py_round (5 # 10) 4) "happy" (py_round (9 # 10) 4)
                       ["journal"; "entry"]).
  split; [vm_compute; reflexivity|]. split; [reflexivity|].
  intros [H|(s & c & H)].
  - vm_compute in H. lia.
  - vm_compute in H. discriminate H.
Qed.

(** C3, amended.  The emotion of a result has keyword evidence in the
    text, or is the emotion that the re-detector returns for the text, or
    is the candidate's own label, kept because no emotion other than
    neutral has any keyword in the text. *)
Theorem validate_and_fix_evidence (x : mood_dict) (text : string) :
  exists r,
    validate_and_fix x text = Ok r /\
    (evidence_or_redetected text r \/
     (primary_total text = 0%nat /\ dominant_emotion r = candidate_emotion x /\
      1 # 2 <= candidate_confidence x)).
Proof.
  unfold validate_and_fix.
  destruct (run_checks_spec x text) as (e & s & c & Hr & Hs & Hp).
  rewrite Hr. cbn [bind]. exists (fixed_result text (e, s, c)).
  split; [reflexivity|]. unfold evidence_or_redetected.
  cbn [fixed_result dominant_emotion].
  destruct Hp as [(He & Hc & Hge & Hg)|(sd & Hd & Hq)].
  - unfold override_guard in Hg. apply andb_false_iff in Hg.
    destruct Hg as [Hg|Hg].
    + left. left. apply Nat.eqb_neq in Hg. lia.
    + right. apply negb_false_iff, Nat.eqb_eq in Hg.
      rewrite <- Hc. auto.
  - left. right. exists sd, c. exact Hd.
Qed.

(** *** Keyword extraction *)

Module KeywordFacts.

Lemma NoDup_snoc (acc : list string) (kw : string) :
  NoDup acc -> ~ In kw acc -> NoDup (acc ++ [kw])%list.
Proof.
  intros Hn Hk. induction Hn as [|a l Ha Hl IH]; simpl.
  - constructor; [intros []|constructor].
  - constructor.
    + rewrite in_app_iff. intros [H|[H|[]]]; [contradiction|].
      subst. apply Hk. now left.
    + apply IH. intro H. apply Hk. now right.
Qed.

Lemma dedup_loop_cons (kw : string) (kws acc : list string) :
  dedup_loop (kw :: kws) acc =
  if (5 <=? List.length (if mem kw acc then acc else (acc ++ [kw])%list))%nat
  then (if mem kw acc then acc else (acc ++ [kw])%list)
  else dedup_loop kws (if mem kw acc then acc else (acc ++ [kw])%list).
Proof. reflexivity. Qed.

(** The loop extends the list it starts from, keeps it free of
    duplicates and stops at five words. *)
Lemma dedup_loop_spec (kws : list string) : forall acc,
  NoDup acc -> (List.length acc < 5)%nat ->
  exists ext,
    dedup_loop kws acc = (acc ++ ext)%list /\
    NoDup (acc ++ ext)%list /\ (List.length (acc ++ ext)%list <= 5)%nat /\
    (forall k, In k ext -> In k kws).
Proof.
  induction kws as [|kw kws IH]; intros acc Hn Hl.
  - exists []. rewrite app_nil_r. repeat split; auto; try lia; intros ? [].
  - rewrite dedup_loop_cons. destruct (mem kw acc) eqn:M.
    + replace (5 <=? List.length acc)%nat with false
        by (symmetry; apply Nat.leb_gt; lia).
      destruct (IH acc Hn Hl) as (ext & E & N & L & Sub).
      exists ext. repeat split; auto. intros k Hk. right. auto.
    + apply mem_false in M. pose proof (NoDup_snoc acc kw Hn M) as Hn'.
      destruct (Nat.leb_spec 5 (List.length (acc ++ [kw])%list)) as [H5|H5].
      * exists [kw]. split; [reflexivity|]. split; [exact Hn'|].
        split; [rewrite length_app in *; simpl in *; lia|].
        intros k [<-|[]]. now left.
      * destruct (IH (acc ++ [kw])%list Hn' H5) as (ext & E & N & L & Sub).
        exists (kw :: ext). rewrite <- app_assoc in E, N, L. simpl in E, N, L.
        repeat split; auto. intros k [<-|H]; [now left|right; auto].
Qed.

Lemma dedup_loop_app (A B : list string) : forall acc,
  (List.length acc < 5)%nat ->
  dedup_loop (A ++ B)%list acc =
  if (5 <=? List.length (dedup_loop A acc))%nat then dedup_loop A acc
  else dedup_loop B (dedup_loop A acc).
Proof.
  induction A as [|a A IH]; intros acc Hl.
  - cbn [app dedup_loop].
    replace (5 <=? List.length acc)%nat with false
      by (symmetry; apply Nat.leb_gt; lia).
    reflexivity.
  - cbn [app]. rewrite !dedup_loop_cons.
    set (acc' := if mem a acc then acc else (acc ++ [a])%list).
    destruct (Nat.leb_spec 5 (List.length acc')) as [H5|H5].
    + replace (5 <=? List.length acc')%nat with true
        by (symmetry; apply Nat.leb_le; lia).
      reflexivity.
    + apply IH. exact H5.
Qed.

(** What [_extract_quality_keywords] returns: no duplicates, between one
    and five words, the emotion keywords found in the text first, then
    words that are neither such keywords nor stop words. *)
Lemma extract_quality_keywords_spec (text emotion : string) :
  let kws := _extract_quality_keywords text emotion in
  NoDup kws /\ (1 <= List.length kws <= 5)%nat /\
  exists l1 l2,
    kws = (l1 ++ l2)%list /\
    (forall k, In k l1 ->
       In k (dict_get_default EMOTION_KEYWORDS emotion []) /\ In k (_tokenize text)) /\
    (forall k, In k l2 ->
       ~ In k (emotion_kwds_of emotion (_tokenize text)) /\ ~ In k EmotionValidator.stop_words).
Proof.
  unfold _extract_quality_keywords.
  set (tokens := _tokenize text).
  set (A := emotion_kwds_of emotion tokens).
  set (B := content_words_of A tokens).
  assert (HA : forall k, In k A ->
             In k (dict_get_default EMOTION_KEYWORDS emotion []) /\ In k tokens).
  { intros k Hk. unfold A, emotion_kwds_of in Hk. apply filter_In in Hk.
    destruct Hk as [H1 H2]. apply mem_In in H2. auto. }
  assert (HB : forall k, In k B -> ~ In k A /\ ~ In k EmotionValidator.stop_words).
  { intros k Hk. unfold B, content_words_of in Hk. apply filter_In in Hk.
    destruct Hk as [_ H]. repeat rewrite andb_true_iff in H.
    destruct H as [[[_ _] H1] H2].
    apply negb_true_iff, mem_false in H1. apply negb_true_iff, mem_false in H2. auto. }
  assert (H0 : (List.length (@nil string) < 5)%nat) by (simpl; lia).
  rewrite (dedup_loop_app A B [] H0).
  destruct (dedup_loop_spec A [] (NoDup_nil _) H0) as (l1 & E1 & N1 & L1 & S1).
  simpl in E1, N1, L1. rewrite E1.
  destruct (Nat.leb_spec 5 (List.length l1)) as [H5|H5].
  - destruct l1 as [|k l1]; [simpl in H5; lia|].
    split; [exact N1|]. split; [simpl in *; lia|].
    exists (k :: l1), []. rewrite app_nil_r. split; [reflexivity|]. split.
    + intros k' Hk'. apply HA, S1. exact Hk'.
    + intros k' [].
  - destruct (dedup_loop_spec B l1 N1 H5) as (l2 & E2 & N2 & L2 & S2).
    rewrite E2.
    destruct (l1 ++ l2)%list as [|k l] eqn:E.
    + apply app_eq_nil in E. destruct E as [-> ->].
      assert (A = []).
      { destruct A as [|a A']; [reflexivity|]. simpl in E1.
        destruct (dedup_loop_spec A' [a]) as (ext & Ex & _);
          [constructor; [intros []|constructor]|simpl; lia|].
        rewrite Ex in E1. discriminate E1. }
      split; [constructor; [simpl; intros [Hj|[]]; discriminate Hj|
              constructor; [intros []|constructor]]|].
      split; [simpl; lia|].
      exists [], ["journal"; "entry"]. split; [reflexivity|].
      split; [intros k []|].
      intros k Hk. fold tokens. fold A. rewrite H. split; [intros []|].
      apply mem_false.
      simpl in Hk. destruct Hk as [<-|[<-|[]]]; vm_compute; reflexivity.
    + split; [exact N2|]. split.
      { split; [|exact L2]. simpl. lia. }
      exists l1, l2. split; [symmetry; exact E|]. split.
      * intros k' Hk'. apply HA, S1. exact Hk'.
      * intros k' Hk'. apply HB, S2. exact Hk'.
Qed.

(** No list of [EMOTION_KEYWORDS] holds a word twice. *)
Lemma NoDup_by_nodup (l : list string) : nodup string_dec l = l -> NoDup l.
Proof. intros <-. apply NoDup_nodup. Qed.

Lemma lexicon_NoDup (emotion : string) :
  NoDup (dict_get_default EMOTION_KEYWORDS emotion []).
Proof.
  unfold dict_get_default, EMOTION_KEYWORDS. cbn [dict_get].
  repeat match goal with
         | |- context [String.eqb emotion ?k] => destruct (String.eqb emotion k)
         end;
    apply NoDup_by_nodup; vm_compute; reflexivity.
Qed.

Lemma emotion_kwds_NoDup (emotion : string) (tokens : list string) :
  NoDup (emotion_kwds_of emotion tokens).
Proof. unfold emotion_kwds_of. apply NoDup_filter, lexicon_NoDup. Qed.

Lemma firstn_NoDup (n : nat) : forall l : list string,
  NoDup l -> NoDup (firstn n l).
Proof.
  induction n as [|n IH]; intros l H; [constructor|].
  destruct l as [|a l]; [constructor|]. cbn [firstn].
  inversion H as [|? ? Ha Hl]; subst. constructor; [|now apply IH].
  intro Hin. apply Ha. rewrite <- (firstn_skipn n l). apply in_or_app. now left.
Qed.

(** On words that are distinct and not yet listed, the loop appends them
    one by one until the list holds five. *)
Lemma dedup_loop_fresh (kws : list string) : forall acc,
  NoDup kws -> (forall k, In k kws -> ~ In k acc) -> (List.length acc < 5)%nat ->
  dedup_loop kws acc = (acc ++ firstn (5 - List.length acc) kws)%list.
Proof.
  induction kws as [|kw kws IH]; intros acc Hn Hd Hl.
  - cbn [dedup_loop]. rewrite firstn_nil, app_nil_r. reflexivity.
  - rewrite dedup_loop_cons.
    assert (M : mem kw acc = false) by (apply mem_false, Hd; now left).
    rewrite M. inversion Hn as [|? ? Hk Hn']; subst.
    assert (E5 : (5 - List.length acc = S (5 - List.length (acc ++ [kw])%list))%nat).
    { rewrite length_app. cbn [List.length]. lia. }
    rewrite E5. cbn [firstn].
    destruct (Nat.leb_spec 5 (List.length (acc ++ [kw])%list)) as [H5|H5].
    + replace (5 - List.length (acc ++ [kw])%list)%nat with 0%nat by lia.
      reflexivity.
    + rewrite (IH (acc ++ [kw])%list Hn'); [|intros k Hin|exact H5].
      * rewrite <- app_assoc. reflexivity.
      * rewrite in_app_iff. intros [Ha|[->|[]]]; [|contradiction].
        apply (Hd k); [now right|exact Ha].
Qed.

(** The keywords start with the emotion keywords found in the text, in
    the order of the lexicon, up to five of them; what follows are words
    that are neither such keywords nor stop words. *)
Lemma extract_quality_keywords_prefix (text emotion : string) :
  exists l2,
    _extract_quality_keywords text emotion =
      (firstn 5 (emotion_kwds_of emotion (_tokenize text)) ++ l2)%list /\
    (forall k, In k l2 ->
       ~ In k (emotion_kwds_of emotion (_tokenize text)) /\
       ~ In k EmotionValidator.stop_words).
Proof.
  unfold _extract_quality_keywords.
  set (tokens := _tokenize text).
  set (A := emotion_kwds_of emotion tokens).
  set (B := content_words_of A tokens).
  assert (HB : forall k, In k B -> ~ In k A /\ ~ In k EmotionValidator.stop_words).
  { intros k Hk. unfold B, content_words_of in Hk. apply filter_In in Hk.
    destruct Hk as [_ H]. repeat rewrite andb_true_iff in H.
    destruct H as [[[_ _] H1] H2].
    apply negb_true_iff, mem_false in H1. apply negb_true_iff, mem_false in H2. auto. }
  assert (H0 : (List.length (@nil string) < 5)%nat) by (simpl; lia).
  rewrite (dedup_loop_app A B [] H0).
  rewrite (dedup_loop_fresh A [] (emotion_kwds_NoDup emotion tokens)); [|intros k _ []|exact H0].
  cbn [app List.length]. rewrite Nat.sub_0_r.
  destruct (Nat.leb_spec 5 (List.length (firstn 5 A))) as [H5|H5].
  - exists []. rewrite app_nil_r.
    destruct (firstn 5 A) as [|k l]; [simpl in H5; lia|].
    split; [reflexivity|]. intros k' [].
  - destruct (dedup_loop_spec B (firstn 5 A)) as (l2 & E2 & _ & _ & S2);
      [apply firstn_NoDup, emotion_kwds_NoDup|exact H5|].
    rewrite E2.
    destruct (firstn 5 A ++ l2)%list as [|k l] eqn:E.
    + apply app_eq_nil in E. destruct E as [E1 ->]. rewrite E1.
      exists ["journal"; "entry"]. split; [reflexivity|].
      assert (EA : A = []).
      { destruct A as [|a A']; [reflexivity|discriminate E1]. }
      intros k Hk. rewrite EA. split; [intros []|].
      apply mem_false.
      simpl in Hk. destruct Hk as [<-|[<-|[]]]; vm_compute; reflexivity.
    + exists l2. split; [symmetry; exact E|].
      intros k' Hk'. apply HB, S2. exact Hk'.
Qed.

End KeywordFacts.

(** C7, counterexample.  With the candidate (calm, 0.4, 0.9) and the text
    "I still feel calm" the keywords are "calm" and "still"; "still" is a
    keyword of calm and a stop word. *)
Lemma validate_and_fix_keywords_counterexample :
  exists r,
    validate_and_fix (mkMoodDict (Some (4 # 10)) (Some "calm") (Some (9 # 10)) (Some []))
                     "I still feel calm" = Ok r /\
    keywords r = ["calm"; "still"] /\
    In "still" (keywords r) /\ In "still" EmotionValidator.stop_words.
Proof.
  exists (mkMoodResult (py_round (4 # 10) 4) "calm" (py_round (9 # 10) 4)
                       ["calm"; "still"]).
  split; [vm_compute; reflexivity|]. split; [reflexivity|].
  split; [simpl; tauto|]. apply mem_In. vm_compute. reflexivity.
Qed.

(** C7, amended.  The keyword list of a result has no duplicates and
    between one and five entries.  It starts with the keywords of the
    result's emotion that are tokens of the text, all of them up to five
    and in the order of the lexicon; the words that follow are neither
    such keywords nor stop words.  (A stop word can appear only as a
    keyword of the emotion.) *)
Theorem validate_and_fix_keywords (x : mood_dict) (text : string) :
  exists r,
    validate_and_fix x text = Ok r /\
    NoDup (keywords r) /\
    (1 <= List.length (keywords r) <= 5)%nat /\
    (forall k, In k (emotion_kwds_of (dominant_emotion r) (_tokenize text)) <->
       In k (dict_get_default EMOTION_KEYWORDS (dominant_emotion r) []) /\
       In k (_tokenize text)) /\
    exists l2,
      keywords r =
        (firstn 5 (emotion_kwds_of (dominant_emotion r) (_tokenize text)) ++ l2)%list /\
      (forall k, In k l2 ->
         ~ In k (emotion_kwds_of (dominant_emotion r) (_tokenize text)) /\
         ~ In k EmotionValidator.stop_words).
Proof.
  unfold validate_and_fix.
  destruct (run_checks_spec x text) as (e & s & c & Hr & _).
  rewrite Hr. cbn [bind]. exists (fixed_result text (e, s, c)).
  split; [reflexivity|]. cbn [fixed_result keywords dominant_emotion].
  destruct (KeywordFacts.extract_quality_keywords_spec text e) as (Hn & Hl & _).
  split; [exact Hn|]. split; [exact Hl|]. split.
  - intro k. unfold emotion_kwds_of. rewrite filter_In, mem_In. reflexivity.
  - apply KeywordFacts.extract_quality_keywords_prefix.
Qed.

(** *** The analyzer *)

Module AnalyzerFacts.
Import MoodAnalyzer.

Lemma match_counts_shape (words : list string) :
  exists h s a c g,
    match_counts_of words =
    [("happy", h); ("sad", s); ("anxious", a); ("calm", c); ("angry", g)].
Proof.
  unfold match_counts_of, emotions.
  do 5 eexists. cbn [map fst snd]. reflexivity.
Qed.

(** [_fallback_analysis] returns, and its emotion is in the closed set. *)
Lemma fallback_spec (text : string) :
  exists r,
    _fallback_analysis text = Ok r /\
    In (dominant_emotion r) valid_emotions /\
    (fallback_total text = 0%nat ->
     dominant_emotion r = "neutral" /\ mood_score r = 0 /\ confidence r = 1 # 2).
Proof.
  unfold _fallback_analysis, fallback_total.
  destruct (match_counts_shape (word_list_of text)) as (h & s & a & c & g & E).
  rewrite E.
  set (five := [("happy", h); ("sad", s); ("anxious", a); ("calm", c); ("angry", g)]).
  destruct (Nat.eqb_spec (list_sum (map snd five)) 0) as [Ht|Ht].
  - cbn [bind]. eexists. split; [reflexivity|].
    cbn [dominant_emotion mood_score confidence].
    split; [simpl; tauto|]. auto.
  - destruct (max_key_spec five) as (e & n & Hk & Hin & _); [discriminate|].
    rewrite Hk. cbn [bind].
    assert (Hd : dict_index five e = Ok n /\ In e valid_emotions).
    { unfold five in Hin |- *. simpl in Hin.
      destruct Hin as [H|[H|[H|[H|[H|[]]]]]]; inversion H; subst;
        (split; [reflexivity|simpl; tauto]). }
    destruct Hd as [Hd Hv]. rewrite Hd. cbn [bind].
    eexists. split; [reflexivity|].
    cbn [dominant_emotion mood_score confidence].
    split; [exact Hv|]. intro H0. contradiction.
Qed.

Lemma fix_consistency_spec (result : MoodResult) (text : string) :
  In (dominant_emotion result) valid_emotions ->
  exists r, _fix_emotion_score_consistency result text = Ok r /\
            In (dominant_emotion r) valid_emotions.
Proof.
  intro Hv. unfold _fix_emotion_score_consistency.
  destruct (mem (dominant_emotion result) positive_emotions && Qltb (mood_score result) 0).
  { eexists. split; [reflexivity|exact Hv]. }
  destruct (mem (dominant_emotion result) negative_emotions && Qltb 0 (mood_score result)).
  { eexists. split; [reflexivity|exact Hv]. }
  destruct (String.eqb (dominant_emotion result) "neutral"
            && Qltb (3 # 10) (Qabs (mood_score result))).
  - destruct (fallback_spec text) as (f & Hf & Hfv & _). rewrite Hf. cbn [bind].
    destruct (negb (String.eqb (dominant_emotion f) "neutral")).
    + exists f. auto.
    + eexists. split; [reflexivity|exact Hv].
  - eexists. split; [reflexivity|exact Hv].
Qed.

Lemma parse_fields_valid (fields : model_fields) :
  In (dominant_emotion (parse_fields fields)) valid_emotions.
Proof.
  unfold parse_fields. cbn [dominant_emotion].
  destruct (mem _ valid_emotions) eqn:M; cbn [negb].
  - now apply mem_In in M.
  - simpl. tauto.
Qed.

Lemma candidate_emotion_to_dict (r : MoodResult) :
  In (dominant_emotion r) valid_emotions ->
  In (candidate_emotion (to_dict r)) valid_emotions.
Proof.
  intro Hv. rewrite (candidate_emotion_valid (to_dict r) (dominant_emotion r)); auto.
Qed.

Lemma validate_and_fix_valid (x : mood_dict) (text : string) :
  In (candidate_emotion x) valid_emotions ->
  exists r, validate_and_fix x text = Ok r /\ In (dominant_emotion r) valid_emotions.
Proof.
  intro Hv. unfold validate_and_fix.
  destruct (run_checks_spec x text) as (e & s & c & Hr & _).
  pose proof (run_checks_valid x text e s c Hv Hr) as Hve.
  rewrite Hr. cbn [bind]. eexists. split; [reflexivity|exact Hve].
Qed.

(** Unless the body of the answer is JSON that is not an object,
    [analyze_entry] returns a dictionary whose emotion is in the closed
    set. *)
Lemma analyze_entry_valid (post : string -> post_outcome)
    (decode : string -> option model_fields) (text : string) :
  post (strip is_space text) <> NotAnObject ->
  exists d, fst (analyze_entry post decode text) = Ok d /\
            In (candidate_emotion d) valid_emotions.
Proof.
  intro Hobj.
  assert (Hf : exists d, fallback_dict text = Ok d /\
                         In (candidate_emotion d) valid_emotions).
  { unfold fallback_dict. destruct (fallback_spec text) as (f & Hf & Hv & _).
    rewrite Hf. cbn [bind]. eexists. split; [reflexivity|].
    now apply candidate_emotion_to_dict. }
  unfold analyze_entry.
  destruct (is_empty text || is_empty (strip is_space text)).
  { cbn [fst]. eexists. split; [reflexivity|]. simpl. tauto. }
  cbn [fst].
  destruct (post (strip is_space text)) as [| | | |[raw|]];
    try exact Hf; [congruence|].
  unfold _parse_model_json.
  destruct (decode raw) as [fields|]; cbn [option_map]; [|exact Hf].
  destruct (fix_consistency_spec (parse_fields fields) text (parse_fields_valid fields))
    as (r & Hr & Hv).
  rewrite Hr. eexists. split; [reflexivity|].
  now apply candidate_emotion_to_dict.
Qed.

(** On such an answer the pipeline returns and ends in the closed set. *)
Lemma analyze_and_validate_valid (post : string -> post_outcome)
    (decode : string -> option model_fields) (content : string) :
  post (strip is_space content) <> NotAnObject ->
  exists r, analyze_and_validate post decode content = Ok r /\
            In (dominant_emotion r) valid_emotions.
Proof.
  intro Hobj. unfold analyze_and_validate.
  destruct (analyze_entry_valid post decode content Hobj) as (d & Hd & Hv).
  rewrite Hd. cbn [bind]. now apply validate_and_fix_valid.
Qed.

Lemma lstrip_all (p : ascii -> bool) (s : string) :
  forall_chars p s = true -> lstrip p s = "".
Proof.
  induction s as [|c s IH]; simpl; [reflexivity|].
  intro H. apply andb_true_iff in H. destruct H as [Hc Hs].
  rewrite Hc. auto.
Qed.

End AnalyzerFacts.
Import MoodAnalyzer.

(** C4.  A tuple from the model whose emotion label is not one of the six
    values is corrected in place by [_parse_model_json]: the label is
    lower-cased and, when it is still outside the closed set, replaced by
    the default "neutral".  No stage of the pipeline (parsing, the
    consistency pre-pass, validation) raises on it, and the emotion of the
    final result is one of the six values. *)
Theorem unrecognized_emotion_defaulted
    (post : string -> post_outcome) (decode : string -> option model_fields)
    (text raw label : string) (fields : model_fields) :
  is_empty (strip is_space text) = false ->
  post (strip is_space text) = ResponseField (Some raw) ->
  decode raw = Some fields ->
  raw_dominant_emotion fields = Some label ->
  ~ In label valid_emotions ->
  In (dominant_emotion (parse_fields fields)) valid_emotions /\
  ((~ In (lower label) valid_emotions /\
    dominant_emotion (parse_fields fields) = "neutral") \/
   (In (lower label) valid_emotions /\
    dominant_emotion (parse_fields fields) = lower label)) /\
  exists r0 r,
    _parse_model_json decode raw = Some (parse_fields fields) /\
    _fix_emotion_score_consistency (parse_fields fields) text = Ok r0 /\
    fst (analyze_entry post decode text) = Ok (to_dict r0) /\
    validate_and_fix (to_dict r0) text = Ok r /\
    analyze_and_validate post decode text = Ok r /\
    In (dominant_emotion r) valid_emotions.
Proof.
  intros Hb Hp Hd Hl _. split; [apply AnalyzerFacts.parse_fields_valid|]. split.
  - unfold parse_fields. cbn [dominant_emotion]. rewrite Hl.
    destruct (mem (lower label) valid_emotions) eqn:M; cbn [negb].
    + right. apply mem_In in M. auto.
    + left. apply mem_false in M. auto.
  - destruct (AnalyzerFacts.fix_consistency_spec (parse_fields fields) text
                (AnalyzerFacts.parse_fields_valid fields)) as (r0 & Hr0 & Hv0).
    destruct (AnalyzerFacts.validate_and_fix_valid (to_dict r0) text
                (AnalyzerFacts.candidate_emotion_to_dict r0 Hv0)) as (r & Hr & Hv).
    assert (Hparse : _parse_model_json decode raw = Some (parse_fields fields)).
    { unfold _parse_model_json. rewrite Hd. reflexivity. }
    assert (Ha : fst (analyze_entry post decode text) = Ok (to_dict r0)).
    { unfold analyze_entry. rewrite Hb.
      assert (He : is_empty text = false).
      { destruct text; [discriminate Hb|reflexivity]. }
      rewrite He. cbn [orb fst]. rewrite Hp, Hparse, Hr0. reflexivity. }
    exists r0, r. repeat split; auto.
    unfold analyze_and_validate. rewrite Ha. cbn [bind]. exact Hr.
Qed.

Lemma unrecognized_emotion_defaulted_witness :
  let post := fun _ : string => ResponseField (Some "{...}") in
  let fields := mkFields (Some (9 # 10)) (Some "excited") (Some (8 # 10)) None in
  let decode := fun _ : string => Some fields in
  let text := "worried and stressed out" in
  In (dominant_emotion (parse_fields fields)) valid_emotions /\
  ((~ In (lower "excited") valid_emotions /\
    dominant_emotion (parse_fields fields) = "neutral") \/
   (In (lower "excited") valid_emotions /\
    dominant_emotion (parse_fields fields) = lower "excited")) /\
  exists r0 r,
    _parse_model_json decode "{...}" = Some (parse_fields fields) /\
    _fix_emotion_score_consistency (parse_fields fields) text = Ok r0 /\
    fst (analyze_entry post decode text) = Ok (to_dict r0) /\
    validate_and_fix (to_dict r0) text = Ok r /\
    analyze_and_validate post decode text = Ok r /\
    In (dominant_emotion r) valid_emotions.
Proof.
  intros post fields decode text.
  apply (unrecognized_emotion_defaulted post decode text "{...}" "excited" fields).
  - reflexivity.
  - reflexivity.
  - reflexivity.
  - reflexivity.
  - simpl. intros H. repeat (destruct H as [H|H]; [discriminate H|]). exact H.
Defined.

(** C9.  On the empty string and on any string of whitespace only,
    [analyze_entry] returns the neutral sentinel (neutral, 0.0, 0.5,
    ["entry"]) and sends no request to the model service. *)
Theorem analyze_entry_blank
    (post : string -> post_outcome) (decode : string -> option model_fields)
    (text : string) :
  forall_chars is_space text = true ->
  analyze_entry post decode text =
    (Ok (mkMoodDict (Some 0) (Some "neutral") (Some (1 # 2)) (Some ["entry"])), []).
Proof.
  intro H. unfold analyze_entry, strip.
  rewrite (AnalyzerFacts.lstrip_all is_space text H). cbn [rstrip is_empty].
  rewrite orb_true_r. reflexivity.
Qed.

Lemma analyze_entry_blank_witness :
  analyze_entry (fun _ => Timeout) (fun _ => None) "   " =
    (Ok (mkMoodDict (Some 0) (Some "neutral") (Some (1 # 2)) (Some ["entry"])), []).
Proof.
  apply analyze_entry_blank. reflexivity.
Defined.

(** C5, counterexample.  On "worried and stressed out" the fallback
    analyzer returns the score -0.5 and the confidence 0.85, the
    re-detector the score -0.52 and the confidence 0.71. *)
Lemma fallback_is_not_the_redetector :
  exists r e s c,
    _fallback_analysis "worried and stressed out" = Ok r /\
    _detect_emotion_from_text "worried and stressed out" = Ok (e, s, c) /\
    mood_score r == - (1 # 2) /\ s == - (52 # 100) /\
    confidence r == 85 # 100 /\ c == 71 # 100 /\
    ~ (dominant_emotion r = e /\ mood_score r == s /\ confidence r == c /\
       keywords r = _extract_quality_keywords "worried and stressed out" e).
Proof.
  eexists (mkMoodResult _ _ _ _), _, _, _.
  split; [vm_compute; reflexivity|]. split; [vm_compute; reflexivity|].
  cbn [mood_score confidence].
  split; [reflexivity|]. split; [reflexivity|].
  split; [reflexivity|]. split; [reflexivity|].
  intros (_ & H & _). vm_compute in H. discriminate H.
Qed.

(** C5, amended.  The fallback analyzer and the re-detector are two
    classifiers with their own keyword lists, tokenizers and score
    formulas; on a text in which neither finds a keyword both return
    neutral with score 0.0 and confidence 0.5. *)
Theorem fallback_agrees_without_matches (text : string) :
  fallback_total text = 0%nat -> primary_total text = 0%nat ->
  exists r,
    _fallback_analysis text = Ok r /\
    _detect_emotion_from_text text =
      Ok (dominant_emotion r, mood_score r, confidence r) /\
    dominant_emotion r = "neutral" /\ mood_score r = 0 /\ confidence r = 1 # 2.
Proof.
  intros Hf Hp.
  destruct (AnalyzerFacts.fallback_spec text) as (r & Hr & _ & H0).
  destruct (H0 Hf) as (He & Hs & Hc).
  exists r. split; [exact Hr|]. split; [|auto].
  rewrite He, Hs, Hc.
  destruct (detect_spec text) as (e & s & c & Hd & _ & _ & _ & _ & _ & Hk).
  destruct Hk as [(_ & -> & -> & ->)|(Hne & _)]; [exact Hd|contradiction].
Qed.

Lemma fallback_agrees_without_matches_witness :
  exists r,
    _fallback_analysis "the cat sat" = Ok r /\
    _detect_emotion_from_text "the cat sat" =
      Ok (dominant_emotion r, mood_score r, confidence r) /\
    dominant_emotion r = "neutral" /\ mood_score r = 0 /\ confidence r = 1 # 2.
Proof.
  apply fallback_agrees_without_matches; reflexivity.
Defined.

(** C8, counterexample.  On "worried and stressed out" the fallback
    analyzer [_fallback_analysis] finds the two matches and "anxious", but
    its score is -0.5, not -0.8 + 0.7 * (2/5), and its confidence is 0.85,
    not 0.71. *)
Lemma fallback_scenario_counterexample :
  exists r,
    _fallback_analysis "worried and stressed out" = Ok r /\
    dominant_emotion r = "anxious" /\
    ~ mood_score r == - (8 # 10) + (- (1 # 10) - - (8 # 10)) * (2 # 5) /\
    ~ confidence r == (55 # 100) + (8 # 100) * 2.
Proof.
  eexists (mkMoodResult _ _ _ _).
  split; [vm_compute; reflexivity|]. cbn [dominant_emotion mood_score confidence].
  split; [reflexivity|]. split; intro H; vm_compute in H; discriminate H.
Qed.

(** C8, amended.  On "worried and stressed out" the re-detector of the
    validator yields "anxious" from exactly two matches ("worried",
    "stressed"), the score range_min + (range_max - range_min) * (2/5) =
    -0.52 within the range of anxious, and the confidence 0.55 + 0.08 * 2,
    with the keywords "worried" and "stressed".  That confidence is 0.71
    with exact numbers; in binary64 the sum is 0.7100000000000001, not the
    float 0.71, and becomes it once rounded to four decimals.  The
    fallback analyzer yields "anxious" from the same two matches with the
    score -0.5, the confidence 0.85 and the same keywords. *)
Theorem worried_and_stressed_scenario :
  let text := "worried and stressed out" in
  (exists s c lo hi,
      _detect_emotion_from_text text = Ok ("anxious", s, c) /\
      evidence text "anxious" = 2%nat /\
      emotion_kwds_of "anxious" (_tokenize text) = ["worried"; "stressed"] /\
      dict_get EMOTION_SCORE_RANGES "anxious" = Some (lo, hi) /\
      s == lo + (hi - lo) * (2 # 5) /\ s == - (52 # 100) /\
      lo <= s /\ s <= hi /\
      Qabs (c - (71 # 100)) <= 1 # 1000000000 /\ py_round c 4 == 71 # 100 /\
      _extract_quality_keywords text "anxious" = ["worried"; "stressed"]) /\
  (exists sf cf,
      Float64._detect_emotion_from_text text = Ok ("anxious", sf, cf) /\
      PrimFloat.eqb sf (Float64.of_Q (- (52 # 100))) = true /\
      PrimFloat.eqb cf (Float64.of_Q (71 # 100)) = false /\
      PrimFloat.eqb (Float64.py_round cf 4) (Float64.of_Q (71 # 100)) = true) /\
  (exists r,
      _fallback_analysis text = Ok r /\
      dominant_emotion r = "anxious" /\
      dict_get (match_counts_of (word_list_of text)) "anxious" = Some 2%nat /\
      mood_score r == - (1 # 2) /\ confidence r == 85 # 100 /\
      keywords r = ["worried"; "stressed"]).
Proof.
  intro text. split; [|split].
  - eexists _, _, (- (8 # 10)), (- (1 # 10)).
    split; [vm_compute; reflexivity|].
    repeat split; try (vm_compute; reflexivity); vm_compute; discriminate.
  - eexists _, _. split; [vm_compute; reflexivity|].
    repeat split; vm_compute; reflexivity.
  - eexists (mkMoodResult _ _ _ _).
    split; [vm_compute; reflexivity|].
    repeat split; vm_compute; reflexivity.
Qed.

(* ------------------------------------------------------------------ *)
(** ** Further properties of the validator *)

Module TokenFacts.

Lemma forall_chars_app (p : ascii -> bool) (s1 s2 : string) :
  forall_chars p (s1 ++ s2) = forall_chars p s1 && forall_chars p s2.
Proof.
  induction s1 as [|c s1 IH]; simpl; [reflexivity|].
  rewrite IH. apply andb_assoc.
Qed.

Lemma append_nonempty (s : string) (c : ascii) : (s ++ String c "")%string <> "".
Proof. destruct s; discriminate. Qed.

(** The words that [split] returns are non-empty runs of characters of
    the string that are no whitespace. *)
Lemma split_from_chars (p : ascii -> bool) (s : string) : forall cur,
  forall_chars p cur = true ->
  forall_chars (fun c => p c || is_space c) s = true ->
  forall t, In t (split_from cur s) -> t <> "" /\ forall_chars p t = true.
Proof.
  induction s as [|c s IH]; intros cur Hc Hs t Ht; simpl in Ht.
  - destruct cur; simpl in Ht; [destruct Ht|].
    destruct Ht as [<-|[]]. split; [discriminate|exact Hc].
  - simpl in Hs. apply andb_true_iff in Hs. destruct Hs as [Hpc Hs].
    destruct (is_space c) eqn:Sp.
    + destruct cur as [|a cur]; simpl in Ht.
      * apply (IH "" eq_refl Hs t Ht).
      * destruct Ht as [<-|Ht]; [split; [discriminate|exact Hc]|].
        apply (IH "" eq_refl Hs t Ht).
    + rewrite orb_false_r in Hpc.
      apply (IH (cur ++ String c "")%string); auto.
      rewrite forall_chars_app, Hc. simpl. now rewrite Hpc.
Qed.

Lemma normalised_char (c : ascii) :
  let c1 := lower_char c in
  let c2 := if is_word c1 || is_space c1 then c1 else " "%char in
  is_token_char c2 || is_space c2 = true.
Proof. destruct c as [[] [] [] [] [] [] [] []]; reflexivity. Qed.

Lemma normalised_text (text : string) :
  forall_chars (fun c => is_token_char c || is_space c)
               (sub_punctuation (lower text)) = true.
Proof.
  unfold sub_punctuation, lower.
  induction text as [|c text IH]; [reflexivity|].
  cbn [map_chars forall_chars]. rewrite IH, andb_true_r.
  apply normalised_char.
Qed.

Lemma token_char_no_comma (t : string) :
  forall_chars is_token_char t = true ->
  forall_chars (fun c => negb (Ascii.eqb c ","%char)) t = true.
Proof.
  induction t as [|c t IH]; [reflexivity|]. cbn [forall_chars].
  intro H. apply andb_true_iff in H. destruct H as [Hc Ht].
  rewrite (IH Ht), andb_true_r.
  destruct (Ascii.eqb_spec c ","%char) as [->|]; [discriminate Hc|reflexivity].
Qed.

End TokenFacts.

(** X1.  Every token that [_tokenize] returns is non-empty and is made of
    lower-case letters, digits and underscores only. *)
Theorem tokenize_tokens (text t : string) :
  In t (_tokenize text) ->
  t <> "" /\ forall_chars is_token_char t = true.
Proof.
  unfold _tokenize, split. apply TokenFacts.split_from_chars; [reflexivity|].
  apply TokenFacts.normalised_text.
Qed.

Lemma tokenize_tokens_witness :
  "so_so" <> "" /\ forall_chars is_token_char "so_so" = true.
Proof.
  apply (tokenize_tokens "Worried, and STRESSED-out!  so_so it's").
  vm_compute. tauto.
Defined.

Module EvidenceFacts.

Lemma dict_get_map {A B : Type} (f : A -> B) (d : list (string * A)) (k : string) :
  dict_get (map (fun ek => (fst ek, f (snd ek))) d) k = option_map f (dict_get d k).
Proof.
  induction d as [|[k' v] d IH]; [reflexivity|].
  cbn [map dict_get fst snd]. destruct (String.eqb k k'); [reflexivity|exact IH].
Qed.

Lemma evidence_unfold (text e : string) :
  evidence text e =
  count_matches (dict_get_default EMOTION_KEYWORDS e []) (_tokenize text).
Proof.
  unfold evidence, _count_emotion_matches, dict_get_default.
  rewrite (dict_get_map (fun kws => count_matches kws (_tokenize text))).
  destruct (dict_get EMOTION_KEYWORDS e); reflexivity.
Qed.

Lemma count_matches_ext (kws tokens tokens' : list string) :
  (forall t, In t tokens <-> In t tokens') ->
  count_matches kws tokens = count_matches kws tokens'.
Proof.
  intro H. unfold count_matches. f_equal. apply filter_ext. intro kw.
  destruct (mem kw tokens) eqn:M; symmetry.
  - apply mem_In. apply H. now apply mem_In.
  - apply mem_false. intro Hin. apply H in Hin. apply mem_In in Hin. congruence.
Qed.

End EvidenceFacts.

(** X2.  The evidence of an emotion in a text is positive exactly when one
    of the emotion's keywords is a token of the text, and it is at most
    the number of keywords of the emotion. *)
Theorem evidence_iff_keyword_token (text e : string) :
  (evidence text e <= List.length (dict_get_default EMOTION_KEYWORDS e []))%nat /\
  ((0 < evidence text e)%nat <->
   exists kw, In kw (dict_get_default EMOTION_KEYWORDS e []) /\ In kw (_tokenize text)).
Proof.
  rewrite EvidenceFacts.evidence_unfold. unfold count_matches.
  set (kws := dict_get_default EMOTION_KEYWORDS e []).
  set (tokens := _tokenize text).
  split; [apply filter_length_le|]. split.
  - intro H. destruct (filter (fun kw => mem kw tokens) kws) as [|kw l] eqn:E;
      [simpl in H; lia|].
    assert (Hin : In kw (filter (fun kw => mem kw tokens) kws)) by (rewrite E; now left).
    apply filter_In in Hin. destruct Hin as [H1 H2]. apply mem_In in H2.
    exists kw. auto.
  - intros (kw & H1 & H2).
    assert (Hin : In kw (filter (fun kw => mem kw tokens) kws)).
    { apply filter_In. split; [exact H1|]. now apply mem_In. }
    destruct (filter (fun kw => mem kw tokens) kws); [destruct Hin|simpl; lia].
Qed.

(** X3.  The match counts depend on the set of tokens only: two token
    lists with the same members give the same counts, so a keyword that
    occurs several times counts once. *)
Theorem count_emotion_matches_set (tokens tokens' : list string) :
  (forall t, In t tokens <-> In t tokens') ->
  _count_emotion_matches tokens = _count_emotion_matches tokens'.
Proof.
  intro H. unfold _count_emotion_matches. apply map_ext. intro ek.
  f_equal. now apply EvidenceFacts.count_matches_ext.
Qed.

Lemma count_emotion_matches_set_witness :
  _count_emotion_matches ["sad"; "happy"; "sad"; "sad"] =
  _count_emotion_matches ["happy"; "sad"].
Proof.
  apply count_emotion_matches_set. intro t. simpl. tauto.
Defined.

(** X4.  [_detect_emotion_from_text] never raises.  Its emotion is
    one of the six values, and "neutral" exactly when no keyword of the
    five other emotions is a token; its score lies in the table range of
    the emotion and has the sign of its polarity class; its confidence
    lies between 0.5 and 0.9. *)
Theorem detect_emotion_total (text : string) :
  exists e s c,
    _detect_emotion_from_text text = Ok (e, s, c) /\
    In e valid_emotions /\
    (e = "neutral" <-> primary_total text = 0%nat) /\
    in_table_range e s /\ polarity_ok e s /\
    1 # 2 <= c /\ c <= 9 # 10.
Proof.
  destruct (detect_spec text) as (e & s & c & Hd & Hs & Hv & Hr & _ & _ & Hk).
  exists e, s, c. split; [exact Hd|]. split; [exact Hv|].
  destruct Hs as (Hc & _ & _ & _ & Hro & _).
  split.
  { destruct Hk as [(Ht & He & _)|(Ht & He & _)]; split; intro H; auto; contradiction. }
  split; [exact Hr|].
  split; [apply (range_ok_polarity e s Hv Hro)|].
  split; [exact Hc|].
  destruct Hk as [(_ & _ & _ & ->)|(_ & _ & _ & -> & _)]; [lra|].
  match goal with |- py_min ?a ?b <= _ => destruct (py_min_spec a b) as [[H E]|[H E]]; rewrite E; lra end.
Qed.

Module DetectFacts.

Lemma max_key_five (h s a c g : nat) :
  let d := [("happy", h); ("sad", s); ("anxious", a); ("calm", c); ("angry", g)] in
  exists e n,
    max_key d = Some e /\ In (e, n) d /\
    forall e' n', In (e', n') d ->
      (n' <= n)%nat /\
      (index_of e' primary_emotions < index_of e primary_emotions -> n' < n)%nat.
Proof.
  intro d. unfold d, max_key. cbn [max_from fst snd].
  repeat match goal with
         | |- context [(?x <? ?y)%nat] => destruct (Nat.ltb_spec x y)
         end;
    cbn [max_from fst snd];
    eexists; eexists; (split; [reflexivity|]); (split; [simpl; tauto|]);
    intros e' n' Hin; simpl in Hin;
    repeat (destruct Hin as [Hin|Hin]; [inversion Hin; subst; simpl; lia|]);
    destruct Hin.
Qed.

Lemma evidence_of_counts (text : string) :
  exists h s a c g,
    evidence text "happy" = h /\ evidence text "sad" = s /\
    evidence text "anxious" = a /\ evidence text "calm" = c /\
    evidence text "angry" = g /\
    primary_total text =
      list_sum (map snd [("happy", h); ("sad", s); ("anxious", a); ("calm", c);
                         ("angry", g)]) /\
    _detect_emotion_from_text text =
      detect_of_counts [("happy", h); ("sad", s); ("anxious", a); ("calm", c);
                        ("angry", g)].
Proof.
  rewrite detect_unfold. unfold evidence, primary_total.
  destruct (counts_shape (_tokenize text)) as (h & s & a & c & g & n & E). rewrite E.
  exists h, s, a, c, g. repeat split; reflexivity.
Qed.

(** The value that the re-detector computes for the dominant emotion. *)
Lemma detect_value (text e : string) (s c : Q) :
  _detect_emotion_from_text text = Ok (e, s, c) -> e <> "neutral" ->
  In e primary_emotions /\
  (forall e', In e' primary_emotions ->
     (evidence text e' <= evidence text e)%nat /\
     (index_of e' primary_emotions < index_of e primary_emotions ->
      evidence text e' < evidence text e)%nat) /\
  exists lo hi,
    dict_get EMOTION_SCORE_RANGES e = Some (lo, hi) /\
    s = py_round
          (py_max lo
             (py_min hi
                (lo + (hi - lo) *
                      py_min 1 (inject_Z (Z.of_nat (evidence text e)) / 5)))) 2 /\
    c = py_min (90 # 100)
          ((55 # 100) + inject_Z (Z.of_nat (evidence text e)) * (8 # 100)).
Proof.
  intros Hd Hne.
  destruct (evidence_of_counts text)
    as (h & sa & a & ca & g & Eh & Es & Ea & Ec & Eg & Et & Ed).
  rewrite Ed in Hd. clear Ed. unfold detect_of_counts in Hd.
  set (d := [("happy", h); ("sad", sa); ("anxious", a); ("calm", ca); ("angry", g)]) in *.
  destruct (Nat.eqb_spec (list_sum (map snd d)) 0) as [H0|H0].
  { inversion Hd. congruence. }
  destruct (max_key_five h sa a ca g) as (e0 & n & Hk & Hin & Hmax).
  fold d in Hk, Hin, Hmax. rewrite Hk in Hd. cbn [bind] in Hd.
  assert (Hev : forall e' , In e' primary_emotions -> In (e', evidence text e') d).
  { intros e' He'. simpl in He'.
    destruct He' as [<-|[<-|[<-|[<-|[<-|[]]]]]];
      rewrite ?Eh, ?Es, ?Ea, ?Ec, ?Eg; unfold d; simpl; tauto. }
  assert (Hcase : In e0 primary_emotions /\ evidence text e0 = n /\
                  dict_index d e0 = Ok n /\
                  exists lo hi, dict_get EMOTION_SCORE_RANGES e0 = Some (lo, hi) /\
                                dict_index EMOTION_SCORE_RANGES e0 = Ok (lo, hi)).
  { unfold d in Hin. simpl in Hin.
    destruct Hin as [H|[H|[H|[H|[H|[]]]]]]; inversion H; subst;
      (split; [simpl; tauto|]); (split; [reflexivity|]); (split; [reflexivity|]);
      eexists; eexists; split; reflexivity. }
  destruct Hcase as (Hp & Hn & Hi & lo & hi & Hr & Hri).
  rewrite Hi in Hd. cbn [bind] in Hd. rewrite Hri in Hd. cbn [bind fst snd] in Hd.
  inversion Hd. subst e. clear Hd.
  split; [exact Hp|]. split.
  - intros e' He'. rewrite Hn. apply (Hmax e' (evidence text e')). now apply Hev.
  - exists lo, hi. rewrite Hn. auto.
Qed.

Lemma round_half_even_mono (q q' : Q) :
  q <= q' -> (round_half_even q <= round_half_even q')%Z.
Proof.
  intro H. pose proof (Qfloor_resp_le _ _ H) as Hf.
  pose proof (round_half_even_floor q) as B. pose proof (round_half_even_floor q') as B'.
  destruct (Z.eq_dec (Qfloor q) (Qfloor q')) as [E|E]; [|lia].
  unfold round_half_even. rewrite <- E.
  destruct (Qltb_spec (q - inject_Z (Qfloor q)) (1 # 2)) as [[H1 E1]|[H1 E1]];
    destruct (Qltb_spec (1 # 2) (q - inject_Z (Qfloor q))) as [[H2 E2]|[H2 E2]];
    destruct (Qltb_spec (q' - inject_Z (Qfloor q)) (1 # 2)) as [[H3 E3]|[H3 E3]];
    destruct (Qltb_spec (1 # 2) (q' - inject_Z (Qfloor q))) as [[H4 E4]|[H4 E4]];
    rewrite ?E1, ?E2, ?E3, ?E4; try lra; try lia;
    destruct (Z.even (Qfloor q)); lia.
Qed.

Lemma py_round_mono (x y : Q) (n : nat) : x <= y -> py_round x n <= py_round y n.
Proof.
  intro H. unfold py_round.
  assert (Hz : (round_half_even (x * inject_Z (Zpos (pow10 n)))
                <= round_half_even (y * inject_Z (Zpos (pow10 n))))%Z).
  { apply round_half_even_mono. apply Qmult_le_compat_r; [exact H|].
    unfold Qle, inject_Z. simpl. lia. }
  unfold Qle. simpl. nia.
Qed.

Lemma py_min_mono (a x y : Q) : x <= y -> py_min a x <= py_min a y.
Proof.
  intro H. destruct (py_min_spec a x) as [[H1 E1]|[H1 E1]];
    destruct (py_min_spec a y) as [[H2 E2]|[H2 E2]]; rewrite E1, E2; lra.
Qed.

Lemma py_max_mono (a x y : Q) : x <= y -> py_max a x <= py_max a y.
Proof.
  intro H. destruct (py_max_spec a x) as [[H1 E1]|[H1 E1]];
    destruct (py_max_spec a y) as [[H2 E2]|[H2 E2]]; rewrite E1, E2; lra.
Qed.

Lemma inject_nat_le (n m : nat) :
  (n <= m)%nat -> inject_Z (Z.of_nat n) <= inject_Z (Z.of_nat m).
Proof. intro H. unfold Qle, inject_Z. simpl. lia. Qed.

End DetectFacts.

(** X5.  The emotion that the re-detector returns, when it is not
    neutral, has the most keyword matches of the five emotions; among
    emotions with that many matches it is the first in the order happy,
    sad, anxious, calm, angry. *)
Theorem detect_dominant_first_maximum (text e : string) (s c : Q) :
  _detect_emotion_from_text text = Ok (e, s, c) -> e <> "neutral" ->
  In e primary_emotions /\
  forall e', In e' primary_emotions ->
    (evidence text e' <= evidence text e)%nat /\
    (index_of e' primary_emotions < index_of e primary_emotions ->
     evidence text e' < evidence text e)%nat.
Proof.
  intros Hd Hne. destruct (DetectFacts.detect_value text e s c Hd Hne) as (H1 & H2 & _).
  auto.
Qed.

Lemma detect_dominant_first_maximum_witness :
  In "sad" primary_emotions /\
  forall e', In e' primary_emotions ->
    (evidence "sad and worried" e' <= evidence "sad and worried" "sad")%nat /\
    (index_of e' primary_emotions < index_of "sad" primary_emotions ->
     evidence "sad and worried" e' < evidence "sad and worried" "sad")%nat.
Proof.
  apply (detect_dominant_first_maximum "sad and worried" "sad"
           (- (76 # 100)) (py_min (90 # 100) ((55 # 100) + inject_Z 1 * (8 # 100)))).
  - vm_compute. reflexivity.
  - discriminate.
Defined.

(** X6.  With five or more matches of the dominant emotion the
    re-detector's score is the upper end of the emotion's range (1.0 for
    happy, but -0.2 for sad, -0.1 for anxious, -0.3 for angry) and its
    confidence is 0.90. *)
Theorem detect_saturates_at_five (text e : string) (s c : Q) :
  _detect_emotion_from_text text = Ok (e, s, c) -> e <> "neutral" ->
  (5 <= evidence text e)%nat ->
  exists lo hi,
    dict_get EMOTION_SCORE_RANGES e = Some (lo, hi) /\ s == hi /\ c == 9 # 10.
Proof.
  intros Hd Hne H5.
  destruct (DetectFacts.detect_value text e s c Hd Hne) as (_ & _ & lo & hi & Hr & Hs & Hc).
  exists lo, hi. split; [exact Hr|].
  destruct (ranges_table e lo hi Hr) as (_ & Hlh & _ & _ & _).
  set (n := inject_Z (Z.of_nat (evidence text e))) in *.
  assert (Hn : 5 <= n).
  { unfold n. apply (DetectFacts.inject_nat_le 5 _ H5). }
  split.
  - assert (Hi : py_min 1 (n / 5) = 1).
    { destruct (py_min_spec 1 (n / 5)) as [[H E]|[H E]]; [|exact E].
      exfalso. apply (Qlt_not_le _ _ H). apply Qle_shift_div_l; lra. }
    rewrite Hi in Hs.
    assert (Hcl : py_max lo (py_min hi (lo + (hi - lo) * 1)) == hi).
    { rewrite (py_max_comp _ _ (Qeq_refl lo) _ hi).
      - destruct (py_max_spec lo hi) as [[H E]|[H E]]; rewrite E; lra.
      - destruct (py_min_spec hi (lo + (hi - lo) * 1)) as [[H E]|[H E]]; rewrite E; lra. }
    rewrite Hs, (py_round_comp _ _ Hcl 2%nat 2%nat eq_refl).
    apply dict_get_In in Hr. unfold EMOTION_SCORE_RANGES in Hr. simpl in Hr.
    destruct Hr as [H|[H|[H|[H|[H|[H|[]]]]]]]; inversion H; subst; reflexivity.
  - rewrite Hc.
    destruct (py_min_spec (90 # 100) ((55 # 100) + n * (8 # 100))) as [[H E]|[H E]];
      rewrite E; [lra|reflexivity].
Qed.

Lemma detect_saturates_at_five_witness :
  exists lo hi,
    dict_get EMOTION_SCORE_RANGES "sad" = Some (lo, hi) /\
    - (20 # 100) == hi /\ 90 # 100 == 9 # 10.
Proof.
  apply (detect_saturates_at_five
           "sad, lonely, hopeless, in tears and grieving" "sad"
           (- (20 # 100)) (90 # 100)).
  - vm_compute. reflexivity.
  - discriminate.
  - apply Nat.leb_le. vm_compute. reflexivity.
Defined.

(** X7.  For one dominant emotion, more keyword matches never lower the
    re-detector's score nor its confidence.  (For sad, anxious and angry
    a score that is not lower is a score nearer to zero.) *)
Theorem detect_monotone_in_matches (text1 text2 e : string) (s1 c1 s2 c2 : Q) :
  _detect_emotion_from_text text1 = Ok (e, s1, c1) ->
  _detect_emotion_from_text text2 = Ok (e, s2, c2) ->
  e <> "neutral" ->
  (evidence text1 e <= evidence text2 e)%nat ->
  s1 <= s2 /\ c1 <= c2.
Proof.
  intros H1 H2 Hne Hle.
  destruct (DetectFacts.detect_value text1 e s1 c1 H1 Hne)
    as (_ & _ & lo & hi & Hr & Hs1 & Hc1).
  destruct (DetectFacts.detect_value text2 e s2 c2 H2 Hne)
    as (_ & _ & lo' & hi' & Hr' & Hs2 & Hc2).
  rewrite Hr in Hr'. inversion Hr'. subst lo' hi'. clear Hr'.
  destruct (ranges_table e lo hi Hr) as (_ & Hlh & _).
  pose proof (DetectFacts.inject_nat_le _ _ Hle) as Hn.
  set (n1 := inject_Z (Z.of_nat (evidence text1 e))) in *.
  set (n2 := inject_Z (Z.of_nat (evidence text2 e))) in *.
  split.
  - rewrite Hs1, Hs2. apply DetectFacts.py_round_mono, DetectFacts.py_max_mono,
      DetectFacts.py_min_mono.
    assert (Hi : py_min 1 (n1 / 5) <= py_min 1 (n2 / 5)).
    { apply DetectFacts.py_min_mono. apply Qmult_le_compat_r; [exact Hn|].
      unfold Qle. simpl. lia. }
    nra.
  - rewrite Hc1, Hc2. apply DetectFacts.py_min_mono. lra.
Qed.

Lemma detect_monotone_in_matches_witness :
  - (76 # 100) <= - (62 # 100) /\
  (55 # 100) + inject_Z 1 * (8 # 100) <= (55 # 100) + inject_Z 2 * (8 # 100).
Proof.
  apply (detect_monotone_in_matches "sad" "sad and lonely" "sad").
  - vm_compute. reflexivity.
  - vm_compute. reflexivity.
  - discriminate.
  - apply Nat.leb_le. vm_compute. reflexivity.
Defined.

(** X9.  A candidate that is already consistent is passed on: with a
    confidence of at least 0.5, an emotion other than neutral that has a
    keyword in the text and a score within the emotion's range, the
    result keeps the emotion and holds the score and the confidence
    rounded to four decimals. *)
Theorem validate_and_fix_keeps_consistent
    (x : mood_dict) (text e0 : string) (s0 c0 lo hi : Q) :
  get_dominant_emotion x = Some e0 -> get_mood_score x = Some s0 ->
  get_confidence x = Some c0 ->
  In e0 primary_emotions ->
  dict_get EMOTION_SCORE_RANGES e0 = Some (lo, hi) -> lo <= s0 -> s0 <= hi ->
  1 # 2 <= c0 -> (0 < evidence text e0)%nat ->
  exists r,
    validate_and_fix x text = Ok r /\
    dominant_emotion r = e0 /\
    mood_score r == py_round s0 4 /\ confidence r == py_round c0 4 /\
    keywords r = _extract_quality_keywords text e0.
Proof.
  intros He Hs Hc Hp Hr Hlo Hhi Hc0 Hev.
  assert (Hv : In e0 valid_emotions).
  { simpl in Hp |- *. tauto. }
  pose proof (candidate_emotion_valid x e0 He Hv) as Hce.
  destruct (valid_lower e0 Hv) as [Hl Hn].
  destruct (ranges_table e0 lo hi Hr) as (_ & _ & Hb1 & Hb2 & _).
  unfold validate_and_fix, run_checks.
  destruct (read_candidate_spec x) as (s1 & R & _). rewrite R, Hce.
  assert (Hcc : candidate_confidence x == c0).
  { unfold candidate_confidence. rewrite Hc. apply num_or_some. }
  assert (Hs1 : s1 == s0).
  { unfold read_candidate in R. rewrite Hs in R. injection R as E. rewrite <- E.
    rewrite (py_max_comp _ _ (Qeq_refl (-1)) _ _
               (py_min_comp _ _ (Qeq_refl 1) _ _ (num_or_some s0))).
    apply clamp_inside; lra. }
  assert (Hst : settled text (e0, s1, candidate_confidence x)).
  { split; [lra|]. split; [exact Hl|]. split; [exact Hn|]. split; [lra|].
    split; [unfold range_ok; rewrite Hr; lra|].
    unfold override_guard. destruct (evidence text e0); [lia|reflexivity]. }
  destruct (settled_fixed text e0 s1 _ Hst) as (s' & Hrun & Hq & _).
  rewrite Hrun. cbn [bind]. eexists. split; [reflexivity|].
  cbn [fixed_result mood_score dominant_emotion confidence keywords].
  split; [reflexivity|]. split; [|split; [|reflexivity]].
  - apply py_round_comp; [|reflexivity]. now rewrite Hq.
  - apply py_round_comp; [exact Hcc|reflexivity].
Qed.

Lemma validate_and_fix_keeps_consistent_witness :
  exists r,
    validate_and_fix
      (mkMoodDict (Some (- (6 # 10))) (Some "anxious") (Some (85 # 100)) (Some ["x"]))
      "worried and stressed out" = Ok r /\
    dominant_emotion r = "anxious" /\
    mood_score r == py_round (- (6 # 10)) 4 /\ confidence r == py_round (85 # 100) 4 /\
    keywords r = _extract_quality_keywords "worried and stressed out" "anxious".
Proof.
  apply (validate_and_fix_keeps_consistent _ _ "anxious" (- (6 # 10)) (85 # 100)
           (- (8 # 10)) (- (1 # 10))); try reflexivity.
  - simpl. tauto.
  - discriminate.
  - discriminate.
  - discriminate.
  - apply Nat.ltb_lt. vm_compute. reflexivity.
Defined.

Lemma evidence_unrecognized (text e : string) :
  ~ In e valid_emotions -> evidence text e = 0%nat.
Proof.
  intro H. rewrite EvidenceFacts.evidence_unfold.
  assert (E : dict_get_default EMOTION_KEYWORDS e [] = []).
  { unfold dict_get_default, EMOTION_KEYWORDS. cbn [dict_get].
    repeat match goal with
           | |- context [String.eqb e ?k] =>
               destruct (String.eqb_spec e k) as [->|_];
               [exfalso; apply H; simpl; tauto|]
           end.
    reflexivity. }
  rewrite E. reflexivity.
Qed.

(** X10.  [validate_and_fix] on its own does not enforce the closed set:
    a candidate with a confidence of at least 0.5 and a label outside
    the six values keeps its (lower-cased) label when the text holds no
    keyword of the five emotions, and takes the re-detected emotion
    otherwise.  The score of the result lies in [-1, 1] in both cases. *)
Theorem validate_and_fix_unrecognized_label (x : mood_dict) (text : string) :
  ~ In (candidate_emotion x) valid_emotions ->
  1 # 2 <= candidate_confidence x ->
  exists r,
    validate_and_fix x text = Ok r /\
    -1 <= mood_score r /\ mood_score r <= 1 /\
    ((primary_total text = 0%nat /\ dominant_emotion r = candidate_emotion x) \/
     (primary_total text <> 0%nat /\ In (dominant_emotion r) valid_emotions /\
      (0 < evidence text (dominant_emotion r))%nat)).
Proof.
  intros Hnv Hc.
  pose proof (evidence_unrecognized text _ Hnv) as He0.
  unfold validate_and_fix.
  destruct (run_checks_spec x text) as (e & s & c & Hr & Hs & Hp).
  rewrite Hr. cbn [bind]. eexists. split; [reflexivity|].
  cbn [fixed_result mood_score dominant_emotion].
  pose proof (settled_round text e s c Hs) as (_ & _ & _ & [B1 B2] & _).
  split; [exact B1|]. split; [exact B2|].
  destruct (Nat.eq_dec (primary_total text) 0) as [Ht|Ht].
  - left. split; [exact Ht|].
    (* no check re-detects *)
    unfold run_checks in Hr.
    destruct (read_candidate_spec x) as (s0 & R & _ & _ & _). rewrite R in Hr.
    rewrite (check_confidence_settled text _ s0 _ Hc) in Hr. cbn [bind] in Hr.
    unfold check_sign in Hr. cbv beta iota in Hr.
    assert (M1 : mem (candidate_emotion x) positive_emotions = false).
    { apply mem_false. intro H. apply Hnv. simpl in H |- *. tauto. }
    assert (M2 : mem (candidate_emotion x) negative_emotions = false).
    { apply mem_false. intro H. apply Hnv. simpl in H |- *. tauto. }
    assert (M3 : String.eqb (candidate_emotion x) "neutral" = false).
    { apply String.eqb_neq. intro H. apply Hnv. rewrite H. simpl. tauto. }
    rewrite M1, M2, M3 in Hr. cbn [andb bind] in Hr.
    destruct (check_range_spec (candidate_emotion x) s0 (candidate_confidence x))
      as (s' & E & _).
    rewrite E, check_evidence_eq in Hr. unfold override_guard in Hr.
    rewrite Ht in Hr. cbn [Nat.eqb negb] in Hr. rewrite andb_false_r in Hr.
    inversion Hr. reflexivity.
  - right. split; [exact Ht|].
    destruct Hp as [(Hce & _ & _ & Hg)|(sd & Hd & Hq)].
    { exfalso. subst e. unfold override_guard in Hg. rewrite He0 in Hg.
      apply Nat.eqb_neq in Ht. rewrite Ht in Hg. discriminate Hg. }
    destruct (detect_spec text) as (ed & sd' & cd & Hd' & _ & Hv & _ & _ & _ & Hk).
    destruct (detect_functional _ _ _ _ _ _ _ Hd Hd') as (-> & -> & ->).
    split; [exact Hv|].
    destruct Hk as [(H0 & _)|(_ & _ & Hpos & _)]; [contradiction|exact Hpos].
Qed.

Lemma validate_and_fix_unrecognized_label_witness :
  exists r,
    validate_and_fix
      (mkMoodDict (Some (5 # 10)) (Some "Excited") (Some (9 # 10)) None)
      "the cat sat" = Ok r /\
    -1 <= mood_score r /\ mood_score r <= 1 /\
    ((primary_total "the cat sat" = 0%nat /\
      dominant_emotion r =
        candidate_emotion (mkMoodDict (Some (5 # 10)) (Some "Excited") (Some (9 # 10)) None)) \/
     (primary_total "the cat sat" <> 0%nat /\ In (dominant_emotion r) valid_emotions /\
      (0 < evidence "the cat sat" (dominant_emotion r))%nat)).
Proof.
  apply validate_and_fix_unrecognized_label.
  - vm_compute. intro H. repeat (destruct H as [H|H]; [discriminate H|]). exact H.
  - vm_compute. discriminate.
Defined.

(* ------------------------------------------------------------------ *)
(** ** The validator in binary64 *)

Module Float64Facts.
Import Floats.
Local Open Scope float_scope.
#[local] Set Warnings "-inexact-float".

Lemma binary64_check_evidence_eq (text e : string) (s c : float) :
  Float64.check_evidence text (e, s, c) =
  if override_guard text e then Float64._detect_emotion_from_text text else Ok (e, s, c).
Proof.
  unfold Float64.check_evidence, override_guard, evidence, primary_total.
  destruct (ValidatorFacts.counts_shape (_tokenize text)) as (h & sa & a & ca & g & n & E).
  rewrite E.
  change (primary_of [("happy", h); ("sad", sa); ("anxious", a); ("calm", ca);
                      ("angry", g); ("neutral", n)])
    with [("happy", h); ("sad", sa); ("anxious", a); ("calm", ca); ("angry", g)].
  set (six := [("happy", h); ("sad", sa); ("anxious", a); ("calm", ca);
               ("angry", g); ("neutral", n)]).
  set (five := [("happy", h); ("sad", sa); ("anxious", a); ("calm", ca); ("angry", g)]).
  destruct (dict_get_default six e 0 =? 0)%nat; [|reflexivity].
  cbn [andb].
  destruct (ValidatorFacts.max_key_spec five) as (b & m & Hk & Hin & Hall); [discriminate|].
  rewrite Hk.
  assert (Hb : is_empty b = false /\ dict_index six b = Ok m).
  { unfold five in Hin. simpl in Hin.
    destruct Hin as [H|[H|[H|[H|[H|[]]]]]]; inversion H; subst; split; reflexivity. }
  destruct Hb as [Hb1 Hb2]. rewrite Hb1, Hb2. cbn [negb bind].
  destruct (Nat.eqb_spec (list_sum (map snd five)) 0) as [Ht|Ht]; cbn [negb].
  - assert (m = 0)%nat.
    { unfold five in Hin, Ht. simpl in Hin, Ht.
      destruct Hin as [H|[H|[H|[H|[H|[]]]]]]; inversion H; subst; lia. }
    subst m. reflexivity.
  - assert (0 < m)%nat.
    { destruct (ValidatorFacts.list_sum_pos _ Ht) as (k & Hk' & Hp).
      apply in_map_iff in Hk'. destruct Hk' as (x & <- & Hx).
      specialize (Hall x Hx). lia. }
    destruct m; [lia|]. reflexivity.
Qed.

Lemma evidence_le_46 (text e : string) : (evidence text e <= 46)%nat.
Proof.
  rewrite EvidenceFacts.evidence_unfold. unfold count_matches.
  etransitivity; [apply filter_length_le|].
  unfold dict_get_default, EMOTION_KEYWORDS. cbn [dict_get].
  repeat match goal with
         | |- context [String.eqb e ?k] => destruct (String.eqb e k)
         end; apply Nat.leb_le; vm_compute; reflexivity.
Qed.

(** What the re-detector returns, with exact numbers and in binary64. *)
Lemma detect_cases (text : string) :
  (primary_total text = 0%nat /\
   EmotionValidator._detect_emotion_from_text text = Ok ("neutral", 0%Q, (1 # 2)%Q) /\
   Float64._detect_emotion_from_text text = Ok ("neutral", 0.0, 0.5)) \/
  (exists e lo hi sf cf,
     primary_total text <> 0%nat /\
     In e primary_emotions /\ (0 < evidence text e <= 46)%nat /\
     dict_get EmotionValidator.EMOTION_SCORE_RANGES e = Some (lo, hi) /\
     EmotionValidator._detect_emotion_from_text text =
       Ok (e,
           (PyNum.py_round
              (PyNum.py_max lo
                 (PyNum.py_min hi
                    (lo + (hi - lo) *
                          PyNum.py_min 1 (inject_Z (Z.of_nat (evidence text e)) / 5)))) 2)%Q,
           (PyNum.py_min (90 # 100)
              ((55 # 100) + inject_Z (Z.of_nat (evidence text e)) * (8 # 100)))%Q) /\
     Float64.detect_numbers e (evidence text e) = Ok (sf, cf) /\
     Float64._detect_emotion_from_text text = Ok (e, sf, cf)).
Proof.
  rewrite ValidatorFacts.detect_unfold.
  unfold Float64._detect_emotion_from_text, detect_of_counts.
  destruct (ValidatorFacts.counts_shape (_tokenize text)) as (h' & s' & a' & c' & g' & n' & E).
  assert (Ev : forall e, evidence text e =
             dict_get_default [("happy", h'); ("sad", s'); ("anxious", a'); ("calm", c');
                               ("angry", g'); ("neutral", n')] e 0%nat).
  { intro e. unfold evidence. rewrite E. reflexivity. }
  assert (Tot : primary_total text =
                list_sum (map snd [("happy", h'); ("sad", s'); ("anxious", a'); ("calm", c');
                                   ("angry", g')])).
  { unfold primary_total. rewrite E. reflexivity. }
  rewrite E.
  change (primary_of [("happy", h'); ("sad", s'); ("anxious", a'); ("calm", c');
                      ("angry", g'); ("neutral", n')])
    with [("happy", h'); ("sad", s'); ("anxious", a'); ("calm", c'); ("angry", g')].
  set (d := [("happy", h'); ("sad", s'); ("anxious", a'); ("calm", c'); ("angry", g')]) in *.
  destruct (Nat.eqb_spec (list_sum (map snd d)) 0) as [H0|H0].
  { left. split; [now rewrite Tot|]. split; reflexivity. }
  right.
  destruct (ValidatorFacts.max_key_spec d) as (e & n & Hk & Hin & Hall); [discriminate|].
  assert (Hn : (0 < n)%nat).
  { destruct (ValidatorFacts.list_sum_pos _ H0) as (m & Hm & Hp).
    apply in_map_iff in Hm. destruct Hm as (x & <- & Hx).
    specialize (Hall x Hx). lia. }
  rewrite Hk. cbn [bind].
  assert (Hc : In e primary_emotions /\ dict_index d e = Ok n /\ evidence text e = n /\
               (exists lo hi, dict_get EmotionValidator.EMOTION_SCORE_RANGES e = Some (lo, hi) /\
                              dict_index EmotionValidator.EMOTION_SCORE_RANGES e = Ok (lo, hi)) /\
               exists sf cf, Float64.detect_numbers e n = Ok (sf, cf)).
  { unfold d in Hin |- *. simpl in Hin.
    destruct Hin as [H|[H|[H|[H|[H|[]]]]]]; inversion H; subst;
      (split; [simpl; tauto|]); (split; [reflexivity|]);
      (split; [rewrite Ev; reflexivity|]);
      (split; [eexists; eexists; split; reflexivity|]);
      unfold Float64.detect_numbers; cbn [dict_index dict_get String.eqb Ascii.eqb Bool.eqb bind];
      eexists; eexists; reflexivity. }
  destruct Hc as (Hp & Hi & He & (lo & hi & Hr & Hri) & sf & cf & Hnum).
  rewrite Hi. cbn [bind]. rewrite Hnum, Hri. cbn [bind fst snd].
  exists e, lo, hi, sf, cf. rewrite He.
  split; [now rewrite Tot|]. split; [exact Hp|]. split.
  { split; [exact Hn|]. rewrite <- He. apply evidence_le_46. }
  split; [exact Hr|]. split; [reflexivity|]. split; [exact Hnum|reflexivity].
Qed.

Lemma settled_numbers_all :
  forallb (fun e => forallb (Float64.settled_numbers e) (seq 1 46)) primary_emotions = true.
Proof. vm_compute. reflexivity. Qed.

Lemma agrees_with_exact_all :
  forallb (fun e => forallb (Float64.agrees_with_exact e) (seq 1 46)) primary_emotions = true.
Proof. vm_compute. reflexivity. Qed.

Lemma primary_not_neutral (e : string) :
  In e primary_emotions -> String.eqb e "neutral" = false.
Proof.
  simpl. intros [<-|[<-|[<-|[<-|[<-|[]]]]]]; reflexivity.
Qed.

(** The sign, range and evidence checks leave the output of the
    re-detector as it is. *)
Lemma detect_settled (text e : string) (sf cf : float) :
  In e primary_emotions -> (0 < evidence text e <= 46)%nat ->
  Float64.detect_numbers e (evidence text e) = Ok (sf, cf) ->
  Float64.check_sign text (e, sf, cf) = Ok (e, sf, cf) /\
  Float64.check_evidence text (Float64.check_range (e, sf, cf)) = Ok (e, sf, cf) /\
  (Float64.py_round sf 4 =? sf) = true /\
  (Float64.py_round cf 4 =? cf) =
    negb ((evidence text e =? 2)%nat || (evidence text e =? 4)%nat).
Proof.
  intros Hp Hn Hnum.
  pose proof settled_numbers_all as Hall.
  rewrite forallb_forall in Hall. specialize (Hall e Hp).
  rewrite forallb_forall in Hall. specialize (Hall (evidence text e)).
  assert (Hin : In (evidence text e) (seq 1 46)) by (apply in_seq; lia).
  specialize (Hall Hin). unfold Float64.settled_numbers in Hall. rewrite Hnum in Hall.
  destruct (dict_get Float64.EMOTION_SCORE_RANGES e) as [[lo hi]|] eqn:Er; [|discriminate Hall].
  repeat rewrite andb_true_iff in Hall.
  destruct Hall as [[[[H1 H2] H3] H4] H5].
  apply negb_true_iff in H1. apply negb_true_iff in H2. apply Bool.eqb_prop in H5.
  split; [|split; [|split; [exact H4|exact H5]]].
  - unfold Float64.check_sign. cbv beta iota.
    rewrite H1, H2, (primary_not_neutral e Hp). reflexivity.
  - unfold Float64.check_range. cbv beta iota. rewrite Er, H3. cbn [negb].
    rewrite binary64_check_evidence_eq. unfold override_guard.
    destruct (evidence text e); [lia|]. reflexivity.
Qed.

Lemma neutral_settled (text : string) :
  primary_total text = 0%nat ->
  Float64.check_sign text ("neutral", 0.0, 0.5) = Ok ("neutral", 0.0, 0.5) /\
  Float64.check_evidence text (Float64.check_range ("neutral", 0.0, 0.5)) =
    Ok ("neutral", 0.0, 0.5).
Proof.
  intro H0. split; [reflexivity|].
  change (Float64.check_range ("neutral", 0.0, 0.5)) with ("neutral", 0.0, 0.5).
  rewrite binary64_check_evidence_eq. unfold override_guard. rewrite H0.
  cbn [Nat.eqb negb]. now rewrite andb_false_r.
Qed.

Lemma of_Q_half : Float64.of_Q (1 # 2) = 0.5.
Proof. vm_compute. reflexivity. Qed.

(** The state of the checks after a re-detection in CHECK 1 or CHECK 3. *)
Lemma redetected_state (text : string) :
  exists e s c,
    Float64._detect_emotion_from_text text = Ok (e, s, c) /\
    Float64.check_sign text (e, s, c) = Ok (e, s, c) /\
    Float64.check_evidence text (Float64.check_range (e, s, c)) = Ok (e, s, c) /\
    (Float64.py_round s 4 =? s) = true /\
    (Float64.py_round c 4 =? c) =
      negb (negb (String.eqb e "neutral")
            && ((evidence text e =? 2)%nat || (evidence text e =? 4)%nat)) /\
    (primary_total text <> 0%nat ->
     (0 < evidence text e)%nat /\ String.eqb e "neutral" = false).
Proof.
  destruct (detect_cases text)
    as [(H0 & _ & Hd)|(e & lo & hi & sf & cf & Ht & Hp & Hn & _ & _ & Hnum & Hd)].
  - exists "neutral", 0.0, 0.5. destruct (neutral_settled text H0) as [S1 S2].
    split; [exact Hd|]. split; [exact S1|]. split; [exact S2|].
    split; [reflexivity|]. split; [reflexivity|]. intro H. contradiction.
  - exists e, sf, cf.
    destruct (detect_settled text e sf cf Hp Hn Hnum) as (S1 & S2 & S3 & S4).
    split; [exact Hd|]. split; [exact S1|]. split; [exact S2|]. split; [exact S3|].
    rewrite (primary_not_neutral e Hp). split; [exact S4|]. intros _. split; [lia|reflexivity].
Qed.

Lemma check_range_emotion (e : string) (s c : float) :
  exists s', Float64.check_range (e, s, c) = (e, s', c).
Proof.
  unfold Float64.check_range.
  destruct (dict_get Float64.EMOTION_SCORE_RANGES e) as [[lo hi]|]; [|eauto].
  destruct (negb _); eauto.
Qed.

(** The state of the checks when CHECK 5 finds the emotion without
    evidence. *)
Lemma overridden_state (x : Float64.mood_dict) (text : string) :
  override_guard text (Float64.candidate_emotion x) = true ->
  Float64.run_checks x text = Float64._detect_emotion_from_text text.
Proof.
  intro Hg.
  destruct (redetected_state text) as (e & s & c & Hd & S1 & S2 & _).
  unfold Float64.run_checks, Float64.read_candidate.
  fold (Float64.candidate_emotion x).
  set (e0 := Float64.candidate_emotion x) in *.
  set (s0 := Float64.py_max _ _). set (c0 := Float64.num_or (Float64.get_confidence x) 0.0).
  assert (Hov : forall s1, Float64.check_evidence text (Float64.check_range (e0, s1, c0)) =
                           Float64._detect_emotion_from_text text).
  { intro s1. destruct (check_range_emotion e0 s1 c0) as (s' & ->).
    now rewrite binary64_check_evidence_eq, Hg. }
  unfold Float64.check_confidence.
  destruct (c0 <? 0.5).
  { rewrite Hd. cbn [bind]. rewrite S1. cbn [bind]. rewrite S2. reflexivity. }
  cbn [bind]. unfold Float64.check_sign.
  destruct (mem e0 positive_emotions && (s0 <? 0)); [cbn [bind]; apply Hov|].
  destruct (mem e0 negative_emotions && (0 <? s0)); [cbn [bind]; apply Hov|].
  destruct (String.eqb e0 "neutral" && (0.25 <? abs s0)); [|cbn [bind]; apply Hov].
  rewrite Hd. cbn [bind]. rewrite S2. reflexivity.
Qed.

End Float64Facts.

(** C6, counterexample.  The candidate (happy, 0.9, 0.3) on the text
    "worried and stressed out", in binary64: the confidence is below 0.5
    and the candidate is discarded, but the confidence of the result is
    not the one that [_detect_emotion_from_text] returns.  That function
    returns the float sum 0.55 + 2 * 0.08, which is 0.7100000000000001;
    the result holds it rounded to four decimals, 0.71. *)
Lemma validate_and_fix_low_confidence_counterexample :
  let x := Float64.mkMoodDict (Some (Float64.of_Q (9 # 10))) (Some "happy")
                              (Some (Float64.of_Q (3 # 10))) (Some ["sunny"]) in
  exists e s c r,
    PrimFloat.ltb (Float64.candidate_confidence x) (Float64.of_Q (1 # 2)) = true /\
    Float64._detect_emotion_from_text "worried and stressed out" = Ok (e, s, c) /\
    Float64.validate_and_fix x "worried and stressed out" = Ok r /\
    PrimFloat.eqb (Float64.confidence r) c = false.
Proof.
  intro x. eexists _, _, _, (Float64.mkMoodResult _ _ _ _).
  split; [vm_compute; reflexivity|].
  split; [vm_compute; reflexivity|].
  split; [vm_compute; reflexivity|].
  vm_compute. reflexivity.
Qed.

(** C6, amended.  A candidate whose confidence is below 0.5 is discarded:
    whatever its emotion and score, the result holds the emotion and the
    score that [_detect_emotion_from_text] returns for the text, and the
    confidence that it returns rounded to four decimals, as
    [validate_and_fix] rounds the confidence of every result.  The
    rounding changes the confidence exactly when the emotion has two
    matches or four.  In binary64, for every candidate and text. *)
Theorem validate_and_fix_low_confidence (x : Float64.mood_dict) (text : string) :
  PrimFloat.ltb (Float64.candidate_confidence x) (Float64.of_Q (1 # 2)) = true ->
  exists e s c r,
    Float64._detect_emotion_from_text text = Ok (e, s, c) /\
    Float64.validate_and_fix x text = Ok r /\
    Float64.dominant_emotion r = e /\
    PrimFloat.eqb (Float64.mood_score r) s = true /\
    Float64.confidence r = Float64.py_round c 4 /\
    PrimFloat.eqb (Float64.confidence r) c =
      negb (negb (String.eqb e "neutral")
            && ((evidence text e =? 2)%nat || (evidence text e =? 4)%nat)).
Proof.
  intro Hlow. rewrite Float64Facts.of_Q_half in Hlow.
  destruct (Float64Facts.redetected_state text) as (e & s & c & Hd & S1 & S2 & S3 & S4 & _).
  exists e, s, c, (Float64.fixed_result text (e, s, c)).
  split; [exact Hd|]. split.
  - unfold Float64.validate_and_fix, Float64.run_checks, Float64.read_candidate.
    fold (Float64.candidate_confidence x).
    unfold Float64.check_confidence. rewrite Hlow, Hd. cbn [bind].
    rewrite S1. cbn [bind]. rewrite S2. reflexivity.
  - cbn [Float64.fixed_result Float64.dominant_emotion Float64.mood_score Float64.confidence].
    split; [reflexivity|]. split; [exact S3|]. split; [reflexivity|exact S4].
Qed.

Lemma validate_and_fix_low_confidence_witness :
  exists e s c r,
    Float64._detect_emotion_from_text "sad and lonely" = Ok (e, s, c) /\
    Float64.validate_and_fix
      (Float64.mkMoodDict (Some (Float64.of_Q (9 # 10))) (Some "happy")
                          (Some (Float64.of_Q (3 # 10))) (Some ["sunny"]))
      "sad and lonely" = Ok r /\
    Float64.dominant_emotion r = e /\
    PrimFloat.eqb (Float64.mood_score r) s = true /\
    Float64.confidence r = Float64.py_round c 4 /\
    PrimFloat.eqb (Float64.confidence r) c =
      negb (negb (String.eqb e "neutral")
            && ((evidence "sad and lonely" e =? 2)%nat || (evidence "sad and lonely" e =? 4)%nat)).
Proof.
  apply validate_and_fix_low_confidence. vm_compute. reflexivity.
Defined.

(** X8.  When the candidate's emotion has no keyword in the text and some
    emotion other than neutral has one, [validate_and_fix] drops the
    candidate: the result holds the emotion and the score of the
    re-detector, whose emotion has evidence in the text, and the
    re-detector's confidence rounded to four decimals, which differs from
    the unrounded one exactly for two matches and for four.  In binary64,
    for every candidate and text. *)
Theorem validate_and_fix_overrides_without_evidence
    (x : Float64.mood_dict) (text : string) :
  evidence text (Float64.candidate_emotion x) = 0%nat ->
  primary_total text <> 0%nat ->
  exists e s c r,
    Float64._detect_emotion_from_text text = Ok (e, s, c) /\
    Float64.validate_and_fix x text = Ok r /\
    Float64.dominant_emotion r = e /\
    PrimFloat.eqb (Float64.mood_score r) s = true /\
    Float64.confidence r = Float64.py_round c 4 /\
    PrimFloat.eqb (Float64.confidence r) c =
      negb ((evidence text e =? 2)%nat || (evidence text e =? 4)%nat) /\
    (0 < evidence text e)%nat.
Proof.
  intros He Ht.
  assert (Hg : override_guard text (Float64.candidate_emotion x) = true).
  { unfold override_guard. rewrite He. apply Nat.eqb_neq in Ht. now rewrite Ht. }
  destruct (Float64Facts.redetected_state text) as (e & s & c & Hd & _ & _ & S3 & S4 & S5).
  destruct (S5 Ht) as [Hpos En].
  exists e, s, c, (Float64.fixed_result text (e, s, c)).
  split; [exact Hd|]. split.
  - unfold Float64.validate_and_fix.
    rewrite (Float64Facts.overridden_state x text Hg), Hd. reflexivity.
  - cbn [Float64.fixed_result Float64.dominant_emotion Float64.mood_score Float64.confidence].
    split; [reflexivity|]. split; [exact S3|]. split; [reflexivity|].
    split; [|exact Hpos].
    rewrite S4, En. reflexivity.
Qed.

Lemma validate_and_fix_overrides_without_evidence_witness :
  exists e s c r,
    Float64._detect_emotion_from_text "worried and stressed out" = Ok (e, s, c) /\
    Float64.validate_and_fix
      (Float64.mkMoodDict (Some (Float64.of_Q (4 # 10))) (Some "calm")
                          (Some (Float64.of_Q (9 # 10))) (Some []))
      "worried and stressed out" = Ok r /\
    Float64.dominant_emotion r = e /\
    PrimFloat.eqb (Float64.mood_score r) s = true /\
    Float64.confidence r = Float64.py_round c 4 /\
    PrimFloat.eqb (Float64.confidence r) c =
      negb ((evidence "worried and stressed out" e =? 2)%nat
            || (evidence "worried and stressed out" e =? 4)%nat) /\
    (0 < evidence "worried and stressed out" e)%nat.
Proof.
  apply validate_and_fix_overrides_without_evidence.
  - vm_compute. reflexivity.
  - vm_compute. discriminate.
Defined.

(** X30.  The exact numbers of the re-detector are those of binary64 up
    to representation.  On every text the two evaluations return the same
    emotion; the float score is the float nearest to the exact score; the
    float confidence is within 10^-15 of the exact confidence and, once
    rounded to four decimals, is the float nearest to it. *)
Theorem detect_binary64_agrees (text : string) :
  exists e s c sf cf,
    EmotionValidator._detect_emotion_from_text text = Ok (e, s, c) /\
    Float64._detect_emotion_from_text text = Ok (e, sf, cf) /\
    PrimFloat.eqb sf (Float64.of_Q s) = true /\
    PrimFloat.eqb (Float64.py_round cf 4) (Float64.of_Q c) = true /\
    Qabs (Float64.to_Q cf - c) <= 1 # 1000000000000000.
Proof.
  destruct (Float64Facts.detect_cases text)
    as [(H0 & He & Hd)|(e & lo & hi & sf & cf & Ht & Hp & Hn & Hr & He & Hnum & Hd)].
  - eexists _, _, _, _, _. split; [exact He|]. split; [exact Hd|].
    split; [vm_compute; reflexivity|]. split; [vm_compute; reflexivity|].
    vm_compute. discriminate.
  - eexists e, _, _, sf, cf. split; [exact He|]. split; [exact Hd|].
    pose proof Float64Facts.agrees_with_exact_all as Hall.
    rewrite forallb_forall in Hall. specialize (Hall e Hp).
    rewrite forallb_forall in Hall. specialize (Hall (evidence text e)).
    assert (Hin : In (evidence text e) (seq 1 46)) by (apply in_seq; lia).
    specialize (Hall Hin). unfold Float64.agrees_with_exact in Hall.
    rewrite Hnum, Hr in Hall.
    repeat rewrite andb_true_iff in Hall.
    destruct Hall as [[H1 H2] H3].
    split; [exact H1|]. split; [exact H2|]. now apply Qle_bool_iff.
Qed.

(* ------------------------------------------------------------------ *)
(** ** Keywords and their storage *)

Module StorageFacts.
Import JournalManager.

Lemma extract_keywords_tokens (text e : string) :
  _extract_quality_keywords text e = ["journal"; "entry"] \/
  (_extract_quality_keywords text e <> [] /\
   forall k, In k (_extract_quality_keywords text e) -> In k (_tokenize text)).
Proof.
  unfold _extract_quality_keywords.
  set (tokens := _tokenize text).
  set (A := emotion_kwds_of e tokens).
  set (B := content_words_of A tokens).
  assert (H0 : (List.length (@nil string) < 5)%nat) by (simpl; lia).
  destruct (KeywordFacts.dedup_loop_spec (A ++ B)%list [] (NoDup_nil _) H0)
    as (ext & E & _ & _ & Sub).
  simpl in E. rewrite E.
  destruct ext as [|k ext]; [left; reflexivity|right].
  split; [discriminate|].
  intros k' Hk'. apply Sub in Hk'. apply in_app_iff in Hk'.
  destruct Hk' as [Hk'|Hk'].
  - unfold A, emotion_kwds_of in Hk'. apply filter_In in Hk'.
    destruct Hk' as [_ Hm]. now apply mem_In in Hm.
  - unfold B, content_words_of in Hk'. apply filter_In in Hk'. tauto.
Qed.

Lemma append_assoc (s1 s2 s3 : string) :
  ((s1 ++ s2) ++ s3 = s1 ++ (s2 ++ s3))%string.
Proof. induction s1 as [|c s1 IH]; simpl; [reflexivity|now rewrite IH]. Qed.

Lemma append_empty_r (s : string) : (s ++ "")%string = s.
Proof. induction s as [|c s IH]; simpl; [reflexivity|now rewrite IH]. Qed.

Lemma split_comma_word (k : string) : forall cur rest,
  no_comma k = true ->
  MoodAnalyzer.split_comma_from cur (k ++ rest)%string =
  MoodAnalyzer.split_comma_from (cur ++ k)%string rest.
Proof.
  induction k as [|c k IH]; intros cur rest H.
  - simpl. now rewrite append_empty_r.
  - unfold no_comma in H. cbn [forall_chars] in H.
    apply andb_true_iff in H. destruct H as [Hc Hk].
    apply negb_true_iff in Hc.
    cbn [append MoodAnalyzer.split_comma_from]. rewrite Hc.
    rewrite (IH _ rest Hk), append_assoc. reflexivity.
Qed.

(** Splitting at the commas undoes joining with commas. *)
Lemma split_join_comma (l : list string) :
  l <> [] -> (forall k, In k l -> no_comma k = true) ->
  MoodAnalyzer.split_comma_from "" (join_comma l) = l.
Proof.
  induction l as [|k l IH]; [congruence|]. intros _ H.
  destruct l as [|k' l].
  - cbn [join_comma].
    rewrite <- (append_empty_r k) at 1.
    rewrite split_comma_word; [reflexivity|apply H; now left].
  - change (join_comma (k :: k' :: l))
      with (k ++ String ","%char (join_comma (k' :: l)))%string.
    rewrite split_comma_word; [|apply H; now left].
    cbn [append MoodAnalyzer.split_comma_from].
    rewrite Ascii.eqb_refl.
    f_equal. apply IH; [discriminate|]. intros k0 Hk0. apply H. now right.
Qed.

Lemma join_comma_nonempty (k : string) (l : list string) :
  k <> "" -> is_empty (join_comma (k :: l)) = false.
Proof.
  intro H. destruct k as [|c k]; [congruence|].
  destruct l; reflexivity.
Qed.

End StorageFacts.

(** X11.  The keywords of a result of [validate_and_fix] are tokens of the
    text, unless the list is the pair "journal", "entry" that stands in
    for an empty list. *)
Theorem validate_and_fix_keywords_from_text
    (x : mood_dict) (text : string) (r : MoodResult) :
  validate_and_fix x text = Ok r ->
  keywords r = ["journal"; "entry"] \/
  forall k, In k (keywords r) -> In k (_tokenize text).
Proof.
  unfold validate_and_fix.
  destruct (run_checks x text) as [[[e s] c]|]; cbn [bind]; [|discriminate].
  intro H. inversion H. cbn [fixed_result keywords].
  destruct (StorageFacts.extract_keywords_tokens text e) as [Hs|[_ Ht]]; auto.
Qed.

Lemma validate_and_fix_keywords_from_text_witness :
  let r := mkMoodResult (py_round (- (52 # 100)) 4) "anxious"
             (py_round (py_min (90 # 100) ((55 # 100) + inject_Z 2 * (8 # 100))) 4)
             ["worried"; "stressed"] in
  keywords r = ["journal"; "entry"] \/
  forall k, In k (keywords r) -> In k (_tokenize "worried and stressed out").
Proof.
  intro r.
  apply (validate_and_fix_keywords_from_text
           (mkMoodDict None None None None) "worried and stressed out" r).
  vm_compute. reflexivity.
Defined.

(** X12.  The keywords survive storage: the row that the manager builds
    from a result of [validate_and_fix] joins them with commas, and
    [_entry_with_mood_to_dict] gets the same list back by splitting. *)
Theorem keywords_storage_round_trip
    (x : mood_dict) (text : string) (r : MoodResult) :
  validate_and_fix x text = Ok r ->
  JournalManager.keywords_of_row (Some (JournalManager.mood_row_of r)) = keywords r.
Proof.
  intro H.
  assert (Hk : keywords r <> [] /\
               forall k, In k (keywords r) -> k <> "" /\ no_comma k = true).
  { unfold validate_and_fix in H.
    destruct (run_checks x text) as [[[e s] c]|]; cbn [bind] in H; [|discriminate].
    inversion H. cbn [fixed_result keywords].
    destruct (StorageFacts.extract_keywords_tokens text e) as [E|[Hne Ht]].
    - rewrite E. split; [discriminate|].
      intros k [<-|[<-|[]]]; split; (discriminate || reflexivity).
    - split; [exact Hne|]. intros k Hin.
      destruct (TokenFacts.split_from_chars is_token_char _ "" eq_refl
                  (TokenFacts.normalised_text text) k (Ht k Hin)) as [Hn Hc].
      split; [exact Hn|]. now apply TokenFacts.token_char_no_comma. }
  destruct Hk as [Hne Hall].
  unfold JournalManager.keywords_of_row, JournalManager.mood_row_of.
  cbn [JournalManager.row_keywords].
  destruct (keywords r) as [|k l] eqn:E; [congruence|].
  rewrite (StorageFacts.join_comma_nonempty k l); [|apply (Hall k); now left].
  rewrite (StorageFacts.join_comma_nonempty k l); [|apply (Hall k); now left].
  apply StorageFacts.split_join_comma; [discriminate|].
  intros k0 Hk0. now apply Hall.
Qed.

Lemma keywords_storage_round_trip_witness :
  let r := mkMoodResult (py_round (- (52 # 100)) 4) "anxious"
             (py_round (py_min (90 # 100) ((55 # 100) + inject_Z 2 * (8 # 100))) 4)
             ["worried"; "stressed"] in
  JournalManager.keywords_of_row (Some (JournalManager.mood_row_of r)) = keywords r.
Proof.
  intro r.
  apply (keywords_storage_round_trip
           (mkMoodDict None None None None) "worried and stressed out" r).
  vm_compute. reflexivity.
Defined.

(* ------------------------------------------------------------------ *)
(** ** Further properties of the analyzer *)

Import MoodAnalyzer.

Module AnalyzerMoreFacts.

Lemma clamp_unit (q : Q) : -1 <= py_max (-1) (py_min 1 q) /\ py_max (-1) (py_min 1 q) <= 1.
Proof. apply clamp_bounds. lra. Qed.

Lemma clamp_01 (q : Q) : 0 <= py_max 0 (py_min 1 q) /\ py_max 0 (py_min 1 q) <= 1.
Proof. apply clamp_bounds. lra. Qed.

Lemma strip_nonempty_spec (l : list string) (k : string) :
  In k (strip_nonempty l) -> k <> "".
Proof.
  unfold strip_nonempty. intro H. apply in_map_iff in H.
  destruct H as (k0 & <- & H). apply filter_In in H. destruct H as [_ H].
  apply negb_true_iff in H. intro E. rewrite E in H. discriminate H.
Qed.

Lemma score_of_spec (e : string) (n : nat) :
  In e valid_emotions ->
  polarity_ok e (fst (score_of e n)) /\
  - (85 # 100) <= fst (score_of e n) /\ fst (score_of e n) <= 85 # 100 /\
  1 # 2 <= snd (score_of e n) /\ snd (score_of e n) <= 85 # 100.
Proof.
  intro Hv. pose proof (DetectFacts.inject_nat_le 0 n (Nat.le_0_l n)) as Hn.
  change (inject_Z (Z.of_nat 0)) with 0 in Hn.
  assert (Hc : 1 # 2 <= py_min (85 # 100) ((65 # 100) + inject_Z (Z.of_nat n) * (1 # 10)) /\
               py_min (85 # 100) ((65 # 100) + inject_Z (Z.of_nat n) * (1 # 10)) <= 85 # 100).
  { destruct (py_min_spec (85 # 100) ((65 # 100) + inject_Z (Z.of_nat n) * (1 # 10)))
      as [[H E]|[H E]]; rewrite E; split; lra. }
  assert (Hpos : 0 <= py_min (85 # 100) (inject_Z (Z.of_nat n) * (25 # 100)) /\
                 py_min (85 # 100) (inject_Z (Z.of_nat n) * (25 # 100)) <= 85 # 100).
  { destruct (py_min_spec (85 # 100) (inject_Z (Z.of_nat n) * (25 # 100)))
      as [[H E]|[H E]]; rewrite E; split; lra. }
  assert (Hcalm : 0 <= py_min (55 # 100) (inject_Z (Z.of_nat n) * (18 # 100)) /\
                  py_min (55 # 100) (inject_Z (Z.of_nat n) * (18 # 100)) <= 55 # 100).
  { destruct (py_min_spec (55 # 100) (inject_Z (Z.of_nat n) * (18 # 100)))
      as [[H E]|[H E]]; rewrite E; split; lra. }
  assert (Hneg : - (85 # 100) <= py_max (- (85 # 100)) (- (inject_Z (Z.of_nat n) * (25 # 100))) /\
                 py_max (- (85 # 100)) (- (inject_Z (Z.of_nat n) * (25 # 100))) <= 0).
  { destruct (py_max_spec (- (85 # 100)) (- (inject_Z (Z.of_nat n) * (25 # 100))))
      as [[H E]|[H E]]; rewrite E; split; lra. }
  unfold polarity_ok. simpl in Hv.
  destruct Hv as [<-|[<-|[<-|[<-|[<-|[<-|[]]]]]]].
  - change (score_of "happy" n)
      with (py_min (85 # 100) (inject_Z (Z.of_nat n) * (25 # 100)),
            py_min (85 # 100) ((65 # 100) + inject_Z (Z.of_nat n) * (1 # 10))).
    cbn [fst snd]. repeat split; try lra; intro Hx; try lra;
      first [discriminate Hx | absurd_in Hx].
  - change (score_of "sad" n)
      with (py_max (- (85 # 100)) (- (inject_Z (Z.of_nat n) * (25 # 100))),
            py_min (85 # 100) ((65 # 100) + inject_Z (Z.of_nat n) * (1 # 10))).
    cbn [fst snd]. repeat split; try lra; intro Hx; try lra;
      first [discriminate Hx | absurd_in Hx].
  - change (score_of "anxious" n)
      with (py_max (- (85 # 100)) (- (inject_Z (Z.of_nat n) * (25 # 100))),
            py_min (85 # 100) ((65 # 100) + inject_Z (Z.of_nat n) * (1 # 10))).
    cbn [fst snd]. repeat split; try lra; intro Hx; try lra;
      first [discriminate Hx | absurd_in Hx].
  - change (score_of "calm" n)
      with (py_min (55 # 100) (inject_Z (Z.of_nat n) * (18 # 100)),
            py_min (85 # 100) ((65 # 100) + inject_Z (Z.of_nat n) * (1 # 10))).
    cbn [fst snd]. repeat split; try lra; intro Hx; try lra;
      first [discriminate Hx | absurd_in Hx].
  - change (score_of "angry" n)
      with (py_max (- (85 # 100)) (- (inject_Z (Z.of_nat n) * (25 # 100))),
            py_min (85 # 100) ((65 # 100) + inject_Z (Z.of_nat n) * (1 # 10))).
    cbn [fst snd]. repeat split; try lra; intro Hx; try lra;
      first [discriminate Hx | absurd_in Hx].
  - change (score_of "neutral" n) with (0, 6 # 10).
    cbn [fst snd]. repeat split; try lra; intro Hx; try lra.
    apply Qabs_case; intro; lra.
Qed.

(** What [_fallback_analysis] returns on any text. *)
Lemma fallback_domain (text : string) :
  exists r,
    _fallback_analysis text = Ok r /\
    In (dominant_emotion r) valid_emotions /\
    polarity_ok (dominant_emotion r) (mood_score r) /\
    - (85 # 100) <= mood_score r /\ mood_score r <= 85 # 100 /\
    1 # 2 <= confidence r /\ confidence r <= 85 # 100 /\
    (1 <= List.length (keywords r) <= 5)%nat.
Proof.
  unfold _fallback_analysis.
  destruct (AnalyzerFacts.match_counts_shape (word_list_of text)) as (h & s & a & c & g & E).
  rewrite E.
  set (five := [("happy", h); ("sad", s); ("anxious", a); ("calm", c); ("angry", g)]).
  set (found := found_keywords_of (word_list_of text)).
  set (others := filter _ (word_list_of text)).
  assert (Hk : (1 <= List.length
                  (match firstn 5 (found ++ others)%list with
                   | [] => ["journal"; "entry"]
                   | _ => firstn 5 (found ++ others)%list
                   end) <= 5)%nat).
  { pose proof (firstn_le_length 5 (found ++ others)%list) as L.
    destruct (firstn 5 (found ++ others)%list); simpl in *; lia. }
  destruct (Nat.eqb_spec (list_sum (map snd five)) 0) as [Ht|Ht].
  - cbn [bind]. eexists. split; [reflexivity|].
    cbn [dominant_emotion mood_score confidence keywords].
    split; [simpl; tauto|].
    split; [split; [intros _; lra|split; [intros _; lra|intros _; apply Qabs_case; intro; lra]]|].
    repeat (split; [lra|]). exact Hk.
  - destruct (max_key_spec five) as (e & n & Hmk & Hin & _); [discriminate|].
    rewrite Hmk. cbn [bind].
    assert (Hd : dict_index five e = Ok n /\ In e valid_emotions).
    { unfold five in Hin |- *. simpl in Hin.
      destruct Hin as [H|[H|[H|[H|[H|[]]]]]]; inversion H; subst;
        (split; [reflexivity|simpl; tauto]). }
    destruct Hd as [Hd Hv]. rewrite Hd. cbn [bind].
    eexists. split; [reflexivity|].
    cbn [dominant_emotion mood_score confidence keywords].
    split; [exact Hv|].
    destruct (score_of_spec e n Hv) as (P & B1 & B2 & C1 & C2).
    repeat (split; [assumption|]). exact Hk.
Qed.

End AnalyzerMoreFacts.

(** X13.  Whatever the decoded object holds, [_parse_model_json] returns a
    result within the domains of the data model: the score in [-1, 1],
    the confidence in [0, 1], the emotion one of the six values, and no
    empty keyword. *)
Theorem parse_fields_domain (fields : model_fields) :
  let r := parse_fields fields in
  -1 <= mood_score r /\ mood_score r <= 1 /\
  0 <= confidence r /\ confidence r <= 1 /\
  In (dominant_emotion r) valid_emotions /\
  forall k, In k (keywords r) -> k <> "".
Proof.
  intro r. pose proof (AnalyzerFacts.parse_fields_valid fields) as Hv.
  unfold r, parse_fields in *. cbn [mood_score confidence dominant_emotion keywords] in *.
  split; [apply AnalyzerMoreFacts.clamp_unit|]. split; [apply AnalyzerMoreFacts.clamp_unit|].
  split; [apply AnalyzerMoreFacts.clamp_01|]. split; [apply AnalyzerMoreFacts.clamp_01|].
  split; [exact Hv|].
  intros k Hk. destruct (raw_keywords fields) as [[s|l|]|];
    try (now apply (AnalyzerMoreFacts.strip_nonempty_spec _ k Hk)); destruct Hk.
Qed.

(** X14.  [_fallback_analysis] never raises; its emotion is one of
    the six values, its score has the sign of the emotion's polarity
    class and lies in [-0.85, 0.85], its confidence lies in [0.5, 0.85]
    and it returns between one and five keywords. *)
Theorem fallback_analysis_domain (text : string) :
  exists r,
    _fallback_analysis text = Ok r /\
    In (dominant_emotion r) valid_emotions /\
    polarity_ok (dominant_emotion r) (mood_score r) /\
    - (85 # 100) <= mood_score r /\ mood_score r <= 85 # 100 /\
    1 # 2 <= confidence r /\ confidence r <= 85 # 100 /\
    (1 <= List.length (keywords r) <= 5)%nat.
Proof.
  destruct (AnalyzerMoreFacts.fallback_domain text)
    as (r & Hr & Hv & Hp & S1 & S2 & C1 & C2 & Hk).
  exists r. split; [exact Hr|]. split; [exact Hv|]. split; [exact Hp|].
  repeat (split; [assumption|]). exact Hk.
Qed.

(** X15.  [_fix_emotion_score_consistency] never raises, and after
    it the score agrees with the emotion: not negative for happy and
    calm, not positive for sad, anxious and angry, and of absolute value
    at most 0.3 for neutral. *)
Theorem fix_emotion_score_consistent (result : MoodResult) (text : string) :
  exists r,
    _fix_emotion_score_consistency result text = Ok r /\
    (In (dominant_emotion r) positive_emotions -> 0 <= mood_score r) /\
    (In (dominant_emotion r) negative_emotions -> mood_score r <= 0) /\
    (dominant_emotion r = "neutral" -> Qabs (mood_score r) <= 3 # 10).
Proof.
  unfold _fix_emotion_score_consistency.
  set (e := dominant_emotion result). set (s := mood_score result).
  destruct (mem e positive_emotions) eqn:Mp.
  { apply mem_In in Mp. destruct (Qltb_spec s 0) as [[H E]|[H E]]; rewrite E; cbn [andb].
    - eexists. split; [reflexivity|]. cbn [dominant_emotion mood_score].
      split; [intros _; apply Qabs_nonneg|].
      split; [intro Hn; exfalso; simpl in Mp, Hn;
              destruct Mp as [M|[M|[]]]; rewrite <- M in Hn;
              repeat (destruct Hn as [Hn|Hn]; [discriminate Hn|]); exact Hn|].
      intro Hn. exfalso. simpl in Mp. rewrite Hn in Mp.
      repeat (destruct Mp as [Mp|Mp]; [discriminate Mp|]). exact Mp.
    - assert (Mn : mem e negative_emotions = false).
      { apply mem_false. intro Hn. simpl in Mp, Hn.
        destruct Mp as [M|[M|[]]]; rewrite <- M in Hn;
          repeat (destruct Hn as [Hn|Hn]; [discriminate Hn|]); exact Hn. }
      assert (Mz : String.eqb e "neutral" = false).
      { apply String.eqb_neq. intro Hn. simpl in Mp. rewrite Hn in Mp.
        repeat (destruct Mp as [Mp|Mp]; [discriminate Mp|]). exact Mp. }
      rewrite Mn, Mz. cbn [andb]. eexists. split; [reflexivity|].
      cbn [dominant_emotion mood_score]. fold e.
      split; [intros _; exact H|].
      split; [intro Hn; apply mem_In in Hn; congruence|].
      intro Hn. apply String.eqb_eq in Hn. congruence. }
  cbn [andb].
  destruct (mem e negative_emotions) eqn:Mn.
  { apply mem_In in Mn. destruct (Qltb_spec 0 s) as [[H E]|[H E]]; rewrite E; cbn [andb].
    - eexists. split; [reflexivity|]. cbn [dominant_emotion mood_score]. fold e.
      split; [intro Hp; apply mem_In in Hp; congruence|].
      split; [intros _; pose proof (Qabs_nonneg s); lra|].
      intro Hn. exfalso. simpl in Mn. rewrite Hn in Mn.
      repeat (destruct Mn as [Mn|Mn]; [discriminate Mn|]). exact Mn.
    - assert (Mz : String.eqb e "neutral" = false).
      { apply String.eqb_neq. intro Hn. simpl in Mn. rewrite Hn in Mn.
        repeat (destruct Mn as [Mn|Mn]; [discriminate Mn|]). exact Mn. }
      rewrite Mz. cbn [andb]. eexists. split; [reflexivity|].
      cbn [dominant_emotion mood_score]. fold e.
      split; [intro Hp; apply mem_In in Hp; congruence|].
      split; [intros _; exact H|].
      intro Hn. apply String.eqb_eq in Hn. congruence. }
  cbn [andb].
  destruct (String.eqb_spec e "neutral") as [Ez|Ez]; cbn [andb].
  - destruct (Qltb_spec (3 # 10) (Qabs s)) as [[H E]|[H E]]; rewrite E.
    + destruct (AnalyzerMoreFacts.fallback_domain text) as (f & Hf & _ & Hpol & _).
      rewrite Hf. cbn [bind].
      destruct (String.eqb_spec (dominant_emotion f) "neutral") as [Ef|Ef]; cbn [negb].
      * eexists. split; [reflexivity|]. cbn [dominant_emotion mood_score]. fold e.
        split; [intro Hp; apply mem_In in Hp; congruence|].
        split; [intro Hp; apply mem_In in Hp; congruence|].
        intros _. apply Qabs_case; intro; lra.
      * exists f. split; [reflexivity|].
        destruct Hpol as (P1 & P2 & _).
        split; [exact P1|]. split; [exact P2|]. intro Hn. contradiction.
    + eexists. split; [reflexivity|]. cbn [dominant_emotion mood_score]. fold e.
      split; [intro Hp; apply mem_In in Hp; congruence|].
      split; [intro Hp; apply mem_In in Hp; congruence|].
      intros _. exact H.
  - eexists. split; [reflexivity|]. cbn [dominant_emotion mood_score]. fold e.
    split; [intro Hp; apply mem_In in Hp; congruence|].
    split; [intro Hp; apply mem_In in Hp; congruence|].
    intro Hn. contradiction.
Qed.

Module PipelineFacts.

Lemma parse_fields_domain_aux (fields : model_fields) :
  -1 <= mood_score (parse_fields fields) /\ mood_score (parse_fields fields) <= 1 /\
  0 <= confidence (parse_fields fields) /\ confidence (parse_fields fields) <= 1 /\
  In (dominant_emotion (parse_fields fields)) valid_emotions.
Proof.
  pose proof (AnalyzerFacts.parse_fields_valid fields) as Hv.
  unfold parse_fields in *. cbn [mood_score confidence dominant_emotion] in *.
  split; [apply AnalyzerMoreFacts.clamp_unit|]. split; [apply AnalyzerMoreFacts.clamp_unit|].
  split; [apply AnalyzerMoreFacts.clamp_01|]. split; [apply AnalyzerMoreFacts.clamp_01|].
  exact Hv.
Qed.

Lemma fix_domain (result : MoodResult) (text : string) :
  In (dominant_emotion result) valid_emotions ->
  -1 <= mood_score result -> mood_score result <= 1 ->
  0 <= confidence result -> confidence result <= 1 ->
  exists r,
    _fix_emotion_score_consistency result text = Ok r /\
    In (dominant_emotion r) valid_emotions /\
    -1 <= mood_score r /\ mood_score r <= 1 /\
    0 <= confidence r /\ confidence r <= 1.
Proof.
  intros Hv S1 S2 C1 C2. unfold _fix_emotion_score_consistency.
  destruct (Qabs_unit (mood_score result) S1 S2) as [A1 A2].
  destruct (mem (dominant_emotion result) positive_emotions && Qltb (mood_score result) 0).
  { eexists. split; [reflexivity|]. cbn [dominant_emotion mood_score confidence].
    repeat split; auto; lra. }
  destruct (mem (dominant_emotion result) negative_emotions && Qltb 0 (mood_score result)).
  { eexists. split; [reflexivity|]. cbn [dominant_emotion mood_score confidence].
    repeat split; auto; lra. }
  destruct (String.eqb (dominant_emotion result) "neutral"
            && Qltb (3 # 10) (Qabs (mood_score result))).
  - destruct (AnalyzerMoreFacts.fallback_domain text)
      as (f & Hf & Hfv & _ & F1 & F2 & F3 & F4 & _).
    rewrite Hf. cbn [bind].
    destruct (negb (String.eqb (dominant_emotion f) "neutral")).
    + exists f. repeat split; auto; lra.
    + eexists. split; [reflexivity|]. cbn [dominant_emotion mood_score confidence].
      repeat split; auto; lra.
  - eexists. split; [reflexivity|]. cbn [dominant_emotion mood_score confidence].
    repeat split; auto.
Qed.

(** [analyze_entry] leaves through an exception in one case only, a body
    that is JSON but not an object; in every other case it returns a
    dictionary within the domains. *)
Lemma analyze_entry_cases (post : string -> post_outcome)
    (decode : string -> option model_fields) (text : string) :
  (is_empty (strip is_space text) = false /\
   post (strip is_space text) = NotAnObject /\
   fst (analyze_entry post decode text) = Raise AttributeError) \/
  ((is_empty (strip is_space text) = true \/ post (strip is_space text) <> NotAnObject) /\
   exists r,
     fst (analyze_entry post decode text) = Ok (to_dict r) /\
     In (dominant_emotion r) valid_emotions /\
     -1 <= mood_score r /\ mood_score r <= 1 /\
     0 <= confidence r /\ confidence r <= 1).
Proof.
  assert (Hf : exists r, fallback_dict text = Ok (to_dict r) /\
                         In (dominant_emotion r) valid_emotions /\
                         -1 <= mood_score r /\ mood_score r <= 1 /\
                         0 <= confidence r /\ confidence r <= 1).
  { unfold fallback_dict.
    destruct (AnalyzerMoreFacts.fallback_domain text)
      as (f & Hf & Hv & _ & F1 & F2 & F3 & F4 & _).
    rewrite Hf. cbn [bind]. exists f. repeat split; auto; lra. }
  unfold analyze_entry.
  assert (Eb : is_empty text || is_empty (strip is_space text) =
               is_empty (strip is_space text)).
  { destruct text as [|c text]; reflexivity. }
  rewrite Eb.
  destruct (is_empty (strip is_space text)).
  { right. split; [now left|]. cbn [fst]. exists _neutral_result. split; [reflexivity|].
    unfold _neutral_result. cbn [dominant_emotion mood_score confidence].
    repeat split; try lra. simpl. tauto. }
  cbn [fst].
  destruct (post (strip is_space text)) as [| | | |[raw|]];
    try (right; split; [right; discriminate|exact Hf]).
  - left. auto.
  - right. split; [right; discriminate|].
    unfold _parse_model_json.
    destruct (decode raw) as [fields|]; cbn [option_map]; [|exact Hf].
    destruct (parse_fields_domain_aux fields) as (P1 & P2 & P3 & P4 & P5).
    destruct (fix_domain (parse_fields fields) text P5 P1 P2 P3 P4) as (r & Hr & Hd).
    rewrite Hr. exists r. split; [reflexivity|exact Hd].
Qed.

(** The requests that [analyze_entry] sends. *)
Lemma analyze_entry_requests (post : string -> post_outcome)
    (decode : string -> option model_fields) (text : string) :
  snd (analyze_entry post decode text) =
  if is_empty (strip is_space text) then [] else [strip is_space text].
Proof.
  unfold analyze_entry.
  destruct text as [|c text]; [reflexivity|]. cbn [is_empty orb].
  destruct (is_empty (strip is_space (String c text))); reflexivity.
Qed.

End PipelineFacts.

(** X16.  [analyze_entry] sends one request, built from the stripped
    text, unless the text is blank, when it sends none.  It leaves through
    an exception in exactly one case: the service answers with a body that
    is JSON but not an object, and the [AttributeError] of [data.get] is
    not caught.  In every other case, whatever the service and the decoder
    do, it returns a dictionary with a score in [-1, 1], a confidence in
    [0, 1] and an emotion of the closed set. *)
Theorem analyze_entry_domain_and_requests
    (post : string -> post_outcome) (decode : string -> option model_fields)
    (text : string) :
  snd (analyze_entry post decode text) =
    (if is_empty (strip is_space text) then [] else [strip is_space text]) /\
  ((is_empty (strip is_space text) = false /\
    post (strip is_space text) = NotAnObject /\
    fst (analyze_entry post decode text) = Raise AttributeError) \/
   ((is_empty (strip is_space text) = true \/ post (strip is_space text) <> NotAnObject) /\
    exists r,
      fst (analyze_entry post decode text) = Ok (to_dict r) /\
      In (dominant_emotion r) valid_emotions /\
      -1 <= mood_score r /\ mood_score r <= 1 /\
      0 <= confidence r /\ confidence r <= 1)).
Proof.
  split.
  - apply PipelineFacts.analyze_entry_requests.
  - apply PipelineFacts.analyze_entry_cases.
Qed.

(** X17.  The mood that [create_entry] and [update_entry] store is within
    the CHECK constraints of the table [mood_analyses].  For every
    service, decoder and content, either [analyze_entry] leaves through
    its [AttributeError] (the body of the answer is JSON but not an
    object), and no row is built, or the pipeline of [analyze_entry] and
    [validate_and_fix] returns a result whose row has a score in [-1, 1],
    a confidence in [0, 1] and one of the six emotions. *)
Theorem stored_mood_meets_check_constraints
    (post : string -> post_outcome) (decode : string -> option model_fields)
    (content : string) :
  (is_empty (strip is_space content) = false /\
   post (strip is_space content) = NotAnObject /\
   analyze_and_validate post decode content = Raise AttributeError) \/
  (exists r,
     analyze_and_validate post decode content = Ok r /\
     JournalManager.ck_mood_score_range (JournalManager.mood_row_of r) = true /\
     JournalManager.ck_confidence_range (JournalManager.mood_row_of r) = true /\
     JournalManager.ck_dominant_emotion_values (JournalManager.mood_row_of r) = true).
Proof.
  unfold analyze_and_validate.
  destruct (PipelineFacts.analyze_entry_cases post decode content)
    as [(Hb & Hp & Hr)|(_ & r0 & Hr0 & Hv0 & _ & _ & C1 & C2)].
  { left. rewrite Hr. auto. }
  right.
  rewrite Hr0. cbn [bind]. unfold validate_and_fix.
  destruct (run_checks_spec (to_dict r0) content) as (e & s & c & Hr & Hs & Hp).
  pose proof (run_checks_valid (to_dict r0) content e s c
                (AnalyzerFacts.candidate_emotion_to_dict r0 Hv0) Hr) as Hve.
  rewrite Hr. cbn [bind]. eexists. split; [reflexivity|].
  pose proof (settled_round content e s c Hs) as (Hc & _ & _ & [B1 B2] & _).
  unfold JournalManager.ck_mood_score_range, JournalManager.ck_confidence_range,
    JournalManager.ck_dominant_emotion_values, JournalManager.mood_row_of.
  cbn [fixed_result mood_score dominant_emotion confidence
       JournalManager.row_mood_score JournalManager.row_confidence
       JournalManager.row_dominant_emotion].
  split; [apply andb_true_iff; split; apply Qle_bool_iff; assumption|].
  split; [|now apply mem_In].
  apply andb_true_iff. split; apply Qle_bool_iff; [lra|].
  destruct Hp as [(_ & Hcc & _)|(sd & Hd & _)].
  - apply (py_round_le 1 c 4 10000); [reflexivity|].
    rewrite Hcc. unfold candidate_confidence. cbn [to_dict get_confidence].
    rewrite (num_or_some (confidence r0)). exact C2.
  - destruct (detect_spec content) as (ed & sd' & cd & Hd' & _ & _ & _ & _ & Hrc & Hk).
    destruct (detect_functional _ _ _ _ _ _ _ Hd Hd') as (-> & -> & ->).
    rewrite Hrc.
    destruct Hk as [(_ & _ & _ & ->)|(_ & _ & _ & -> & _)]; [lra|].
    match goal with
    | |- py_min ?a ?b <= _ => destruct (py_min_spec a b) as [[H E]|[H E]]; rewrite E; lra
    end.
Qed.

(* ------------------------------------------------------------------ *)
(** ** Emotion classes and colours *)

Module ColourFacts.

Lemma color_map_outside (e : string) :
  mem e valid_emotions = false -> dict_get color_map e = None.
Proof.
  unfold mem, valid_emotions, color_map. cbn [existsb dict_get].
  intro H. repeat (apply orb_false_iff in H; destruct H as [?E H]).
  now rewrite E, E0, E1, E2, E3, E4.
Qed.

Lemma color_map_inside (e : string) :
  In e valid_emotions -> exists v, dict_get color_map e = Some v.
Proof.
  simpl. intros [<-|[<-|[<-|[<-|[<-|[<-|[]]]]]]]; eexists; reflexivity.
Qed.


End ColourFacts.


(** X19.  The colour that [get_emotion_color] gives to a label is the
    colour that [color_map] holds for the label's class: labels that
    differ in case or surrounding whitespace share a colour, and a
    missing, empty or unknown label has the colour of neutral. *)
Theorem emotion_color_of_class (emotion : option string) :
  dict_get color_map (UiComponents._emotion_class emotion) =
  Some (get_emotion_color emotion).
Proof.
  unfold UiComponents._emotion_class, get_emotion_color, dict_get_default, str_or.
  destruct emotion as [[|a s]|]; try reflexivity.
  cbn [is_empty].
  set (e := lower (strip is_space (String a s))).
  destruct (mem e valid_emotions) eqn:M; cbn [negb].
  - apply mem_In in M. destruct (ColourFacts.color_map_inside e M) as (v & Hv).
    now rewrite Hv.
  - rewrite (ColourFacts.color_map_outside e M). reflexivity.
Qed.

(* ------------------------------------------------------------------ *)
(** ** Averages: the reflection prompt and the statistics *)

Module SumFacts.

Lemma fold_plus_from (l : list Q) : forall a,
  fold_left Qplus l a == a + fold_left Qplus l 0.
Proof.
  induction l as [|x l IH]; intro a; cbn [fold_left].
  - ring.
  - rewrite (IH (a + x)), (IH (0 + x)). ring.
Qed.

Lemma py_sum_cons (x : Q) (l : list Q) : py_sum (x :: l) == x + py_sum l.
Proof.
  unfold py_sum. cbn [fold_left]. rewrite fold_plus_from. ring.
Qed.

Lemma inject_succ (n : nat) :
  inject_Z (Z.of_nat (S n)) == inject_Z (Z.of_nat n) + 1.
Proof.
  rewrite Nat2Z.inj_succ. unfold Z.succ. rewrite inject_Z_plus. reflexivity.
Qed.

Lemma py_sum_ge (lo : Q) (l : list Q) :
  (forall x, In x l -> lo <= x) ->
  lo * inject_Z (Z.of_nat (List.length l)) <= py_sum l.
Proof.
  induction l as [|x l IH]; intro H.
  - unfold py_sum. cbn [fold_left List.length].
    change (inject_Z (Z.of_nat 0)) with 0. lra.
  - rewrite py_sum_cons. cbn [List.length]. rewrite inject_succ.
    assert (lo <= x) by (apply H; now left).
    assert (lo * inject_Z (Z.of_nat (List.length l)) <= py_sum l)
      by (apply IH; intros y Hy; apply H; now right).
    lra.
Qed.

Lemma py_sum_le (hi : Q) (l : list Q) :
  (forall x, In x l -> x <= hi) ->
  py_sum l <= hi * inject_Z (Z.of_nat (List.length l)).
Proof.
  induction l as [|x l IH]; intro H.
  - unfold py_sum. cbn [fold_left List.length].
    change (inject_Z (Z.of_nat 0)) with 0. lra.
  - rewrite py_sum_cons. cbn [List.length]. rewrite inject_succ.
    assert (x <= hi) by (apply H; now left).
    assert (py_sum l <= hi * inject_Z (Z.of_nat (List.length l)))
      by (apply IH; intros y Hy; apply H; now right).
    lra.
Qed.

Lemma inject_length_pos (A : Type) (l : list A) :
  l <> [] -> 0 < inject_Z (Z.of_nat (List.length l)).
Proof.
  destruct l; [congruence|]. intros _. unfold Qlt, inject_Z. simpl. lia.
Qed.

(** The mean of a non-empty list lies between any bounds of its members. *)
Lemma mean_bounds (lo hi : Q) (l : list Q) :
  l <> [] ->
  (forall x, In x l -> lo <= x /\ x <= hi) ->
  lo <= py_sum l / inject_Z (Z.of_nat (List.length l)) /\
  py_sum l / inject_Z (Z.of_nat (List.length l)) <= hi.
Proof.
  intros Hne H. pose proof (inject_length_pos _ l Hne) as Hp.
  split.
  - apply Qle_shift_div_l; [exact Hp|]. apply py_sum_ge. intros x Hx. now apply H.
  - apply Qle_shift_div_r; [exact Hp|]. apply py_sum_le. intros x Hx. now apply H.
Qed.

Lemma py_sum_map_ext (f g : Q -> Q) (l : list Q) :
  (forall x, f x == g x) -> py_sum (map f l) == py_sum (map g l).
Proof.
  intro H. induction l as [|x l IH]; [reflexivity|].
  cbn [map]. rewrite !py_sum_cons, IH, (H x). reflexivity.
Qed.

Lemma clamp_idem (m : Q) :
  py_max (-1) (py_min 1 (py_max (-1) (py_min 1 m))) == py_max (-1) (py_min 1 m).
Proof.
  destruct (clamp_bounds (-1) 1 m) as [H1 H2]; [lra|]. now apply clamp_inside.
Qed.

End SumFacts.

Lemma clamp_ge (lo m : Q) :
  lo <= 1 -> lo <= m -> lo <= py_max (-1) (py_min 1 m).
Proof.
  intros H1 H2.
  destruct (py_min_spec 1 m) as [[H E]|[H E]]; rewrite E;
    match goal with
    | |- _ <= py_max ?a ?b =>
        destruct (py_max_spec a b) as [[H' E']|[H' E']]; rewrite E'; lra
    end.
Qed.

Lemma clamp_le (hi m : Q) :
  -1 <= hi -> m <= hi -> py_max (-1) (py_min 1 m) <= hi.
Proof.
  intros H1 H2.
  destruct (py_min_spec 1 m) as [[H E]|[H E]]; rewrite E;
    match goal with
    | |- py_max ?a ?b <= _ =>
        destruct (py_max_spec a b) as [[H' E']|[H' E']]; rewrite E'; lra
    end.
Qed.

(** X20.  When every recent mood is at least 0.25, the reflection prompt
    is the one for a good phase.  (The test of the code is avg >= 0.2; the
    statement keeps a margin to it, because at moods of exactly 0.2 the
    last bit of the float mean decides the test.) *)
Theorem reflection_prompt_good_place (recent_moods : list Q) :
  recent_moods <> [] ->
  (forall m, In m recent_moods -> 1 # 4 <= m) ->
  generate_reflection_prompt recent_moods = prompt_good_place.
Proof.
  intros Hne H. unfold generate_reflection_prompt.
  destruct recent_moods as [|m0 l0] eqn:El; [congruence|]. rewrite <- El in *.
  set (clamped := map (fun m => py_max (-1) (py_min 1 m)) recent_moods).
  assert (Hc : clamped <> []) by (unfold clamped; rewrite El; discriminate).
  assert (Hb : forall x, In x clamped -> 1 # 4 <= x /\ x <= 1).
  { intros x Hx. apply in_map_iff in Hx. destruct Hx as (m & <- & Hm). split.
    - apply clamp_ge; [lra|now apply H].
    - apply clamp_bounds. lra. }
  destruct (SumFacts.mean_bounds _ _ clamped Hc Hb) as [M1 _].
  assert (M : 2 # 10 <= MoodAnalyzer.py_sum clamped
                        / inject_Z (Z.of_nat (List.length clamped))) by lra.
  apply Qle_bool_iff in M. rewrite M. reflexivity.
Qed.

Lemma reflection_prompt_good_place_witness :
  generate_reflection_prompt [5 # 10; 3; 25 # 100] = prompt_good_place.
Proof.
  apply reflection_prompt_good_place; [discriminate|].
  intros m [<-|[<-|[<-|[]]]]; lra.
Defined.

(** X21.  When every recent mood is at most -0.25, the reflection prompt
    is the one for a tough time.  (The test of the code is avg <= -0.2;
    the statement keeps the same margin to it.) *)
Theorem reflection_prompt_tough_time (recent_moods : list Q) :
  recent_moods <> [] ->
  (forall m, In m recent_moods -> m <= - (1 # 4)) ->
  generate_reflection_prompt recent_moods = prompt_tough_time.
Proof.
  intros Hne H. unfold generate_reflection_prompt.
  destruct recent_moods as [|m0 l0] eqn:El; [congruence|]. rewrite <- El in *.
  set (clamped := map (fun m => py_max (-1) (py_min 1 m)) recent_moods).
  assert (Hc : clamped <> []) by (unfold clamped; rewrite El; discriminate).
  assert (Hb : forall x, In x clamped -> -1 <= x /\ x <= - (1 # 4)).
  { intros x Hx. apply in_map_iff in Hx. destruct Hx as (m & <- & Hm). split.
    - apply clamp_bounds. lra.
    - apply clamp_le; [lra|now apply H]. }
  destruct (SumFacts.mean_bounds _ _ clamped Hc Hb) as [_ M2].
  destruct (Qle_bool (2 # 10) (MoodAnalyzer.py_sum clamped
                               / inject_Z (Z.of_nat (List.length clamped)))) eqn:E.
  { apply Qle_bool_iff in E. lra. }
  assert (M : MoodAnalyzer.py_sum clamped
              / inject_Z (Z.of_nat (List.length clamped)) <= - (2 # 10)) by lra.
  apply Qle_bool_iff in M. rewrite M. reflexivity.
Qed.

Lemma reflection_prompt_tough_time_witness :
  generate_reflection_prompt [- (5 # 10); - 3; - (25 # 100)] = prompt_tough_time.
Proof.
  apply reflection_prompt_tough_time; [discriminate|].
  intros m [<-|[<-|[<-|[]]]]; lra.
Defined.

(** X22.  Moods beyond the scale count as its ends: clamping the moods to
    [-1, 1] beforehand does not change the reflection prompt. *)
Theorem reflection_prompt_clamps (recent_moods : list Q) :
  generate_reflection_prompt (map (fun m => py_max (-1) (py_min 1 m)) recent_moods) =
  generate_reflection_prompt recent_moods.
Proof.
  unfold generate_reflection_prompt.
  destruct recent_moods as [|m0 l0] eqn:El; [reflexivity|]. rewrite <- El.
  set (clamp := fun m => py_max (-1) (py_min 1 m)).
  assert (Hm : map clamp recent_moods <> []) by (rewrite El; discriminate).
  destruct (map clamp recent_moods) as [|c0 cl] eqn:Ec; [congruence|]. rewrite <- Ec.
  assert (Hs : py_sum (map clamp (map clamp recent_moods)) == py_sum (map clamp recent_moods)).
  { rewrite map_map. apply SumFacts.py_sum_map_ext. intro x. apply SumFacts.clamp_idem. }
  assert (Hl : List.length (map clamp (map clamp recent_moods)) =
               List.length (map clamp recent_moods)) by (now rewrite !length_map).
  rewrite Hl.
  set (n := inject_Z (Z.of_nat (List.length (map clamp recent_moods)))).
  assert (Ha : py_sum (map clamp (map clamp recent_moods)) / n ==
               py_sum (map clamp recent_moods) / n) by (now rewrite Hs).
  assert (E1 : Qle_bool (2 # 10) (py_sum (map clamp (map clamp recent_moods)) / n) =
               Qle_bool (2 # 10) (py_sum (map clamp recent_moods) / n)).
  { destruct (Qle_bool (2 # 10) (py_sum (map clamp recent_moods) / n)) eqn:E.
    - apply Qle_bool_iff. apply Qle_bool_iff in E. now rewrite Ha.
    - destruct (Qle_bool (2 # 10) (py_sum (map clamp (map clamp recent_moods)) / n)) eqn:E';
        [|reflexivity].
      apply Qle_bool_iff in E'. rewrite Ha in E'. apply Qle_bool_iff in E'. congruence. }
  assert (E2 : Qle_bool (py_sum (map clamp (map clamp recent_moods)) / n) (- (2 # 10)) =
               Qle_bool (py_sum (map clamp recent_moods) / n) (- (2 # 10))).
  { destruct (Qle_bool (py_sum (map clamp recent_moods) / n) (- (2 # 10))) eqn:E.
    - apply Qle_bool_iff. apply Qle_bool_iff in E. now rewrite Ha.
    - destruct (Qle_bool (py_sum (map clamp (map clamp recent_moods)) / n) (- (2 # 10))) eqn:E';
        [|reflexivity].
      apply Qle_bool_iff in E'. rewrite Ha in E'. apply Qle_bool_iff in E'. congruence. }
  rewrite E1, E2. reflexivity.
Qed.

Module StatisticsFacts.
Import JournalManager.

Lemma dict_incr_get (d : list (string * nat)) (key k : string) :
  dict_get_default (dict_incr d key) k 0%nat =
  (dict_get_default d k 0 + (if String.eqb k key then 1 else 0))%nat.
Proof.
  unfold dict_get_default.
  induction d as [|[k' v] d IH]; cbn [dict_incr dict_get].
  - destruct (String.eqb k key); reflexivity.
  - destruct (String.eqb_spec key k') as [->|Hne]; cbn [dict_get].
    + destruct (String.eqb k k'); lia.
    + destruct (String.eqb_spec k k') as [->|Hne'].
      * destruct (String.eqb_spec k' key) as [->|_]; [congruence|lia].
      * exact IH.
Qed.

Lemma dict_incr_sum (d : list (string * nat)) (key : string) :
  list_sum (map snd (dict_incr d key)) = S (list_sum (map snd d)).
Proof.
  unfold list_sum.
  induction d as [|[k' v] d IH]; cbn [dict_incr]; [reflexivity|].
  destruct (String.eqb key k'); cbn [map snd fold_right]; [lia|].
  rewrite IH. lia.
Qed.

Lemma dict_incr_keys (d : list (string * nat)) (key k : string) :
  In k (map fst (dict_incr d key)) <-> k = key \/ In k (map fst d).
Proof.
  induction d as [|[k' v] d IH]; cbn [dict_incr map fst In].
  - intuition.
  - destruct (String.eqb_spec key k') as [->|Hne]; cbn [map fst In]; [intuition|].
    rewrite IH. intuition.
Qed.

Lemma dict_incr_NoDup (d : list (string * nat)) (key : string) :
  NoDup (map fst d) -> NoDup (map fst (dict_incr d key)).
Proof.
  induction d as [|[k' v] d IH]; cbn [dict_incr map fst]; intro H.
  - constructor; [intros []|constructor].
  - inversion H as [|? ? Hnin Hd]; subst.
    destruct (String.eqb_spec key k') as [->|Hne]; cbn [map fst].
    + constructor; assumption.
    + constructor; [|now apply IH].
      rewrite dict_incr_keys. intros [E|Hin]; [congruence|contradiction].
Qed.

Lemma distribution_from (moods : list (Q * option string)) : forall d,
  NoDup (map fst d) ->
  let d' := fold_left (fun distribution m => dict_incr distribution (emotion_key m)) moods d in
  NoDup (map fst d') /\
  list_sum (map snd d') = (list_sum (map snd d) + List.length moods)%nat /\
  forall k, dict_get_default d' k 0%nat =
            (dict_get_default d k 0 + count_occ string_dec (map emotion_key moods) k)%nat.
Proof.
  induction moods as [|m moods IH]; intros d Hd; cbn [fold_left].
  - split; [exact Hd|]. split; [cbn [List.length]; lia|]. intro k. cbn [map count_occ]. lia.
  - destruct (IH (dict_incr d (emotion_key m)) (dict_incr_NoDup d (emotion_key m) Hd)) as (N & S & C).
    split; [exact N|]. split.
    + rewrite S, dict_incr_sum. cbn [List.length]. lia.
    + intro k. rewrite C, dict_incr_get. cbn [map count_occ].
      destruct (string_dec (emotion_key m) k) as [E|E].
      * subst k. rewrite String.eqb_refl. lia.
      * destruct (String.eqb_spec k (emotion_key m)) as [E'|_]; [congruence|lia].
Qed.

Lemma trend_of_comp (d d' : Q) : d == d' -> trend_of d = trend_of d'.
Proof.
  intro H. unfold trend_of.
  rewrite (Qltb_comp _ _ (Qeq_refl (1 # 10)) _ _ H).
  rewrite (Qltb_comp _ _ H _ _ (Qeq_refl (- (1 # 10)))). reflexivity.
Qed.

End StatisticsFacts.

(** X23.  The emotion distribution of [get_mood_statistics] has one key
    per emotion met, holds for each emotion (lower-cased, a missing one
    read as neutral) the number of analyses with it, and its counts add
    up to the number of analyses. *)
Theorem mood_statistics_distribution
    (total : nat) (moods : list (Q * option string)) :
  let d := JournalManager.emotion_distribution
             (JournalManager.get_mood_statistics (JournalManager.QueryRows total moods)) in
  NoDup (map fst d) /\
  list_sum (map snd d) = List.length moods /\
  forall k, dict_get_default d k 0%nat =
            count_occ string_dec
              (map (fun m => lower (str_or (snd m) "neutral")) moods) k.
Proof.
  intro d.
  assert (E : d = JournalManager.distribution_of moods).
  { unfold d, JournalManager.get_mood_statistics. destruct moods; reflexivity. }
  rewrite E. unfold JournalManager.distribution_of.
  destruct (StatisticsFacts.distribution_from moods [] (NoDup_nil _)) as (N & S & C).
  split; [exact N|]. split; [exact S|]. intro k. apply C.
Qed.

(** X24.  With a single analysis in the period, the first half is empty
    and counts as 0: the trend is decided by the one score alone,
    improving above 0.1, declining below -0.1, and its average is that
    score. *)
Theorem mood_statistics_single_analysis
    (total : nat) (score : Q) (emotion : option string) :
  let st := JournalManager.get_mood_statistics
              (JournalManager.QueryRows total [(score, emotion)]) in
  JournalManager.mood_trend st = JournalManager.trend_of score /\
  exists a, JournalManager.average_mood_score st = Some a /\ a == score.
Proof.
  cbn [JournalManager.get_mood_statistics JournalManager.mood_trend
       JournalManager.average_mood_score map fst List.length].
  change (1 / 2)%nat with 0%nat.
  change (Nat.max 1 0) with 1%nat. change (1 - 0)%nat with 1%nat.
  change (Nat.max 1 1) with 1%nat.
  cbn [firstn skipn]. unfold py_sum. cbn [fold_left].
  change (inject_Z (Z.of_nat 1)) with 1.
  split.
  - apply StatisticsFacts.trend_of_comp. field.
  - eexists. split; [reflexivity|]. field.
Qed.

(** X25.  Over analyses whose scores lie in [-1, 1], as the CHECK
    constraint of the table demands, the average mood score lies in
    [-1, 1] too. *)
Theorem mood_statistics_average_bounds
    (total : nat) (moods : list (Q * option string)) :
  moods <> [] ->
  (forall m, In m moods -> -1 <= fst m /\ fst m <= 1) ->
  exists a,
    JournalManager.average_mood_score
      (JournalManager.get_mood_statistics (JournalManager.QueryRows total moods)) = Some a /\
    -1 <= a /\ a <= 1.
Proof.
  intros Hne H. destruct moods as [|m0 l0]; [congruence|].
  cbn [JournalManager.get_mood_statistics JournalManager.average_mood_score].
  eexists. split; [reflexivity|].
  apply SumFacts.mean_bounds.
  - discriminate.
  - intros x Hx. apply in_map_iff in Hx. destruct Hx as (m & <- & Hm). now apply H.
Qed.

Lemma mood_statistics_average_bounds_witness :
  exists a,
    JournalManager.average_mood_score
      (JournalManager.get_mood_statistics
         (JournalManager.QueryRows 2 [(5 # 10, Some "happy"); (- (3 # 10), Some "sad")]))
      = Some a /\
    -1 <= a /\ a <= 1.
Proof.
  apply mood_statistics_average_bounds; [discriminate|].
  intros m [<-|[<-|[]]]; cbn [fst]; split; lra.
Defined.

(** X26.  With two or more analyses whose scores lie in [-1, 1] and all
    within a band no wider than 0.09, the mood trend is "stable".  (The
    tests of the code are delta > 0.1 and delta < -0.1; the statement
    keeps a margin to them, because at a band of exactly 0.1 the last bit
    of the float difference decides the test.) *)
Theorem mood_statistics_stable_band
    (total : nat) (moods : list (Q * option string)) (lo hi : Q) :
  (2 <= List.length moods)%nat ->
  (forall m, In m moods -> lo <= fst m /\ fst m <= hi) ->
  -1 <= lo -> hi <= 1 -> hi - lo <= 9 # 100 ->
  JournalManager.mood_trend
    (JournalManager.get_mood_statistics (JournalManager.QueryRows total moods)) = "stable".
Proof.
  intros Hn H _ _ Hw. destruct moods as [|m0 l0]; [simpl in Hn; lia|].
  cbn [JournalManager.get_mood_statistics JournalManager.mood_trend].
  set (scores := map fst (m0 :: l0)).
  assert (Hs : forall x, In x scores -> lo <= x /\ x <= hi).
  { intros x Hx. apply in_map_iff in Hx. destruct Hx as (m & <- & Hm). now apply H. }
  assert (Hl : (2 <= List.length scores)%nat) by (unfold scores; now rewrite length_map).
  set (n := List.length scores) in *.
  assert (Hmid : (1 <= n / 2 /\ n / 2 < n)%nat).
  { split; [apply (Nat.div_le_lower_bound n 2 1); lia|apply Nat.div_lt; lia]. }
  set (mid := (n / 2)%nat) in *.
  assert (En : List.length scores = n) by reflexivity.
  clearbody mid. clearbody n.
  assert (L1 : List.length (firstn mid scores) = Nat.max 1 mid).
  { rewrite length_firstn, En, Nat.min_l, Nat.max_r; lia. }
  assert (L2 : List.length (skipn mid scores) = Nat.max 1 (n - mid)).
  { rewrite length_skipn, En, Nat.max_r; lia. }
  assert (N1 : firstn mid scores <> []).
  { intro E. rewrite E, Nat.max_r in L1; [|lia]. cbn [List.length] in L1. lia. }
  assert (N2 : skipn mid scores <> []).
  { intro E. rewrite E, Nat.max_r in L2; [|lia]. cbn [List.length] in L2. lia. }
  rewrite <- L1, <- L2.
  destruct (SumFacts.mean_bounds lo hi (firstn mid scores) N1) as [A1 A2].
  { intros x Hx. apply Hs. rewrite <- (firstn_skipn mid scores).
    apply in_or_app. now left. }
  destruct (SumFacts.mean_bounds lo hi (skipn mid scores) N2) as [B1 B2].
  { intros x Hx. apply Hs. rewrite <- (firstn_skipn mid scores).
    apply in_or_app. now right. }
  unfold JournalManager.trend_of.
  match goal with
  | |- context [Qltb (1 # 10) ?d] =>
      assert (Q1 : Qltb (1 # 10) d = false) by (apply Qltb_false; lra);
      assert (Q2 : Qltb d (- (1 # 10)) = false) by (apply Qltb_false; lra)
  end.
  rewrite Q1, Q2. reflexivity.
Qed.

Lemma mood_statistics_stable_band_witness :
  JournalManager.mood_trend
    (JournalManager.get_mood_statistics
       (JournalManager.QueryRows 3
          [(40 # 100, Some "calm"); (45 # 100, None); (48 # 100, Some "Happy")]))
  = "stable".
Proof.
  apply (mood_statistics_stable_band _ _ (40 # 100) (48 # 100)).
  - simpl. lia.
  - intros m [<-|[<-|[<-|[]]]]; cbn [fst]; split; lra.
  - lra.
  - lra.
  - lra.
Defined.

(* ------------------------------------------------------------------ *)
(** ** The streak *)

Module StreakFacts.
Import App.

Lemma day_get_set (d : list (Z * Q)) (k k' : Z) (v : Q) :
  day_get (day_set d k v) k' = if Z.eqb k' k then Some v else day_get d k'.
Proof.
  induction d as [|[k0 v0] d IH]; cbn [day_set day_get].
  - reflexivity.
  - destruct (Z.eqb_spec k k0) as [->|Hne]; cbn [day_get].
    + destruct (Z.eqb k' k0); reflexivity.
    + destruct (Z.eqb_spec k' k0) as [->|Hne'].
      * destruct (Z.eqb_spec k0 k) as [E|_]; [congruence|reflexivity].
      * exact IH.
Qed.

Lemma day_set_keys (d : list (Z * Q)) (k k' : Z) (v : Q) :
  In k' (map fst (day_set d k v)) <-> k' = k \/ In k' (map fst d).
Proof.
  induction d as [|[k0 v0] d IH]; cbn [day_set map fst In].
  - intuition.
  - destruct (Z.eqb_spec k k0) as [->|Hne]; cbn [map fst In]; [intuition|].
    rewrite IH. intuition.
Qed.

Lemma day_set_NoDup (d : list (Z * Q)) (k : Z) (v : Q) :
  NoDup (map fst d) -> NoDup (map fst (day_set d k v)).
Proof.
  induction d as [|[k0 v0] d IH]; cbn [day_set map fst]; intro H.
  - constructor; [intros []|constructor].
  - inversion H as [|? ? Hnin Hd]; subst.
    destruct (Z.eqb_spec k k0) as [->|Hne]; cbn [map fst].
    + constructor; assumption.
    + constructor; [|now apply IH].
      rewrite day_set_keys. intros [E|Hin]; [congruence|contradiction].
Qed.

Lemma day_get_key (d : list (Z * Q)) (k : Z) (v : Q) :
  day_get d k = Some v -> In k (map fst d).
Proof.
  induction d as [|[k0 v0] d IH]; cbn [day_get map fst In]; [discriminate|].
  destruct (Z.eqb_spec k k0) as [->|Hne]; intro H; [now left|right; auto].
Qed.

Lemma tracks_step (seen : list streak_entry) (d : list (Z * Q)) (e : streak_entry) :
  tracks seen d -> tracks (seen ++ [e])%list (record_entry d e).
Proof.
  intros [Hn Ht]. unfold record_entry. destruct e as [[key|] sc]; cbn [fst snd].
  - set (s := num_or sc 0).
    assert (Hnew : forall d', NoDup (map fst d') ->
              (forall day, day_get d' day =
                           if Z.eqb day key then Some s else day_get d day) ->
              (forall e0, In e0 seen -> fst e0 = Some key -> score_of_entry e0 <= s) ->
              tracks (seen ++ [(Some key, sc)])%list d').
    { intros d' Hn' Hg Hmax. split; [exact Hn'|]. intro day. rewrite Hg.
      destruct (Z.eqb_spec day key) as [->|Hne].
      - split.
        + exists (Some key, sc). split; [apply in_or_app; right; now left|].
          split; reflexivity.
        + intros e0 Hin He0. apply in_app_iff in Hin. destruct Hin as [Hin|[<-|[]]].
          * now apply Hmax.
          * apply Qle_refl.
      - specialize (Ht day). destruct (day_get d day) as [best|].
        + destruct Ht as [(e0 & Hin & He0 & Hs) Hm]. split.
          * exists e0. split; [apply in_or_app; now left|]. auto.
          * intros e1 Hin1 He1. apply in_app_iff in Hin1.
            destruct Hin1 as [Hin1|[<-|[]]]; [now apply Hm|].
            cbn [fst] in He1. congruence.
        + intros e1 Hin1. apply in_app_iff in Hin1.
          destruct Hin1 as [Hin1|[<-|[]]]; [now apply Ht|].
          cbn [fst]. congruence. }
    pose proof (Ht key) as Hk. destruct (day_get d key) as [best|] eqn:G.
    + destruct Hk as [(e0 & Hin & He0 & Hs) Hm].
      destruct (Qltb_spec best s) as [[Hlt E]|[Hge E]]; rewrite E.
      * apply Hnew; [now apply day_set_NoDup|intro day; apply day_get_set|].
        intros e1 Hin1 He1. specialize (Hm e1 Hin1 He1). lra.
      * split; [exact Hn|]. intro day. specialize (Ht day).
        destruct (Z.eqb_spec day key) as [->|Hne].
        -- rewrite G in *. destruct Ht as [_ Hm']. split.
           ++ exists e0. split; [apply in_or_app; now left|]. auto.
           ++ intros e1 Hin1 He1. apply in_app_iff in Hin1.
              destruct Hin1 as [Hin1|[<-|[]]]; [now apply Hm|exact Hge].
        -- destruct (day_get d day) as [b|].
           ++ destruct Ht as [(e1 & Hin1 & He1 & Hs1) Hm1]. split.
              ** exists e1. split; [apply in_or_app; now left|]. auto.
              ** intros e2 Hin2 He2. apply in_app_iff in Hin2.
                 destruct Hin2 as [Hin2|[<-|[]]]; [now apply Hm1|].
                 cbn [fst] in He2. congruence.
           ++ intros e2 Hin2. apply in_app_iff in Hin2.
              destruct Hin2 as [Hin2|[<-|[]]]; [now apply Ht|].
              cbn [fst]. congruence.
    + apply Hnew; [now apply day_set_NoDup|intro day; apply day_get_set|].
      intros e1 Hin1 He1. exfalso. now apply (Hk e1 Hin1).
  - split; [exact Hn|]. intro day. specialize (Ht day).
    destruct (day_get d day) as [b|].
    + destruct Ht as [(e1 & Hin1 & He1 & Hs1) Hm1]. split.
      * exists e1. split; [apply in_or_app; now left|]. auto.
      * intros e2 Hin2 He2. apply in_app_iff in Hin2.
        destruct Hin2 as [Hin2|[<-|[]]]; [now apply Hm1|]. discriminate He2.
    + intros e2 Hin2. apply in_app_iff in Hin2.
      destruct Hin2 as [Hin2|[<-|[]]]; [now apply Ht|]. discriminate.
Qed.

Lemma tracks_fold (entries : list streak_entry) : forall seen d,
  tracks seen d -> tracks (seen ++ entries)%list (fold_left record_entry entries d).
Proof.
  induction entries as [|e entries IH]; intros seen d H; cbn [fold_left].
  - now rewrite app_nil_r.
  - replace (seen ++ e :: entries)%list with ((seen ++ [e]) ++ entries)%list
      by (rewrite <- app_assoc; reflexivity).
    apply IH. now apply tracks_step.
Qed.

Lemma tracks_by_date (entries : list streak_entry) : tracks entries (by_date_of entries).
Proof.
  apply (tracks_fold entries [] []). split; [constructor|]. intros day e [].
Qed.

Lemma counts_good_day (entries : list streak_entry) (day : Z) :
  counts (by_date_of entries) day <-> good_day entries day.
Proof.
  destruct (tracks_by_date entries) as [_ Ht]. specialize (Ht day).
  unfold counts, good_day. split.
  - intros (best & G & Hb). rewrite G in Ht.
    destruct Ht as [(e & Hin & He & Hs) _]. exists e.
    unfold score_of_entry in Hs. rewrite Hs. auto.
  - intros (e & Hin & He & Hs). destruct (day_get (by_date_of entries) day) as [best|].
    + exists best. split; [reflexivity|].
      destruct Ht as [_ Hm]. specialize (Hm e Hin He). unfold score_of_entry in Hm. lra.
    + exfalso. now apply (Ht e Hin).
Qed.

Lemma streak_loop_shift (fuel : nat) (d : list (Z * Q)) : forall today streak,
  streak_loop fuel d today streak = (streak + streak_loop fuel d today 0)%nat.
Proof.
  induction fuel as [|fuel IH]; intros today streak; cbn [streak_loop]; [lia|].
  destruct (day_get d today) as [best|]; [|lia].
  destruct (Qltb best 0); [lia|].
  rewrite (IH (today - 1)%Z (streak + 1)%nat), (IH (today - 1)%Z (0 + 1)%nat). lia.
Qed.

Lemma streak_loop_spec (fuel : nat) (d : list (Z * Q)) : forall today,
  let r := streak_loop fuel d today 0 in
  (forall k, (k < r)%nat -> counts d (today - Z.of_nat k)) /\
  ((r < fuel)%nat -> ~ counts d (today - Z.of_nat r)).
Proof.
  induction fuel as [|fuel IH]; intro today; cbn [streak_loop].
  - split; [intros k Hk; lia|intro H; lia].
  - destruct (day_get d today) as [best|] eqn:G.
    + destruct (Qltb_spec best 0) as [[Hlt E]|[Hge E]]; rewrite E.
      * split; [intros k Hk; lia|]. intros _ (b & Hb & Hp).
        rewrite Z.sub_0_r in Hb. rewrite G in Hb. inversion Hb. subst. lra.
      * rewrite streak_loop_shift. destruct (IH (today - 1)%Z) as [H1 H2].
        set (r := streak_loop fuel d (today - 1) 0) in *.
        split.
        -- intros k Hk. destruct k as [|k].
           ++ rewrite Z.sub_0_r. exists best. auto.
           ++ replace (today - Z.of_nat (S k))%Z with (today - 1 - Z.of_nat k)%Z by lia.
              apply H1. lia.
        -- intro Hr.
           replace (today - Z.of_nat (0 + 1 + r))%Z with (today - 1 - Z.of_nat r)%Z by lia.
           apply H2. lia.
    + split; [intros k Hk; lia|]. intros _ (b & Hb & _).
      rewrite Z.sub_0_r in Hb. congruence.
Qed.

(** The loop cannot run longer than there are days in [by_date]. *)
Lemma streak_loop_bound (fuel : nat) (d : list (Z * Q)) (today : Z) :
  NoDup (map fst d) -> (streak_loop fuel d today 0 <= List.length d)%nat.
Proof.
  intro Hn. destruct (streak_loop_spec fuel d today) as [H _].
  set (r := streak_loop fuel d today 0) in *.
  set (days := map (fun k => (today - Z.of_nat k)%Z) (seq 0 r)).
  assert (Hd : NoDup days).
  { unfold days. apply Injective_map_NoDup; [|apply seq_NoDup].
    intros a b Hab. lia. }
  assert (Hi : incl days (map fst d)).
  { intros day Hday. unfold days in Hday. apply in_map_iff in Hday.
    destruct Hday as (k & <- & Hk). apply in_seq in Hk.
    destruct (H k) as (b & Hb & _); [lia|]. now apply (day_get_key d _ b). }
  pose proof (NoDup_incl_length Hd Hi) as L.
  unfold days in L. rewrite length_map, length_seq, length_map in L. exact L.
Qed.

End StreakFacts.

(** X27.  [compute_streak] returns the number of consecutive days, counted
    back from today, that have an entry with a mood score that is not
    negative: each of the first [n] days back has such an entry, and the
    day after them has none. *)
Theorem compute_streak_counts_good_days (entries : list App.streak_entry) (today : Z) :
  let n := App.compute_streak entries today in
  (forall k, (k < n)%nat -> App.good_day entries (today - Z.of_nat k)) /\
  ~ App.good_day entries (today - Z.of_nat n).
Proof.
  intro n. unfold n, App.compute_streak.
  destruct entries as [|e0 l0] eqn:El.
  - split; [intros k Hk; lia|]. intros (e & [] & _).
  - rewrite <- El. set (d := App.by_date_of entries).
    destruct (StreakFacts.tracks_by_date entries) as [Hn _]. fold d in Hn.
    destruct (StreakFacts.streak_loop_spec (S (List.length d)) d today) as [H1 H2].
    pose proof (StreakFacts.streak_loop_bound (S (List.length d)) d today Hn) as Hb.
    split.
    + intros k Hk. apply StreakFacts.counts_good_day. now apply H1.
    + intro Hg. apply StreakFacts.counts_good_day in Hg. apply H2; [lia|exact Hg].
Qed.

(* ------------------------------------------------------------------ *)
(** ** The validator on any candidate *)

(** X28.  [validate_and_fix] never raises, whichever keys of the
    dictionary are missing or empty; the score of its result lies in [-1, 1]
    and the emotion is a non-empty label without upper-case letters. *)
Theorem validate_and_fix_total (x : mood_dict) (text : string) :
  exists r,
    validate_and_fix x text = Ok r /\
    -1 <= mood_score r /\ mood_score r <= 1 /\
    dominant_emotion r <> "" /\ lower (dominant_emotion r) = dominant_emotion r.
Proof.
  unfold validate_and_fix.
  destruct (run_checks_spec x text) as (e & s & c & Hr & Hs & _).
  rewrite Hr. cbn [bind]. eexists. split; [reflexivity|].
  cbn [fixed_result mood_score dominant_emotion].
  pose proof (settled_round text e s c Hs) as (_ & Hl & Hn & [B1 B2] & _).
  auto.
Qed.

(** X29.  A keyword of a result of [validate_and_fix] is a keyword of the
    result's emotion, or it is alphabetic and longer than four
    characters. *)
Theorem validate_and_fix_keyword_kinds
    (x : mood_dict) (text : string) (r : MoodResult) (k : string) :
  validate_and_fix x text = Ok r -> In k (keywords r) ->
  In k (dict_get_default EMOTION_KEYWORDS (dominant_emotion r) []) \/
  ((4 < String.length k)%nat /\ isalpha k = true).
Proof.
  unfold validate_and_fix.
  destruct (run_checks x text) as [[[e s] c]|]; cbn [bind]; [|discriminate].
  intro H. inversion H. cbn [fixed_result keywords dominant_emotion]. clear H.
  unfold _extract_quality_keywords.
  set (tokens := _tokenize text).
  set (A := emotion_kwds_of e tokens).
  set (B := content_words_of A tokens).
  assert (H0 : (List.length (@nil string) < 5)%nat) by (simpl; lia).
  destruct (KeywordFacts.dedup_loop_spec (A ++ B)%list [] (NoDup_nil _) H0)
    as (ext & E & _ & _ & Sub).
  simpl in E. rewrite E.
  destruct ext as [|k0 ext].
  - intros [<-|[<-|[]]]; right; split; (reflexivity || (simpl; lia)).
  - intro Hk. apply Sub in Hk. apply in_app_iff in Hk. destruct Hk as [Hk|Hk].
    + left. unfold A, emotion_kwds_of in Hk. apply filter_In in Hk. tauto.
    + right. unfold B, content_words_of in Hk. apply filter_In in Hk.
      destruct Hk as [_ Hk]. repeat rewrite andb_true_iff in Hk.
      destruct Hk as [[[Hlen Ha] _] _]. apply Nat.ltb_lt in Hlen. auto.
Qed.

Lemma validate_and_fix_keyword_kinds_witness :
  let r := mkMoodResult (py_round (4 # 10) 4) "calm" (py_round (9 # 10) 4)
             ["calm"; "garden"] in
  In "garden" (dict_get_default EMOTION_KEYWORDS (dominant_emotion r) []) \/
  ((4 < String.length "garden")%nat /\ isalpha "garden" = true).
Proof.
  intro r.
  apply (validate_and_fix_keyword_kinds
           (mkMoodDict (Some (4 # 10)) (Some "calm") (Some (9 # 10)) None)
           "Calm in the garden" r "garden").
  - vm_compute. reflexivity.
  - simpl. tauto.
Defined.
